(** * Fleet tracking backend: presence, bounded history, persistence

    A shallow embedding of the two servers of the repository and of the
    mongoose schemas they use:

    - [src/src/server.js]          (module [Server]): socket handlers over an
      in-memory [drivers] Map and [locations] array, writing through to
      MongoDB when [process.env.MONGODB_URI] is set;
    - [src/src/models/Driver.js] and the Location model
      ([src/unnamed/part_000]): the schemas [Server] saves through;
    - [src/unnamed/part_001]       (module [MongoServer]): the server that
      keeps everything in MongoDB, with the [activeConnections] Map and the
      periodic cleanup task.

    Conventions.  A [Date] and its ISO string are both a number of
    milliseconds since the epoch ([Z]).  JSON numbers are rationals ([Q]).
    A field that a JavaScript object may lack is an [option]; device ids
    and driver names of registrations are strings.  One handler invocation
    reads the clock once ([now]) and runs to completion before the next
    one starts (without a database no handler awaits anything; with one,
    the in-memory part of a handler still runs in one piece after its
    awaits).  A durable operation throws either because mongoose
    validation rejects the document or because the environment makes it
    fail; the latter is the [fault] argument of a handler: [Some k] makes
    the [k]-th durable call of that invocation throw.  Documents are
    modelled without [_id], [__v], [createdAt] and [updatedAt].
    Informational [console.log] lines are not modelled; [console.error]
    and every [emit] are.  A string is the sequence of its UTF-8 bytes.

    The definitions come first: the two servers, then concrete runs
    ([Scenario]).  The properties follow: containers ([JsMapFacts],
    [CollectionFacts], [SortFacts]), each server ([ServerFacts],
    [MongoServerFacts]) and what spans both ([Presence], [History]). *)

From Stdlib Require Import ZArith QArith Lia.
From Stdlib Require OrderedTypeEx.
From stdpp Require Import base option list strings gmap sorting.

Close Scope Q_scope.
Open Scope Z_scope.
Open Scope nat_scope.
Open Scope string_scope.
Open Scope list_scope.

(** ** Values shared by both servers *)

Definition Timestamp := Z.
Bind Scope Z_scope with Timestamp.

(** The [locationData] object a client sends with a location event; also
    the shape of an entry of the in-memory [locations] array, which is a
    spread copy of it. *)
Record LocationData := mkLocationData {
  l_deviceId   : string;
  l_driverName : option string;
  l_latitude   : option Q;
  l_longitude  : option Q;
  l_accuracy   : option Q;
  l_speed      : option Q;
  l_heading    : option Q;
  l_timestamp  : option Timestamp;
  l_isOnline   : option bool
}.

(** [{ ...locationData, timestamp: t, isOnline: b }] *)
Definition with_timestamp_isOnline (t : option Timestamp) (b : option bool)
    (l : LocationData) : LocationData :=
  {| l_deviceId := l_deviceId l; l_driverName := l_driverName l;
     l_latitude := l_latitude l; l_longitude := l_longitude l;
     l_accuracy := l_accuracy l; l_speed := l_speed l;
     l_heading := l_heading l; l_timestamp := t; l_isOnline := b |}.

(** [{ ...locationData, deviceId: d }] *)
Definition with_deviceId (d : string) (l : LocationData) : LocationData :=
  {| l_deviceId := d; l_driverName := l_driverName l;
     l_latitude := l_latitude l; l_longitude := l_longitude l;
     l_accuracy := l_accuracy l; l_speed := l_speed l;
     l_heading := l_heading l; l_timestamp := l_timestamp l;
     l_isOnline := l_isOnline l |}.

(** The capture time a client put into a sample (0 when it put none). *)
Definition capture_time (l : LocationData) : Timestamp :=
  match l_timestamp l with
  | Some t => t
  | None => 0%Z
  end.

(** What a handler can throw. *)
Inductive Error :=
| ValidationError (path : string)
| TransientError.

Inductive Result (A : Type) :=
| Ok (a : A)
| Throw (e : Error).
Arguments Ok {A} a.
Arguments Throw {A} e.

(** Environment failure of durable calls: [Some k] is "the [k]-th durable
    call of this handler invocation throws". *)
Definition Fault := option nat.

Definition faulty (fault : Fault) (k : nat) : bool :=
  match fault with
  | Some j => Nat.eqb j k
  | None => false
  end.

(** JavaScript truthiness of a string. *)
Definition truthy (s : string) : bool :=
  match s with
  | EmptyString => false
  | String _ _ => true
  end.

(** mongoose's [required] on a String path: present and not empty. *)
Definition required_string (path : string) (v : option string) : Result string :=
  match v with
  | Some s => if truthy s then Ok s else Throw (ValidationError path)
  | None => Throw (ValidationError path)
  end.

(** mongoose's [required] on a Number path, with optional [min] / [max]. *)
Definition required_number (path : string) (lo hi : option Q) (v : option Q)
    : Result Q :=
  match v with
  | None => Throw (ValidationError path)
  | Some q =>
      let above := match lo with Some m => Qle_bool m q | None => true end in
      let below := match hi with Some m => Qle_bool q m | None => true end in
      if above && below then Ok q else Throw (ValidationError path)
  end.

(** A path with a [default]. *)
Definition with_default {A : Type} (d : A) (v : option A) : A :=
  match v with
  | Some a => a
  | None => d
  end.

(** ** Collections and queries of the durable store *)

(** [sort]: by insertion, [x] going ahead of the first [y] with
    [before x y].  The order MongoDB gives to documents that compare equal
    is not specified; this one keeps them in collection order. *)
Fixpoint insert_by {A : Type} (before : A -> A -> bool) (x : A) (l : list A)
    : list A :=
  match l with
  | [] => [x]
  | y :: l' => if before x y then x :: y :: l' else y :: insert_by before x l'
  end.

Fixpoint sort_by {A : Type} (before : A -> A -> bool) (l : list A) : list A :=
  match l with
  | [] => []
  | x :: l' => insert_by before x (sort_by before l')
  end.

(** [.sort({ key: -1 })] *)
Definition sort_desc {A : Type} (key : A -> Z) (l : list A) : list A :=
  sort_by (fun a b => (key b <=? key a)%Z) l.

(** [findOneAndUpdate(filter, update, { upsert })] on a collection: the
    first matching document is updated; with none and [upsert = Some d] the
    document [d] is inserted. *)
Fixpoint update_first {A : Type} (matches : A -> bool) (upd : A -> A)
    (l : list A) : option (list A) :=
  match l with
  | [] => None
  | x :: l' =>
      if matches x then Some (upd x :: l')
      else match update_first matches upd l' with
           | Some r => Some (x :: r)
           | None => None
           end
  end.

Definition findOneAndUpdate {A : Type} (matches : A -> bool) (upd : A -> A)
    (upsert : option A) (coll : list A) : list A :=
  match update_first matches upd coll with
  | Some coll' => coll'
  | None =>
      match upsert with
      | Some d => coll ++ [d]
      | None => coll
      end
  end.

(** [updateMany(filter, update)] *)
Definition updateMany {A : Type} (matches : A -> bool) (upd : A -> A)
    (coll : list A) : list A :=
  map (fun x => if matches x then upd x else x) coll.

(** ** A JavaScript [Map] with string keys

    Iteration is in insertion order and [set] on a present key keeps the
    key's position, so the Map is an association list. *)
Module JsMap.
Section Defs.
Context {V : Type}.

Definition t := list (string * V).

Definition has (k : string) (m : t) : bool :=
  existsb (fun kv => String.eqb (fst kv) k) m.

Fixpoint get (k : string) (m : t) : option V :=
  match m with
  | [] => None
  | (k', v) :: m' => if String.eqb k' k then Some v else get k m'
  end.

Fixpoint set (k : string) (v : V) (m : t) : t :=
  match m with
  | [] => [(k, v)]
  | (k', v') :: m' =>
      if String.eqb k' k then (k, v) :: m' else (k', v') :: set k v m'
  end.

Definition keys (m : t) : list string := map fst m.
Definition values (m : t) : list V := map snd m.
End Defs.
Arguments t V : clear implicits.
End JsMap.

(** [String.prototype.trim] (the schema option [trim: true]).  A string
    is the sequence of its UTF-8 bytes.  [trim] strips from both ends the
    white space and line terminators of ECMAScript: U+0009 to U+000D and
    U+0020 (one byte), U+00A0 (two bytes), and U+1680, U+2000 to U+200A,
    U+2028, U+2029, U+202F, U+205F, U+3000 and U+FEFF (three bytes). *)
Definition is_space (c : Ascii.ascii) : bool :=
  let n := Ascii.nat_of_ascii c in
  Nat.eqb n 32 || (Nat.leb 9 n && Nat.leb n 13).

Definition is_space2 (c1 c2 : Ascii.ascii) : bool :=
  Nat.eqb (Ascii.nat_of_ascii c1) 194 && Nat.eqb (Ascii.nat_of_ascii c2) 160.

Definition is_space3 (c1 c2 c3 : Ascii.ascii) : bool :=
  let n1 := Ascii.nat_of_ascii c1 in
  let n2 := Ascii.nat_of_ascii c2 in
  let n3 := Ascii.nat_of_ascii c3 in
  (Nat.eqb n1 225 && Nat.eqb n2 154 && Nat.eqb n3 128)
  || (Nat.eqb n1 226 && Nat.eqb n2 128
      && ((Nat.leb 128 n3 && Nat.leb n3 138)
          || Nat.eqb n3 168 || Nat.eqb n3 169 || Nat.eqb n3 175))
  || (Nat.eqb n1 226 && Nat.eqb n2 129 && Nat.eqb n3 159)
  || (Nat.eqb n1 227 && Nat.eqb n2 128 && Nat.eqb n3 128)
  || (Nat.eqb n1 239 && Nat.eqb n2 187 && Nat.eqb n3 191).

(** Whether a string is exactly one white space character. *)
Definition white_space (s : string) : bool :=
  match s with
  | String c EmptyString => is_space c
  | String c1 (String c2 EmptyString) => is_space2 c1 c2
  | String c1 (String c2 (String c3 EmptyString)) => is_space3 c1 c2 c3
  | _ => false
  end.

Fixpoint trim_start (s : string) : string :=
  match s with
  | EmptyString => EmptyString
  | String c1 s1 =>
      if is_space c1 then trim_start s1
      else match s1 with
           | EmptyString => s
           | String c2 s2 =>
               if is_space2 c1 c2 then trim_start s2
               else match s2 with
                    | EmptyString => s
                    | String c3 s3 =>
                        if is_space3 c1 c2 c3 then trim_start s3 else s
                    end
           end
  end.

(** What is left of [String c s'] once the end of [s'] is trimmed ends
    with a white space character only when it is one. *)
Fixpoint trim_end (s : string) : string :=
  match s with
  | EmptyString => EmptyString
  | String c s' =>
      let r := String c (trim_end s') in
      if white_space r then EmptyString else r
  end.

Definition trim (s : string) : string := trim_end (trim_start s).

(** ** Handler bodies: state, output and exceptions

    A handler body is a computation over the process state [W] that
    returns or throws; what it changed before throwing stays changed. *)
Section Monad.
Context {W : Type}.

Definition M (A : Type) : Type := W -> Result A * W.

Definition ret {A : Type} (a : A) : M A := fun w => (Ok a, w).

Definition bind {A B : Type} (c : M A) (k : A -> M B) : M B :=
  fun w =>
    match c w with
    | (Ok a, w') => k a w'
    | (Throw e, w') => (Throw e, w')
    end.

Definition throw {A : Type} (e : Error) : M A := fun w => (Throw e, w).

Definition gets {A : Type} (f : W -> A) : M A := fun w => (Ok (f w), w).

Definition modify (f : W -> W) : M unit := fun w => (Ok tt, f w).

(** [try { body } catch (error) { handler }] *)
Definition try_catch (body : M unit) (handler : Error -> M unit) : M unit :=
  fun w =>
    match body w with
    | (Ok _, w') => (Ok tt, w')
    | (Throw e, w') => handler e w'
    end.

Definition when (b : bool) (c : M unit) : M unit :=
  if b then c else ret tt.

Definition lift {A : Type} (r : Result A) : M A := fun w => (r, w).

(** [await] of the [k]-th durable call of the invocation. *)
Definition await {A : Type} (fault : Fault) (k : nat) (c : M A) : M A :=
  if faulty fault k then throw TransientError else c.

End Monad.
Arguments M W A : clear implicits.

Notation "x <- c1 ;; c2" := (bind c1 (fun x => c2))
  (at level 100, c1 at next level, right associativity).
Notation "c1 ;; c2" := (bind c1 (fun _ => c2))
  (at level 100, right associativity).

(** * The server of [src/src/server.js] *)
Module Server.

(** An entry of the [drivers] Map. *)
Record DriverData := mkDriverData {
  d_deviceId   : string;
  d_driverName : string;
  d_isOnline   : bool;
  d_lastSeen   : Timestamp;
  d_socketId   : option string
}.

(** A document of the Driver collection ([models/Driver.js]). *)
Record DriverDoc := mkDriverDoc {
  dd_deviceId   : string;
  dd_driverName : string;
  dd_isOnline   : bool;
  dd_lastSeen   : Timestamp
}.

(** A document of the Location collection (the Location model). *)
Record LocationDoc := mkLocationDoc {
  ld_deviceId   : string;
  ld_driverName : string;
  ld_latitude   : Q;
  ld_longitude  : Q;
  ld_accuracy   : Q;
  ld_speed      : Q;
  ld_heading    : Q;
  ld_timestamp  : Timestamp;
  ld_isOnline   : bool
}.

(** What [io.emit] sends to every connected client. *)
Inductive Broadcast :=
| DriversUpdated (ds : list DriverData)
| LocationUpdate (l : LocationData).

Inductive Effect :=
| IoEmit (b : Broadcast)
| ConsoleError (msg : string).

(** The process state: the two module-level variables, the [deviceId]
    property of each socket, the two collections, and what was emitted
    and logged so far (oldest first). *)
Record World := mkWorld {
  drivers     : JsMap.t DriverData;
  locations   : list LocationData;
  sockets     : gmap string string;
  Drivers     : list DriverDoc;
  Locations   : list LocationDoc;
  out         : list Effect
}.

Definition set_drivers (f : JsMap.t DriverData -> JsMap.t DriverData)
    (w : World) : World :=
  mkWorld (f (drivers w)) (locations w) (sockets w) (Drivers w)
          (Locations w) (out w).
Definition set_locations (f : list LocationData -> list LocationData)
    (w : World) : World :=
  mkWorld (drivers w) (f (locations w)) (sockets w) (Drivers w)
          (Locations w) (out w).
Definition set_sockets (f : gmap string string -> gmap string string)
    (w : World) : World :=
  mkWorld (drivers w) (locations w) (f (sockets w)) (Drivers w)
          (Locations w) (out w).
Definition set_Drivers (f : list DriverDoc -> list DriverDoc)
    (w : World) : World :=
  mkWorld (drivers w) (locations w) (sockets w) (f (Drivers w))
          (Locations w) (out w).
Definition set_Locations (f : list LocationDoc -> list LocationDoc)
    (w : World) : World :=
  mkWorld (drivers w) (locations w) (sockets w) (Drivers w)
          (f (Locations w)) (out w).
Definition add_out (e : Effect) (w : World) : World :=
  mkWorld (drivers w) (locations w) (sockets w) (Drivers w)
          (Locations w) (out w ++ [e]).

Definition io_emit (b : Broadcast) : M World unit := modify (add_out (IoEmit b)).
Definition console_error (msg : string) : M World unit :=
  modify (add_out (ConsoleError msg)).

(** ** The models *)

(** [new Location({...}).save()] under the Location schema: [deviceId],
    [driverName], [latitude] in [-90, 90] and [longitude] in [-180, 180]
    are required; [accuracy], [speed] and [heading] default to 0. *)
Definition Location_validate (l : LocationData) (timestamp : Timestamp)
    (isOnline : option bool) : Result LocationDoc :=
  match required_string "deviceId" (Some (l_deviceId l)) with
  | Throw e => Throw e
  | Ok deviceId =>
  match required_string "driverName" (l_driverName l) with
  | Throw e => Throw e
  | Ok driverName =>
  match required_number "latitude" (Some (-90)%Q) (Some 90%Q) (l_latitude l) with
  | Throw e => Throw e
  | Ok latitude =>
  match required_number "longitude" (Some (-180)%Q) (Some 180%Q) (l_longitude l) with
  | Throw e => Throw e
  | Ok longitude =>
      Ok {| ld_deviceId := deviceId; ld_driverName := driverName;
            ld_latitude := latitude; ld_longitude := longitude;
            ld_accuracy := with_default 0%Q (l_accuracy l);
            ld_speed := with_default 0%Q (l_speed l);
            ld_heading := with_default 0%Q (l_heading l);
            ld_timestamp := timestamp;
            ld_isOnline := with_default true isOnline |}
  end end end end.

Definition Location_save (l : LocationData) (timestamp : Timestamp)
    (isOnline : option bool) : M World unit :=
  doc <- lift (Location_validate l timestamp isOnline) ;;
  modify (set_Locations (fun coll => coll ++ [doc])).

Definition Driver_findOneAndUpdate (deviceId : string)
    (upd : DriverDoc -> DriverDoc) (upsert : option DriverDoc) : M World unit :=
  modify (set_Drivers
    (findOneAndUpdate (fun d => String.eqb (dd_deviceId d) deviceId) upd upsert)).

Section Handlers.
(** Whether [process.env.MONGODB_URI] is set. *)
Variable MONGODB_URI : bool.

(** [socket.on('register-driver', ...)] *)
Definition register_driver (socket_id deviceId driverName : string)
    (now : Timestamp) (fault : Fault) : M World unit :=
  let driverData :=
    {| d_deviceId := deviceId; d_driverName := driverName;
       d_isOnline := true; d_lastSeen := now;
       d_socketId := Some socket_id |} in
  try_catch
    (when MONGODB_URI
       (await fault 0
          (Driver_findOneAndUpdate deviceId
             (fun d => {| dd_deviceId := dd_deviceId d;
                          dd_driverName := trim driverName;
                          dd_isOnline := true; dd_lastSeen := now |})
             (Some {| dd_deviceId := deviceId;
                      dd_driverName := trim driverName;
                      dd_isOnline := true; dd_lastSeen := now |}))) ;;
     modify (set_drivers (JsMap.set deviceId driverData)) ;;
     modify (set_sockets (insert socket_id deviceId)) ;;
     ds <- gets (fun w => JsMap.values (drivers w)) ;;
     io_emit (DriversUpdated ds))
    (fun _ => console_error "Error registering driver:").

(** The eviction of the location-update handler: with more than 100
    entries of the device, [splice] away the first of them
    ([findIndex] gives -1 when there is none, and [splice(-1, 1)]
    removes the last entry). *)
Definition evict (deviceId : string) (locs : list LocationData)
    : list LocationData :=
  let deviceLocations := filter (fun loc => l_deviceId loc = deviceId) locs in
  if decide (100 < length deviceLocations) then
    match list_find (fun loc => l_deviceId loc = deviceId) locs with
    | Some (firstOldLocationIndex, _) => delete firstOldLocationIndex locs
    | None => take (length locs - 1) locs
    end
  else locs.

(** [socket.on('location-update', ...)] *)
Definition location_update (socket_id : string) (locationData : LocationData)
    (now : Timestamp) (fault : Fault) : M World unit :=
  let deviceId := l_deviceId locationData in
  let location := with_timestamp_isOnline (Some now) (Some true) locationData in
  try_catch
    (when MONGODB_URI
       (await fault 0 (Location_save location now (l_isOnline location)) ;;
        await fault 1
          (Driver_findOneAndUpdate deviceId
             (fun d => {| dd_deviceId := dd_deviceId d;
                          dd_driverName := dd_driverName d;
                          dd_isOnline := true; dd_lastSeen := now |})
             None)) ;;
     modify (set_locations (fun locs => locs ++ [location])) ;;
     modify (set_locations (evict deviceId)) ;;
     has <- gets (fun w => JsMap.has deviceId (drivers w)) ;;
     when has
       (driver <- gets (fun w => JsMap.get deviceId (drivers w)) ;;
        match driver with
        | Some driver =>
            modify (set_drivers (JsMap.set deviceId
              {| d_deviceId := d_deviceId driver;
                 d_driverName := d_driverName driver;
                 d_isOnline := true; d_lastSeen := now;
                 d_socketId := d_socketId driver |}))
        | None => ret tt
        end) ;;
     io_emit (LocationUpdate location))
    (fun _ => console_error "Error saving location:").

(** [socket.on('disconnect', ...)] *)
Definition disconnect (socket_id : string) (now : Timestamp) (fault : Fault)
    : M World unit :=
  bound <- gets (fun w => sockets w !! socket_id) ;;
  match bound with
  | Some deviceId =>
      when (truthy deviceId)
        (try_catch
           (when MONGODB_URI
              (await fault 0
                 (Driver_findOneAndUpdate deviceId
                    (fun d => {| dd_deviceId := dd_deviceId d;
                                 dd_driverName := dd_driverName d;
                                 dd_isOnline := false;
                                 dd_lastSeen := now |})
                    None)) ;;
            has <- gets (fun w => JsMap.has deviceId (drivers w)) ;;
            when has
              (driver <- gets (fun w => JsMap.get deviceId (drivers w)) ;;
               match driver with
               | Some driver =>
                   modify (set_drivers (JsMap.set deviceId
                     {| d_deviceId := d_deviceId driver;
                        d_driverName := d_driverName driver;
                        d_isOnline := false; d_lastSeen := now;
                        d_socketId := d_socketId driver |})) ;;
                   ds <- gets (fun w => JsMap.values (drivers w)) ;;
                   io_emit (DriversUpdated ds)
               | None => ret tt
               end))
           (fun _ => console_error "Error updating driver status:"))
  | None => ret tt
  end.

(** ** The query routes *)

(** [GET /api/drivers] *)
Definition get_drivers (w : World) : list DriverData + list DriverDoc :=
  if MONGODB_URI then inr (sort_desc dd_lastSeen (Drivers w))
  else inl (JsMap.values (drivers w)).

(** [GET /api/locations/:deviceId] *)
Definition get_device_locations (deviceId : string) (w : World)
    : list LocationData + list LocationDoc :=
  if MONGODB_URI then
    inr (take 100 (sort_desc ld_timestamp
           (filter (fun d => ld_deviceId d = deviceId) (Locations w))))
  else
    inl (filter (fun loc => l_deviceId loc = deviceId) (locations w)).

(** The [$sort: { deviceId: 1, timestamp: -1 }] stage. *)
Definition by_device_then_newest (a b : LocationDoc) : bool :=
  match String.compare (ld_deviceId a) (ld_deviceId b) with
  | Lt => true
  | Gt => false
  | Eq => (ld_timestamp b <=? ld_timestamp a)%Z
  end.

(** The [$group: { _id: '$deviceId', latestLocation: { $first: '$$ROOT' } }]
    and [$replaceRoot] stages: the first document of each device, in the
    order the devices come up. *)
Fixpoint group_first (seen : list string) (l : list LocationDoc)
    : list LocationDoc :=
  match l with
  | [] => []
  | x :: l' =>
      if existsb (String.eqb (ld_deviceId x)) seen then group_first seen l'
      else x :: group_first (ld_deviceId x :: seen) l'
  end.

Definition aggregate_latest (coll : list LocationDoc) : list LocationDoc :=
  group_first [] (sort_by by_device_then_newest coll).

(** [GET /api/locations] *)
Definition get_locations (w : World) : list LocationData + list LocationDoc :=
  if MONGODB_URI then inr (aggregate_latest (Locations w))
  else
    inl (omap (fun deviceId =>
                 last (filter (fun loc => l_deviceId loc = deviceId) (locations w)))
              (JsMap.keys (drivers w))).

(** [startServer]: both module-level variables start empty; with a
    database the drivers that are online there are loaded into the Map. *)
Definition startServer (db_drivers : list DriverDoc)
    (db_locations : list LocationDoc) : World :=
  {| drivers :=
       if MONGODB_URI then
         fold_left
           (fun m driver =>
              JsMap.set (dd_deviceId driver)
                {| d_deviceId := dd_deviceId driver;
                   d_driverName := dd_driverName driver;
                   d_isOnline := dd_isOnline driver;
                   d_lastSeen := dd_lastSeen driver;
                   d_socketId := None |} m)
           (filter (fun d => dd_isOnline d = true) db_drivers) []
       else [];
     locations := [];
     sockets := ∅;
     Drivers := if MONGODB_URI then db_drivers else [];
     Locations := if MONGODB_URI then db_locations else [];
     out := [] |}.

(** ** Runs of the server *)

Inductive Event :=
| OnRegisterDriver (socket_id deviceId driverName : string)
    (now : Timestamp) (fault : Fault)
| OnLocationUpdate (socket_id : string) (locationData : LocationData)
    (now : Timestamp) (fault : Fault)
| OnDisconnect (socket_id : string) (now : Timestamp) (fault : Fault).

Definition handle (e : Event) (w : World) : World :=
  match e with
  | OnRegisterDriver s d n now f => snd (register_driver s d n now f w)
  | OnLocationUpdate s l now f => snd (location_update s l now f w)
  | OnDisconnect s now f => snd (disconnect s now f w)
  end.

Definition run (es : list Event) (w : World) : World :=
  fold_left (fun w e => handle e w) es w.

(** The time an event is handled at. *)
Definition event_time (e : Event) : Timestamp :=
  match e with
  | OnRegisterDriver _ _ _ now _ => now
  | OnLocationUpdate _ _ now _ => now
  | OnDisconnect _ now _ => now
  end.

(** The states the server can be in. *)
Inductive reachable : World -> Prop :=
| reachable_start db_drivers db_locations :
    reachable (startServer db_drivers db_locations)
| reachable_step e w : reachable w -> reachable (handle e w).

(** ** Observations used to state properties *)

(** The entries of one device in the [locations] array, oldest first: the
    handlers' [locations.filter(loc => loc.deviceId === deviceId)]. *)
Definition device_locations (deviceId : string) (locs : list LocationData)
    : list LocationData :=
  filter (fun loc => l_deviceId loc = deviceId) locs.

(** The last [n] entries of a list. *)
Definition keep_last {A : Type} (n : nat) (l : list A) : list A :=
  drop (length l - n) l.

(** The location events broadcast so far, oldest first. *)
Definition broadcast_locations (effs : list Effect) : list LocationData :=
  omap (fun e => match e with
                 | IoEmit (LocationUpdate l) => Some l
                 | _ => None
                 end) effs.

(** The buffer of every device is the last 100 samples broadcast for it. *)
Definition buffer_inv (w : World) : Prop :=
  forall d,
    device_locations d (locations w)
    = keep_last 100 (device_locations d (broadcast_locations (out w))).

(** The documents of one device in the Driver collection. *)
Definition driver_docs (deviceId : string) (coll : list DriverDoc)
    : list DriverDoc :=
  filter (fun d => dd_deviceId d = deviceId) coll.

(** The bounds the Location schema puts on the coordinates. *)
Definition in_range (doc : LocationDoc) : Prop :=
  (-90 <= ld_latitude doc)%Q /\ (ld_latitude doc <= 90)%Q
  /\ (-180 <= ld_longitude doc)%Q /\ (ld_longitude doc <= 180)%Q.

(** The entries of one device in the [drivers] Map. *)
Definition driver_entries (deviceId : string) (m : JsMap.t DriverData)
    : list (string * DriverData) :=
  filter (fun kv => fst kv = deviceId) m.

(** The location updates of a list of samples, each with its arrival
    time, on one socket and without durable failures. *)
Definition ingest (socket_id : string)
    (samples : list (LocationData * Timestamp)) : list Event :=
  map (fun p => OnLocationUpdate socket_id (fst p) (snd p) None) samples.

(** The [location] object the location-update handler builds. *)
Definition location_of (locationData : LocationData) (now : Timestamp)
    : LocationData :=
  with_timestamp_isOnline (Some now) (Some true) locationData.

(** What the buffer records for a list of samples. *)
Definition recorded (samples : list (LocationData * Timestamp))
    : list LocationData :=
  map (fun p => location_of (fst p) (snd p)) samples.

(** The documents the Location collection receives for them. *)
Definition documents (samples : list (LocationData * Timestamp))
    : list LocationDoc :=
  omap (fun p =>
          match Location_validate (location_of (fst p) (snd p)) (snd p)
                  (Some true) with
          | Ok doc => Some doc
          | Throw _ => None
          end) samples.

(** Whether the durable part of the location-update handler completes:
    always without a database; with one, when the document passes
    validation and neither durable call fails. *)
Definition durable_ok (locationData : LocationData) (now : Timestamp)
    (fault : Fault) : bool :=
  if MONGODB_URI then
    negb (faulty fault 0)
    && match Location_validate (location_of locationData now) now (Some true) with
       | Ok _ => true
       | Throw _ => false
       end
    && negb (faulty fault 1)
  else true.

(** The in-memory part of the location-update handler on the Map. *)
Definition touch (deviceId : string) (now : Timestamp)
    (m : JsMap.t DriverData) : JsMap.t DriverData :=
  if JsMap.has deviceId m then
    match JsMap.get deviceId m with
    | Some driver =>
        JsMap.set deviceId
          {| d_deviceId := d_deviceId driver;
             d_driverName := d_driverName driver;
             d_isOnline := true; d_lastSeen := now;
             d_socketId := d_socketId driver |} m
    | None => m
    end
  else m.

End Handlers.

(** ** The admin login route

    [POST /api/admin/login].  The two environment variables are strings
    when set; [body] is [req.body], absent when the request carried none
    (the destructuring then throws and the [catch] answers); a field of the
    body that is missing or is not a string is [None]. *)
Record LoginResponse := mkLoginResponse {
  r_status  : nat;
  r_success : bool;
  r_message : string;
  r_admin   : option string
}.

Definition admin_login (ADMIN_USERNAME ADMIN_PASSWORD : option string)
    (body : option (option string * option string)) : LoginResponse :=
  match body with
  | None => mkLoginResponse 500 false "Server error" None
  | Some (username, password) =>
      if negb (truthy (with_default "" ADMIN_USERNAME))
         || negb (truthy (with_default "" ADMIN_PASSWORD))
      then
        mkLoginResponse 500 false
          "Server configuration error - admin credentials not set" None
      else if bool_decide (username = ADMIN_USERNAME)
              && bool_decide (password = ADMIN_PASSWORD)
      then mkLoginResponse 200 true "Login successful" ADMIN_USERNAME
      else mkLoginResponse 401 false "Invalid credentials" None
  end.

End Server.

(** * The server of [src/unnamed/part_001]

    Everything is kept in MongoDB; the only in-memory state is the
    [activeConnections] Map from socket ids to the registered identity. *)
Module MongoServer.

Record ConnectionInfo := mkConnectionInfo {
  c_deviceId   : string;
  c_driverName : string
}.

Record CurrentLocation := mkCurrentLocation {
  cl_latitude  : option Q;
  cl_longitude : option Q;
  cl_timestamp : Timestamp
}.

(** A document of the Driver collection ([driverSchema]). *)
Record DriverDoc := mkDriverDoc {
  dd_deviceId        : string;
  dd_driverName      : string;
  dd_isActive        : bool;
  dd_lastSeen        : Timestamp;
  dd_currentLocation : option CurrentLocation
}.

(** A document of the Location collection ([locationSchema]). *)
Record LocationDoc := mkLocationDoc {
  ld_deviceId   : string;
  ld_driverName : string;
  ld_latitude   : Q;
  ld_longitude  : Q;
  ld_accuracy   : Q;
  ld_timestamp  : Timestamp;
  ld_speed      : Q;
  ld_heading    : Q;
  ld_isOnline   : bool
}.

Inductive Broadcast :=
| DriversUpdate (ds : list DriverDoc)
| LocationUpdate (l : LocationData) (socketId : string).

Inductive Reply :=
| ErrorReply (msg : string)
| SyncComplete (count : nat)
| SyncError (msg : string).

Inductive Effect :=
| IoEmit (b : Broadcast)
| SocketEmit (socket_id : string) (r : Reply)
| ConsoleError (msg : string).

Record World := mkWorld {
  activeConnections : gmap string ConnectionInfo;
  Drivers           : list DriverDoc;
  Locations         : list LocationDoc;
  out               : list Effect
}.

Definition set_activeConnections
    (f : gmap string ConnectionInfo -> gmap string ConnectionInfo)
    (w : World) : World :=
  mkWorld (f (activeConnections w)) (Drivers w) (Locations w) (out w).
Definition set_Drivers (f : list DriverDoc -> list DriverDoc) (w : World)
    : World :=
  mkWorld (activeConnections w) (f (Drivers w)) (Locations w) (out w).
Definition set_Locations (f : list LocationDoc -> list LocationDoc)
    (w : World) : World :=
  mkWorld (activeConnections w) (Drivers w) (f (Locations w)) (out w).
Definition add_out (e : Effect) (w : World) : World :=
  mkWorld (activeConnections w) (Drivers w) (Locations w) (out w ++ [e]).

Definition io_emit (b : Broadcast) : M World unit := modify (add_out (IoEmit b)).
Definition socket_emit (socket_id : string) (r : Reply) : M World unit :=
  modify (add_out (SocketEmit socket_id r)).
Definition console_error (msg : string) : M World unit :=
  modify (add_out (ConsoleError msg)).

(** ** The models *)

(** Validation of a Location document: [deviceId], [latitude] and
    [longitude] are required, without bounds; [driverName] defaults to
    ['Unknown Driver'] and the numbers to 0.  [timestamp] is
    [new Date(t)] of the client's value: without one the date is invalid
    and the document is refused. *)
Definition Location_validate (l : LocationData) (isOnline : bool)
    : Result LocationDoc :=
  match required_string "deviceId" (Some (l_deviceId l)) with
  | Throw e => Throw e
  | Ok deviceId =>
  match required_number "latitude" None None (l_latitude l) with
  | Throw e => Throw e
  | Ok latitude =>
  match required_number "longitude" None None (l_longitude l) with
  | Throw e => Throw e
  | Ok longitude =>
  match l_timestamp l with
  | None => Throw (ValidationError "timestamp")
  | Some timestamp =>
      Ok {| ld_deviceId := deviceId;
            ld_driverName := with_default "Unknown Driver" (l_driverName l);
            ld_latitude := latitude; ld_longitude := longitude;
            ld_accuracy := with_default 0%Q (l_accuracy l);
            ld_timestamp := timestamp;
            ld_speed := with_default 0%Q (l_speed l);
            ld_heading := with_default 0%Q (l_heading l);
            ld_isOnline := isOnline |}
  end end end end.

(** [location.save()] *)
Definition Location_save (l : LocationData) (isOnline : bool) : M World unit :=
  doc <- lift (Location_validate l isOnline) ;;
  modify (set_Locations (fun coll => coll ++ [doc])).

(** Validation of a batch: the first refusal, or all the documents. *)
Fixpoint validate_all (ls : list LocationData) (isOnline : bool)
    : Result (list LocationDoc) :=
  match ls with
  | [] => Ok []
  | l :: ls' =>
      match Location_validate l isOnline with
      | Throw e => Throw e
      | Ok doc =>
          match validate_all ls' isOnline with
          | Throw e => Throw e
          | Ok docs => Ok (doc :: docs)
          end
      end
  end.

(** [Location.insertMany(docs)]: every document is validated before any
    is written. *)
Definition Location_insertMany (ls : list LocationData) (isOnline : bool)
    : M World unit :=
  docs <- lift (validate_all ls isOnline) ;;
  modify (set_Locations (fun coll => coll ++ docs)).

Definition Driver_findOneAndUpdate (deviceId : string)
    (upd : DriverDoc -> DriverDoc) (upsert : option DriverDoc) : M World unit :=
  modify (set_Drivers
    (findOneAndUpdate (fun d => String.eqb (dd_deviceId d) deviceId) upd upsert)).

(** [Driver.find({ isActive: true })] *)
Definition find_active (coll : list DriverDoc) : list DriverDoc :=
  filter (fun d => dd_isActive d = true) coll.

(** ** The socket handlers *)

(** [socket.on('registerDriver', ...)] *)
Definition registerDriver (socket_id deviceId driverName : string)
    (now : Timestamp) (fault : Fault) : M World unit :=
  try_catch
    (await fault 0
       (Driver_findOneAndUpdate deviceId
          (fun d => {| dd_deviceId := dd_deviceId d;
                       dd_driverName := driverName;
                       dd_isActive := true; dd_lastSeen := now;
                       dd_currentLocation := dd_currentLocation d |})
          (Some {| dd_deviceId := deviceId; dd_driverName := driverName;
                   dd_isActive := true; dd_lastSeen := now;
                   dd_currentLocation := None |})) ;;
     modify (set_activeConnections
               (insert socket_id
                  {| c_deviceId := deviceId; c_driverName := driverName |})) ;;
     activeDrivers <- await fault 1 (gets (fun w => find_active (Drivers w))) ;;
     io_emit (DriversUpdate activeDrivers))
    (fun _ =>
       console_error "Driver registration error:" ;;
       socket_emit socket_id (ErrorReply "Failed to register driver")).

(** [socket.on('sendLocation', ...)] *)
Definition sendLocation (socket_id : string) (locationData : LocationData)
    (now : Timestamp) (fault : Fault) : M World unit :=
  try_catch
    (connectionInfo <- gets (fun w => activeConnections w !! socket_id) ;;
     match connectionInfo with
     | None => socket_emit socket_id (ErrorReply "Driver not registered")
     | Some connectionInfo =>
         let deviceId := c_deviceId connectionInfo in
         await fault 0
           (Location_save (with_deviceId deviceId locationData) true) ;;
         await fault 1
           (Driver_findOneAndUpdate deviceId
              (fun d => {| dd_deviceId := dd_deviceId d;
                           dd_driverName := dd_driverName d;
                           dd_isActive := dd_isActive d;
                           dd_lastSeen := now;
                           dd_currentLocation :=
                             Some {| cl_latitude := l_latitude locationData;
                                     cl_longitude := l_longitude locationData;
                                     cl_timestamp := now |} |})
              None) ;;
         io_emit (LocationUpdate
           {| l_deviceId := deviceId;
              l_driverName := Some (c_driverName connectionInfo);
              l_latitude := l_latitude locationData;
              l_longitude := l_longitude locationData;
              l_accuracy := l_accuracy locationData;
              l_speed := l_speed locationData;
              l_heading := l_heading locationData;
              l_timestamp := l_timestamp locationData;
              l_isOnline := l_isOnline locationData |}
           socket_id)
     end)
    (fun _ =>
       console_error "Location save error:" ;;
       socket_emit socket_id (ErrorReply "Failed to save location")).

(** [socket.on('syncLocations', ...)] *)
Definition syncLocations (socket_id : string) (locationsArray : list LocationData)
    (now : Timestamp) (fault : Fault) : M World unit :=
  try_catch
    (connectionInfo <- gets (fun w => activeConnections w !! socket_id) ;;
     match connectionInfo with
     | None => socket_emit socket_id (ErrorReply "Driver not registered")
     | Some connectionInfo =>
         let deviceId := c_deviceId connectionInfo in
         await fault 0
           (Location_insertMany (map (with_deviceId deviceId) locationsArray) false) ;;
         socket_emit socket_id (SyncComplete (length locationsArray)) ;;
         match last locationsArray with
         | Some latestLocation =>
             io_emit (LocationUpdate
               {| l_deviceId := deviceId;
                  l_driverName := Some (c_driverName connectionInfo);
                  l_latitude := l_latitude latestLocation;
                  l_longitude := l_longitude latestLocation;
                  l_accuracy := l_accuracy latestLocation;
                  l_speed := l_speed latestLocation;
                  l_heading := l_heading latestLocation;
                  l_timestamp := l_timestamp latestLocation;
                  l_isOnline := l_isOnline latestLocation |}
               socket_id)
         | None => ret tt
         end
     end)
    (fun _ =>
       console_error "Bulk location sync error:" ;;
       socket_emit socket_id (SyncError "Failed to sync offline locations")).

(** [socket.on('disconnect', ...)] *)
Definition disconnect (socket_id : string) (now : Timestamp) (fault : Fault)
    : M World unit :=
  connectionInfo <- gets (fun w => activeConnections w !! socket_id) ;;
  match connectionInfo with
  | None => ret tt
  | Some connectionInfo =>
      try_catch
        (await fault 0
           (Driver_findOneAndUpdate (c_deviceId connectionInfo)
              (fun d => {| dd_deviceId := dd_deviceId d;
                           dd_driverName := dd_driverName d;
                           dd_isActive := dd_isActive d;
                           dd_lastSeen := now;
                           dd_currentLocation := dd_currentLocation d |})
              None))
        (fun _ => console_error "Error updating driver on disconnect:") ;;
      modify (set_activeConnections (delete socket_id))
  end.

(** The staleness threshold of the cleanup task, [5 * 60 * 1000]. *)
Definition STALE_MS : Z := 5 * 60 * 1000.

(** The [setInterval] task, run every [5 * 60 * 1000] milliseconds. *)
Definition cleanup (now : Timestamp) (fault : Fault) : M World unit :=
  try_catch
    (let fiveMinutesAgo := (now - STALE_MS)%Z in
     await fault 0
       (modify (set_Drivers
          (updateMany (fun d => (dd_lastSeen d <? fiveMinutesAgo)%Z)
             (fun d => {| dd_deviceId := dd_deviceId d;
                          dd_driverName := dd_driverName d;
                          dd_isActive := false;
                          dd_lastSeen := dd_lastSeen d;
                          dd_currentLocation := dd_currentLocation d |})))))
    (fun _ => console_error "Error cleaning up inactive drivers:").

(** ** The query routes *)

(** [GET /api/drivers] *)
Definition get_drivers (w : World) : list DriverDoc :=
  sort_desc dd_lastSeen (find_active (Drivers w)).

(** [GET /api/locations/:deviceId], with [hours] from the query string
    (24 when absent), here a whole number of hours. *)
Definition get_device_locations (deviceId : string) (hours : option Z)
    (now : Timestamp) (w : World) : list LocationDoc :=
  let startTime := (now - with_default 24 hours * 60 * 60 * 1000)%Z in
  sort_desc ld_timestamp
    (filter (fun d => ld_deviceId d = deviceId /\ (startTime <= ld_timestamp d)%Z)
       (Locations w)).

(** ** Runs of the server *)

Inductive Event :=
| OnRegisterDriver (socket_id deviceId driverName : string)
    (now : Timestamp) (fault : Fault)
| OnSendLocation (socket_id : string) (locationData : LocationData)
    (now : Timestamp) (fault : Fault)
| OnSyncLocations (socket_id : string) (locationsArray : list LocationData)
    (now : Timestamp) (fault : Fault)
| OnDisconnect (socket_id : string) (now : Timestamp) (fault : Fault)
| OnCleanupTick (now : Timestamp) (fault : Fault).

Definition handle (e : Event) (w : World) : World :=
  match e with
  | OnRegisterDriver s d n now f => snd (registerDriver s d n now f w)
  | OnSendLocation s l now f => snd (sendLocation s l now f w)
  | OnSyncLocations s ls now f => snd (syncLocations s ls now f w)
  | OnDisconnect s now f => snd (disconnect s now f w)
  | OnCleanupTick now f => snd (cleanup now f w)
  end.

Definition run (es : list Event) (w : World) : World :=
  fold_left (fun w e => handle e w) es w.

(** The process starts with no connection, on whatever the database
    holds. *)
Definition start (db_drivers : list DriverDoc) (db_locations : list LocationDoc)
    : World :=
  {| activeConnections := ∅; Drivers := db_drivers;
     Locations := db_locations; out := [] |}.

(** ** Observations used to state properties *)

(** The documents of one device in the Driver collection. *)
Definition driver_docs (deviceId : string) (coll : list DriverDoc)
    : list DriverDoc :=
  filter (fun d => dd_deviceId d = deviceId) coll.

(** A document with the active flag cleared, as the cleanup task writes. *)
Definition deactivated (d : DriverDoc) : DriverDoc :=
  {| dd_deviceId := dd_deviceId d; dd_driverName := dd_driverName d;
     dd_isActive := false; dd_lastSeen := dd_lastSeen d;
     dd_currentLocation := dd_currentLocation d |}.

(** The live samples of a list, each with its arrival time, on one
    socket and without durable failures. *)
Definition ingest (socket_id : string)
    (samples : list (LocationData * Timestamp)) : list Event :=
  map (fun p => OnSendLocation socket_id (fst p) (snd p) None) samples.

(** Whether a live sample of a socket bound to [deviceId] passes
    validation. *)
Definition valid (deviceId : string) (l : LocationData) : bool :=
  match Location_validate (with_deviceId deviceId l) true with
  | Ok _ => true
  | Throw _ => false
  end.

(** The documents the Location collection receives for live samples. *)
Definition documents (deviceId : string)
    (samples : list (LocationData * Timestamp)) : list LocationDoc :=
  omap (fun p =>
          match Location_validate (with_deviceId deviceId (fst p)) true with
          | Ok doc => Some doc
          | Throw _ => None
          end) samples.

(** Whether an event is a registration. *)
Definition is_registration (e : Event) : bool :=
  match e with
  | OnRegisterDriver _ _ _ _ _ => true
  | _ => false
  end.

(** Whether an effect is a broadcast to every client. *)
Definition is_broadcast (e : Effect) : bool :=
  match e with
  | IoEmit _ => true
  | _ => false
  end.

(** Whether an event is a tick of the cleanup task. *)
Definition is_cleanup (e : Event) : bool :=
  match e with
  | OnCleanupTick _ _ => true
  | _ => false
  end.

(** Whether an event is a registration of the device [deviceId]. *)
Definition registers (deviceId : string) (e : Event) : bool :=
  match e with
  | OnRegisterDriver _ d _ _ _ => String.eqb d deviceId
  | _ => false
  end.

(** [GET /]: the [activeDrivers] field of the answer,
    [activeConnections.size]. *)
Definition get_root (w : World) : nat := size (activeConnections w).

End MongoServer.

(** * Concrete runs *)
Module Scenario.

(** A sample of device [d] at a given position, with nothing else set. *)
Definition sample (d : string) (lat lon : Q) : LocationData :=
  {| l_deviceId := d; l_driverName := Some "Alice";
     l_latitude := Some lat; l_longitude := Some lon;
     l_accuracy := None; l_speed := None; l_heading := None;
     l_timestamp := None; l_isOnline := None |}.

(** [n] location updates of device [d] on socket [s], at times 1 .. n. *)
Definition updates (s d : string) (n : nat) : list Server.Event :=
  map (fun i => Server.OnLocationUpdate s (sample d 10 20) (Z.of_nat i) None)
      (seq 1 n).

(** Device D1 registers and reports 101 times. *)
Definition hundred_and_one : list Server.Event :=
  Server.OnRegisterDriver "s1" "D1" "Alice" 0 None :: updates "s1" "D1" 101.

(** A fresh memory-only server on which D1 ("Alice") registered on socket
    s1 at time 0, and the same with a database. *)
Definition registered (MONGODB_URI : bool) : Server.World :=
  Server.handle MONGODB_URI (Server.OnRegisterDriver "s1" "D1" "Alice" 0 None)
    (Server.startServer MONGODB_URI [] []).

(** The server of part_001 on an empty database, after D1 ("Alice")
    registered on socket s1 at time 0. *)
Definition mongo_registered : MongoServer.World :=
  MongoServer.handle (MongoServer.OnRegisterDriver "s1" "D1" "Alice" 0 None)
    (MongoServer.start [] []).

(** A sample of device [d] captured at time [t]. *)
Definition captured (d : string) (lat lon : Q) (t : Timestamp) : LocationData :=
  {| l_deviceId := d; l_driverName := Some "Alice";
     l_latitude := Some lat; l_longitude := Some lon;
     l_accuracy := None; l_speed := None; l_heading := None;
     l_timestamp := Some t; l_isOnline := None |}.

(** Three samples of D1, captured at 1, 2, 3 and arriving at 1001, 1002,
    1003. *)
Definition three_samples : list (LocationData * Timestamp) :=
  [ (captured "D1" 10 20 1, 1001%Z);
    (captured "D1" 11 21 2, 1002%Z);
    (captured "D1" 12 22 3, 1003%Z) ].

(** Activity that holds no registration of D1: its socket disconnects,
    D2 ("Bob") registers on socket s3 and sends a sample, and the cleanup
    task ticks again. *)
Definition other_activity : list MongoServer.Event :=
  [ MongoServer.OnDisconnect "s1" 300002 None;
    MongoServer.OnRegisterDriver "s3" "D2" "Bob" 300003 None;
    MongoServer.OnSendLocation "s3" (captured "D2" 11 21 300004) 300004 None;
    MongoServer.OnCleanupTick 700000 None ].

(** A sample that carries a capture time and an online flag of its own. *)
Definition stamped_sample : LocationData :=
  {| l_deviceId := "D1"; l_driverName := Some "Alice";
     l_latitude := Some 10%Q; l_longitude := Some 20%Q;
     l_accuracy := None; l_speed := None; l_heading := None;
     l_timestamp := Some 5%Z; l_isOnline := Some false |}.

End Scenario.

(** * Properties of the containers *)
Module JsMapFacts.
Section Facts.
Context {V : Type}.
Implicit Types (m : JsMap.t V) (k : string) (v : V).

Lemma get_set_eq k v m : JsMap.get k (JsMap.set k v m) = Some v.
Proof.
  induction m as [|[k' v'] m IH]; cbn.
  - rewrite String.eqb_refl. reflexivity.
  - destruct (String.eqb k' k) eqn:E; cbn.
    + rewrite String.eqb_refl. reflexivity.
    + rewrite E. exact IH.
Qed.

Lemma get_set_ne k k' v m :
  k <> k' -> JsMap.get k' (JsMap.set k v m) = JsMap.get k' m.
Proof.
  intros Hne. induction m as [|[k0 v0] m IH]; cbn.
  - apply String.eqb_neq in Hne. rewrite Hne. reflexivity.
  - destruct (String.eqb k0 k) eqn:E; cbn.
    + apply String.eqb_eq in E. subst k0.
      apply String.eqb_neq in Hne. rewrite Hne. reflexivity.
    + destruct (String.eqb k0 k'); [reflexivity|exact IH].
Qed.

Lemma has_get k m : JsMap.has k m = true <-> is_Some (JsMap.get k m).
Proof.
  unfold JsMap.has. induction m as [|[k' v'] m IH]; cbn.
  - split; [discriminate|]. intros [? ?]; discriminate.
  - destruct (String.eqb k' k); cbn; [|exact IH].
    split; eauto.
Qed.

Lemma has_keys k m : JsMap.has k m = true <-> k ∈ JsMap.keys m.
Proof.
  unfold JsMap.has, JsMap.keys. induction m as [|[k' v'] m IH]; cbn.
  - split; [discriminate|]. intros H. inversion H.
  - rewrite elem_of_cons. destruct (String.eqb k' k) eqn:E; cbn.
    + apply String.eqb_eq in E. split; auto.
    + apply String.eqb_neq in E. rewrite IH. split; [auto|].
      intros [?|?]; [congruence|assumption].
Qed.

Lemma keys_set k v m :
  JsMap.keys (JsMap.set k v m)
  = if JsMap.has k m then JsMap.keys m else JsMap.keys m ++ [k].
Proof.
  unfold JsMap.has, JsMap.keys. induction m as [|[k' v'] m IH]; cbn; [reflexivity|].
  destruct (String.eqb k' k) eqn:E; cbn.
  - apply String.eqb_eq in E. subst. reflexivity.
  - rewrite IH. destruct (existsb _ m); reflexivity.
Qed.

(** [set] on a valid Map gives a valid Map: keys stay distinct. *)
Lemma NoDup_keys_set k v m :
  NoDup (JsMap.keys m) -> NoDup (JsMap.keys (JsMap.set k v m)).
Proof.
  intros Hnd. rewrite keys_set. destruct (JsMap.has k m) eqn:Hhas; [exact Hnd|].
  apply NoDup_app. repeat split; [exact Hnd| |apply NoDup_singleton].
  intros x Hx Hk. apply list_elem_of_singleton in Hk. subst x.
  apply has_keys in Hx. congruence.
Qed.

(** A second [set] on the same key overwrites the first. *)
Lemma set_set k v1 v2 m :
  JsMap.set k v2 (JsMap.set k v1 m) = JsMap.set k v2 m.
Proof.
  induction m as [|[k' v'] m IH]; cbn.
  - rewrite String.eqb_refl. reflexivity.
  - destruct (String.eqb k' k) eqn:E; cbn.
    + rewrite String.eqb_refl. reflexivity.
    + rewrite E, IH. reflexivity.
Qed.

(** The number of entries under a key. *)
Lemma entries_keys k m :
  length (filter (fun kv => fst kv = k) m)
  = length (filter (fun k' => k' = k) (JsMap.keys m)).
Proof.
  unfold JsMap.keys. induction m as [|[k' v'] m IH]; [reflexivity|].
  cbn [map fst].
  rewrite (filter_cons (fun kv : string * V => fst kv = k)).
  rewrite (filter_cons (fun k0 : string => k0 = k)). cbn [fst].
  destruct (decide (k' = k)); cbn [length]; [f_equal|]; exact IH.
Qed.

Lemma NoDup_count_one (k : string) (l : list string) :
  NoDup l -> k ∈ l -> length (filter (fun k' => k' = k) l) = 1.
Proof.
  induction 1 as [|x l Hx Hnd IH]; intros Hin; [inversion Hin|].
  rewrite filter_cons. destruct (decide (x = k)) as [->|Hne].
  - cbn. f_equal. apply length_zero_iff_nil.
    destruct (filter _ l) as [|y l'] eqn:Hf; [reflexivity|].
    assert (Hy : y ∈ filter (fun k' => k' = k) l) by (rewrite Hf; left).
    apply list_elem_of_filter in Hy as [-> Hy]. contradiction.
  - apply IH. apply elem_of_cons in Hin as [?|?]; [congruence|assumption].
Qed.

Lemma no_entry k m :
  k ∉ JsMap.keys m -> filter (fun kv => fst kv = k) m = [].
Proof.
  unfold JsMap.keys. induction m as [|[k' v'] m IH]; intros Hk; [reflexivity|].
  cbn [map fst] in Hk. apply not_elem_of_cons in Hk as [Hne Hk].
  rewrite (filter_cons (fun kv : string * V => fst kv = k)). cbn [fst].
  rewrite decide_False by congruence. apply IH, Hk.
Qed.

(** After [set], a valid Map holds exactly one entry under the key: the
    one that was set. *)
Lemma entries_after_set k v m :
  NoDup (JsMap.keys m) ->
  filter (fun kv => fst kv = k) (JsMap.set k v m) = [(k, v)].
Proof.
  unfold JsMap.keys. induction m as [|[k' v'] m IH]; intros Hnd.
  - cbn [JsMap.set]. rewrite (filter_cons (fun kv : string * V => fst kv = k)).
    cbn [fst]. rewrite decide_True by reflexivity. reflexivity.
  - cbn [map fst] in Hnd. apply NoDup_cons in Hnd as [Hk' Hnd].
    cbn [JsMap.set]. destruct (String.eqb k' k) eqn:E.
    + apply String.eqb_eq in E. subst k'.
      rewrite (filter_cons (fun kv : string * V => fst kv = k)). cbn [fst].
      rewrite decide_True by reflexivity. f_equal. apply no_entry, Hk'.
    + apply String.eqb_neq in E.
      rewrite (filter_cons (fun kv : string * V => fst kv = k)). cbn [fst].
      rewrite decide_False by exact E. apply IH, Hnd.
Qed.

End Facts.
End JsMapFacts.

Module CollectionFacts.
Section Facts.
Context {A : Type}.
Variable key : A -> string.
Variable k : string.
Local Abbreviation matches := (fun x : A => String.eqb (key x) k).

Lemma update_first_None upd (l : list A) :
  update_first matches upd l = None <-> Forall (fun x => key x <> k) l.
Proof.
  induction l as [|x l IH]; cbn.
  - split; [constructor|reflexivity].
  - destruct (String.eqb (key x) k) eqn:E.
    + apply String.eqb_eq in E. split; [discriminate|].
      intros H. inversion H; subst. contradiction.
    + apply String.eqb_neq in E.
      destruct (update_first matches upd l) eqn:Hu.
      * split; [discriminate|]. intros H. inversion H; subst.
        apply IH in H3. discriminate.
      * split; [|reflexivity]. intros _. constructor; [exact E|].
        apply IH. reflexivity.
Qed.

(** Updating twice is updating once with the second update, when the
    first keeps the key and the second overwrites what the first wrote. *)
Lemma update_first_twice upd1 upd2 (l l1 : list A) :
  (forall x, key (upd1 x) = key x) ->
  (forall x, upd2 (upd1 x) = upd2 x) ->
  update_first matches upd1 l = Some l1 ->
  update_first matches upd2 l1 = update_first matches upd2 l.
Proof.
  intros Hkey Hover. revert l1.
  induction l as [|x l IH]; intros l1; cbn; [discriminate|].
  destruct (String.eqb (key x) k) eqn:E.
  - intros H. inversion H; subst. cbn. rewrite Hkey, E, Hover. reflexivity.
  - destruct (update_first matches upd1 l) as [r|] eqn:Hu; [|discriminate].
    intros H. inversion H; subst. cbn. rewrite E.
    rewrite (IH r) by reflexivity. reflexivity.
Qed.

Lemma update_first_snoc upd (l : list A) (d : A) :
  Forall (fun x => key x <> k) l -> key d = k ->
  update_first matches upd (l ++ [d]) = Some (l ++ [upd d]).
Proof.
  intros Hl Hd. induction Hl as [|x l Hx Hl IH]; cbn.
  - rewrite Hd, String.eqb_refl. reflexivity.
  - apply String.eqb_neq in Hx. rewrite Hx, IH.
    reflexivity.
Qed.

(** Two upserts in a row are the second alone. *)
Lemma findOneAndUpdate_twice upd1 upd2 (d1 d2 : A) (coll : list A) :
  (forall x, key (upd1 x) = key x) ->
  (forall x, upd2 (upd1 x) = upd2 x) ->
  key d1 = k -> upd2 d1 = d2 ->
  findOneAndUpdate matches upd2 (Some d2)
    (findOneAndUpdate matches upd1 (Some d1) coll)
  = findOneAndUpdate matches upd2 (Some d2) coll.
Proof.
  intros Hkey Hover Hd1 Hd2. unfold findOneAndUpdate.
  destruct (update_first matches upd1 coll) as [l1|] eqn:H1.
  - rewrite (update_first_twice upd1 upd2 coll l1) by assumption.
    destruct (update_first matches upd2 coll) eqn:H2; [reflexivity|].
    apply update_first_None in H2.
    apply (update_first_None upd1) in H2. congruence.
  - pose proof H1 as Hnone. apply update_first_None in Hnone.
    rewrite (update_first_snoc upd2 coll d1) by assumption.
    assert (update_first matches upd2 coll = None) as ->
      by (apply update_first_None; exact Hnone).
    rewrite Hd2. reflexivity.
Qed.

(** An update that keeps [g] keeps [g] on the whole collection. *)
Lemma findOneAndUpdate_keeps {B : Type} (g : A -> B) upd (coll : list A) :
  (forall x, g (upd x) = g x) ->
  map g (findOneAndUpdate matches upd None coll) = map g coll.
Proof.
  intros Hg. unfold findOneAndUpdate.
  destruct (update_first matches upd coll) as [l1|] eqn:H1; [|reflexivity].
  revert l1 H1. induction coll as [|x coll IH]; intros l1; cbn; [discriminate|].
  destruct (matches x).
  - intros H. inversion H; subst. cbn. rewrite Hg. reflexivity.
  - destruct (update_first matches upd coll) as [r|]; [|discriminate].
    intros H. inversion H; subst. cbn. rewrite (IH r) by reflexivity.
    reflexivity.
Qed.

(** After an upsert, a collection with distinct keys holds exactly one
    document under the key, and it is the updated or inserted one. *)
Lemma findOneAndUpdate_upsert_one upd (d : A) (coll : list A) :
  (forall x, key (upd x) = key x) -> key d = k ->
  NoDup (map key coll) ->
  exists l1 x l2,
    findOneAndUpdate matches upd (Some d) coll = l1 ++ x :: l2
    /\ key x = k
    /\ (x = d \/ exists x0, x = upd x0)
    /\ Forall (fun y => key y <> k) l1 /\ Forall (fun y => key y <> k) l2
    /\ map key (l1 ++ x :: l2) = map key coll ++ (if decide (k ∈ map key coll) then [] else [k]).
Proof.
  intros Hkey Hd Hnd. unfold findOneAndUpdate.
  induction coll as [|y coll IH]; cbn.
  - exists [], d, []. cbn. repeat split; auto.
    rewrite decide_False by (intros H; inversion H). rewrite Hd. reflexivity.
  - apply NoDup_cons in Hnd as [Hy Hnd]. specialize (IH Hnd).
    destruct (String.eqb (key y) k) eqn:E.
    + apply String.eqb_eq in E. exists [], (upd y), coll. cbn.
      rewrite Hkey, E. repeat split; eauto.
      * apply Forall_forall. intros z Hz Hzk. apply Hy.
        rewrite E, <- Hzk. apply list_elem_of_In, in_map, list_elem_of_In, Hz.
      * rewrite decide_True by (left). rewrite app_nil_r. reflexivity.
    + apply String.eqb_neq in E.
      destruct IH as (l1 & x & l2 & Heq & Hx & Hor & Hl1 & Hl2 & Hkeys).
      exists (y :: l1), x, l2.
      destruct (update_first matches upd coll) as [r|] eqn:Hu.
      * rewrite Heq. cbn. repeat split; auto.
        cbn in Hkeys. rewrite Hkeys. f_equal.
        destruct (decide (k ∈ map key coll)) as [Hin|Hnin].
        -- rewrite decide_True by (right; exact Hin). reflexivity.
        -- rewrite decide_False; [reflexivity|].
           intros H. apply elem_of_cons in H as [?|?]; [congruence|contradiction].
      * change (y :: coll ++ [d]) with ((y :: coll) ++ [d]).
        cbn. rewrite Heq. cbn. repeat split; auto.
        cbn in Hkeys. rewrite Hkeys. f_equal.
        destruct (decide (k ∈ map key coll)) as [Hin|Hnin].
        -- rewrite decide_True by (right; exact Hin). reflexivity.
        -- rewrite decide_False; [reflexivity|].
           intros H. apply elem_of_cons in H as [?|?]; [congruence|contradiction].
Qed.

Lemma no_document (l : list A) :
  Forall (fun y => key y <> k) l -> filter (fun y => key y = k) l = [].
Proof.
  induction 1 as [|y l Hy Hl IH]; [reflexivity|].
  rewrite (filter_cons (fun y : A => key y = k)).
  rewrite decide_False by exact Hy. exact IH.
Qed.

End Facts.
End CollectionFacts.

Module SortFacts.
Section Facts.
Context {A : Type}.
Variable key : A -> Z.

Lemma insert_oldest (x : A) (l : list A) :
  Forall (fun y => (key x < key y)%Z) l ->
  insert_by (fun a b => (key b <=? key a)%Z) x l = l ++ [x].
Proof.
  induction 1 as [|y l Hy Hl IH]; [reflexivity|].
  cbn. rewrite (proj2 (Z.leb_gt _ _) Hy), IH. reflexivity.
Qed.

(** Documents that arrive with strictly increasing keys come back from
    a descending sort in reverse order of arrival. *)
Lemma sort_desc_increasing (l : list A) :
  StronglySorted (fun a b => (key a < key b)%Z) l ->
  sort_desc key l = reverse l.
Proof.
  unfold sort_desc. induction 1 as [|x l Hl IH Hx]; [reflexivity|].
  cbn [sort_by]. rewrite IH, reverse_cons. apply insert_oldest.
  apply Forall_reverse, Hx.
Qed.

End Facts.

Section Insertion.
Context {A : Type}.
Variable before : A -> A -> bool.

Lemma insert_by_perm (x : A) (l : list A) : insert_by before x l ≡ₚ x :: l.
Proof.
  induction l as [|y l IH]; [reflexivity|]. cbn.
  destruct (before x y); [reflexivity|].
  rewrite IH. apply Permutation_swap.
Qed.

(** Sorting rearranges the collection and nothing else. *)
Lemma sort_by_perm (l : list A) : sort_by before l ≡ₚ l.
Proof.
  induction l as [|x l IH]; [reflexivity|]. cbn.
  rewrite insert_by_perm, IH. reflexivity.
Qed.

Hypothesis before_total : forall a b, before a b = false -> before b a = true.
Hypothesis before_trans :
  forall a b c, before a b = true -> before b c = true -> before a c = true.

Lemma insert_by_sorted (x : A) (l : list A) :
  StronglySorted (fun a b => before a b = true) l ->
  StronglySorted (fun a b => before a b = true) (insert_by before x l).
Proof.
  induction 1 as [|y l Hl IH Hy]; [repeat constructor|]. cbn.
  destruct (before x y) eqn:Hxy.
  - constructor; [constructor; assumption|].
    constructor; [exact Hxy|].
    eapply Forall_impl; [exact Hy|]. intros z Hz. eapply before_trans; eauto.
  - constructor; [exact IH|].
    apply Forall_forall. intros z Hz.
    apply (elem_of_Permutation_proper _ _ _ (insert_by_perm x l)) in Hz.
    apply elem_of_cons in Hz as [->|Hz]; [apply before_total, Hxy|].
    rewrite Forall_forall in Hy. apply Hy, Hz.
Qed.

(** The result of sorting is in order. *)
Lemma sort_by_sorted (l : list A) :
  StronglySorted (fun a b => before a b = true) (sort_by before l).
Proof.
  induction l as [|x l IH]; [constructor|]. cbn. apply insert_by_sorted, IH.
Qed.

End Insertion.

(** Strictly increasing keys carry over to a list that is key-wise the
    same. *)
Lemma StronglySorted_transfer {A B : Type} (ka : A -> Z) (kb : B -> Z)
    (la : list A) (lb : list B) :
  Forall2 (fun a b => kb b = ka a) la lb ->
  StronglySorted (fun x y => (ka x < ka y)%Z) la ->
  StronglySorted (fun x y => (kb x < kb y)%Z) lb.
Proof.
  induction 1 as [|a b la lb Hab Hall IH]; intros Hs; [constructor|].
  inversion Hs as [|? ? Hs' Hlt]; subst. constructor; [apply IH, Hs'|].
  clear IH Hs Hs'. induction Hall as [|a' b' la lb Hab' Hall IH];
    [constructor|].
  inversion Hlt; subst. constructor; [lia|auto].
Qed.

End SortFacts.

(** * Further properties of the containers *)
Module JsMapExtras.

Lemma elem_of_set {V : Type} (k : string) (v : V) (m : JsMap.t V) kv :
  kv ∈ JsMap.set k v m -> kv = (k, v) \/ kv ∈ m.
Proof.
  induction m as [|[k' v'] m IH]; cbn [JsMap.set].
  - intros H. apply list_elem_of_singleton in H. auto.
  - destruct (String.eqb k' k).
    + intros H. apply elem_of_cons in H as [?|?]; [auto|]. right. right. assumption.
    + intros H. apply elem_of_cons in H as [->|H]; [right; left|].
      destruct (IH H) as [?|?]; [auto|]. right. right. assumption.
Qed.

Lemma get_Some_elem {V : Type} (k : string) (m : JsMap.t V) (v : V) :
  JsMap.get k m = Some v -> (k, v) ∈ m.
Proof.
  induction m as [|[k' v'] m IH]; cbn [JsMap.get]; [discriminate|].
  destruct (String.eqb k' k) eqn:E.
  - apply String.eqb_eq in E. intros H. inversion H; subst. left.
  - intros H. right. apply IH, H.
Qed.

Lemma Forall_set {V : Type} (Q : string * V -> Prop) k v (m : JsMap.t V) :
  Q (k, v) -> Forall Q m -> Forall Q (JsMap.set k v m).
Proof.
  intros Hkv Hm. apply Forall_forall. intros kv Hin.
  apply elem_of_set in Hin as [->|Hin]; [exact Hkv|].
  rewrite Forall_forall in Hm. apply Hm, Hin.
Qed.

End JsMapExtras.

Module CollectionExtras.

(** An upsert keeps the keys of a collection distinct. *)
Lemma upsert_keeps_unique {A : Type} (key : A -> string) (k : string)
    (upd : A -> A) (d : A) (coll : list A) :
  (forall x, key (upd x) = key x) -> key d = k ->
  NoDup (map key coll) ->
  NoDup (map key
           (findOneAndUpdate (fun x => String.eqb (key x) k) upd (Some d) coll)).
Proof.
  intros Hkey Hd Hnd.
  destruct (CollectionFacts.findOneAndUpdate_upsert_one key k upd d coll Hkey Hd Hnd)
    as (l1 & x & l2 & -> & _ & _ & _ & _ & ->).
  destruct (decide (k ∈ map key coll)) as [Hin|Hnin].
  - rewrite app_nil_r. exact Hnd.
  - apply NoDup_app. split; [exact Hnd|]. split; [|apply NoDup_singleton].
    intros y Hy Hk. apply list_elem_of_singleton in Hk. subst y. contradiction.
Qed.

(** An update that keeps the key keeps the keys distinct. *)
Lemma update_keeps_unique {A : Type} (key : A -> string) (k : string)
    (upd : A -> A) (coll : list A) :
  (forall x, key (upd x) = key x) ->
  NoDup (map key coll) ->
  NoDup (map key
           (findOneAndUpdate (fun x => String.eqb (key x) k) upd None coll)).
Proof.
  intros Hkey Hnd.
  rewrite (CollectionFacts.findOneAndUpdate_keeps key k key upd coll Hkey).
  exact Hnd.
Qed.

(** The shape of a collection after [findOneAndUpdate]: the documents
    stay in place, only a document under the key is updated, and only an
    upsert adds a document, at the end. *)
Lemma update_first_shape {A : Type} (key : A -> string) (k : string)
    (upd : A -> A) (coll l1 : list A) :
  update_first (fun x => String.eqb (key x) k) upd coll = Some l1 ->
  Forall2 (fun x x' => x' = x \/ (key x = k /\ x' = upd x)) coll l1.
Proof.
  revert l1. induction coll as [|x coll IH]; intros l1; cbn; [discriminate|].
  destruct (String.eqb (key x) k) eqn:E.
  - apply String.eqb_eq in E. intros H. inversion H; subst.
    constructor; [right; auto|]. clear. induction coll; constructor; auto.
  - destruct (update_first _ upd coll) as [r|]; [|discriminate].
    intros H. inversion H; subst. constructor; [left; reflexivity|].
    apply IH. reflexivity.
Qed.

Lemma findOneAndUpdate_shape {A : Type} (key : A -> string) (k : string)
    (upd : A -> A) (upsert : option A) (coll : list A) :
  exists l1 l2,
    findOneAndUpdate (fun x => String.eqb (key x) k) upd upsert coll = l1 ++ l2
    /\ Forall2 (fun x x' => x' = x \/ (key x = k /\ x' = upd x)) coll l1
    /\ (l2 = [] \/ exists d, upsert = Some d /\ l2 = [d]).
Proof.
  unfold findOneAndUpdate.
  destruct (update_first _ upd coll) as [l1|] eqn:Hu.
  - exists l1, []. rewrite app_nil_r. split; [reflexivity|].
    split; [eapply update_first_shape, Hu|left; reflexivity].
  - assert (Hrefl : Forall2 (fun x x' : A => x' = x \/ (key x = k /\ x' = upd x))
                      coll coll)
      by (clear; induction coll; constructor; auto).
    destruct upsert as [d|].
    + exists coll, [d]. split; [reflexivity|]. split; [exact Hrefl|]. right. eauto.
    + exists coll, []. rewrite app_nil_r. split; [reflexivity|].
      split; [exact Hrefl|left; reflexivity].
Qed.

(** An upsert under one key leaves the documents of every other key as
    they were. *)
Lemma upsert_other_key {A : Type} (key : A -> string) (k k' : string)
    (upd : A -> A) (d : A) (coll : list A) :
  k' <> k -> (forall x, key (upd x) = key x) -> key d = k ->
  filter (fun x => key x = k')
    (findOneAndUpdate (fun x => String.eqb (key x) k) upd (Some d) coll)
  = filter (fun x => key x = k') coll.
Proof.
  intros Hne Hkey Hd.
  destruct (findOneAndUpdate_shape key k upd (Some d) coll)
    as (l1 & l2 & -> & Hf & Hl2).
  rewrite filter_app.
  assert (H2 : filter (fun x => key x = k') l2 = []).
  { destruct Hl2 as [->|(d0 & Heq & ->)]; [reflexivity|].
    inversion Heq; subst d0.
    rewrite (filter_cons (fun x : A => key x = k')).
    rewrite decide_False by congruence. reflexivity. }
  rewrite H2, app_nil_r. clear H2 Hl2.
  induction Hf as [|x x' coll l1 Hx Hf IH]; [reflexivity|].
  rewrite !(filter_cons (fun x : A => key x = k')), IH.
  destruct Hx as [->|[Hk ->]]; [reflexivity|].
  rewrite decide_False by (rewrite Hkey; congruence).
  rewrite decide_False by congruence. reflexivity.
Qed.

(** In a collection with distinct keys a document is the only one under
    its key. *)
Lemma unique_document {A : Type} (key : A -> string) (x : A) (coll : list A) :
  NoDup (map key coll) -> x ∈ coll ->
  filter (fun y => key y = key x) coll = [x].
Proof.
  induction coll as [|y coll IH]; intros Hnd Hin; [inversion Hin|].
  cbn [map] in Hnd. apply NoDup_cons in Hnd as [Hy Hnd].
  rewrite (filter_cons (fun y : A => key y = key x)).
  apply elem_of_cons in Hin as [->|Hin].
  - rewrite decide_True by reflexivity. f_equal.
    apply CollectionFacts.no_document. apply Forall_forall. intros z Hz Hzy.
    apply Hy. rewrite <- Hzy. apply list_elem_of_fmap. eauto.
  - rewrite decide_False; [apply IH; assumption|].
    intros Hyx. apply Hy. rewrite Hyx. apply list_elem_of_fmap. eauto.
Qed.

(** Documents that agree on the key pairwise are filtered alike. *)
Lemma Forall2_filter_key {A : Type} (key : A -> string) (k : string)
    (R : A -> A -> Prop) (l l' : list A) :
  Forall2 (fun x x' => key x' = key x /\ R x x') l l' ->
  Forall2 (fun x x' => key x' = key x /\ R x x')
    (filter (fun x => key x = k) l) (filter (fun x => key x = k) l').
Proof.
  induction 1 as [|x x' l l' [Hk HR] Hf IH]; [constructor|].
  rewrite !(filter_cons (fun x : A => key x = k)).
  destruct (decide (key x = k)) as [Hx|Hx].
  - rewrite decide_True by congruence. constructor; auto.
  - rewrite decide_False by congruence. exact IH.
Qed.

Lemma Forall2_compose {A : Type} (R : A -> A -> Prop) (l1 l2 l3 : list A) :
  (forall x y z, R x y -> R y z -> R x z) ->
  Forall2 R l1 l2 -> Forall2 R l2 l3 -> Forall2 R l1 l3.
Proof.
  intros Htrans H12. revert l3.
  induction H12 as [|x y l1 l2 Hxy H12 IH]; intros l3 H23.
  - inversion H23. constructor.
  - inversion H23 as [|? z ? l3' Hyz H23']; subst.
    constructor; [eapply Htrans; eauto|apply IH, H23'].
Qed.

End CollectionExtras.

(** * Further properties of the queries of the durable store *)
Module SortExtras.
Section Desc.
Context {A : Type}.
Variable key : A -> Z.

(** A descending sort rearranges the documents, greatest key first. *)
Lemma sort_desc_perm (l : list A) : sort_desc key l ≡ₚ l.
Proof. apply SortFacts.sort_by_perm. Qed.

Lemma sort_desc_sorted (l : list A) :
  StronglySorted (fun a b => (key b <= key a)%Z) (sort_desc key l).
Proof.
  unfold sort_desc.
  assert (H : StronglySorted (fun a b => (key b <=? key a)%Z = true)
                (sort_by (fun a b => (key b <=? key a)%Z) l)).
  { apply SortFacts.sort_by_sorted.
    - intros a b Hab. apply Z.leb_gt in Hab. apply Z.leb_le. lia.
    - intros a b c H1 H2. apply Z.leb_le in H1, H2. apply Z.leb_le. lia. }
  induction H as [|x l' Hl IH Hx]; constructor; [exact IH|].
  eapply Forall_impl; [exact Hx|]. intros y Hy. apply Z.leb_le, Hy.
Qed.

Lemma take_sorted (R : A -> A -> Prop) (n : nat) (l : list A) :
  StronglySorted R l -> StronglySorted R (take n l).
Proof.
  intros H. rewrite <- (take_drop n l) in H.
  apply StronglySorted_app_1_l in H. exact H.
Qed.

End Desc.
End SortExtras.

(** * Properties of [src/src/server.js] *)
Module ServerFacts.
Import Server.

(** ** Lists *)

Lemma keep_last_length {A : Type} (n : nat) (l : list A) :
  length (keep_last n l) <= n.
Proof. unfold keep_last. rewrite length_drop. lia. Qed.

Lemma keep_last_short {A : Type} (n : nat) (l : list A) :
  length l <= n -> keep_last n l = l.
Proof.
  intros H. unfold keep_last.
  replace (length l - n) with 0 by lia. reflexivity.
Qed.

Lemma keep_last_snoc {A : Type} (n : nat) (l : list A) (x : A) :
  0 < n -> keep_last n (keep_last n l ++ [x]) = keep_last n (l ++ [x]).
Proof.
  intros Hn. unfold keep_last.
  rewrite !length_app, length_drop. simpl.
  destruct (decide (length l <= n)) as [Hle|Hgt].
  - replace (length l - n) with 0 by lia. simpl.
    replace (length l - 0) with (length l) by lia. reflexivity.
  - rewrite (drop_app_le l [x] (length l + 1 - n)) by lia.
    rewrite drop_app_le by (rewrite length_drop; lia).
    rewrite drop_drop. f_equal. f_equal. lia.
Qed.

Lemma keep_last_tail {A : Type} (n : nat) (l : list A) :
  length l = S n -> keep_last n l = tail l.
Proof.
  intros H. unfold keep_last. replace (length l - n) with 1 by lia.
  destruct l; reflexivity.
Qed.

(** ** The eviction *)

Section Evict.
Variable deviceId : string.

Lemma find_delete_same (locs : list LocationData) i x :
  list_find (fun loc => l_deviceId loc = deviceId) locs = Some (i, x) ->
  device_locations deviceId (delete i locs)
  = tail (device_locations deviceId locs).
Proof.
  unfold device_locations. revert i.
  induction locs as [|y locs IH]; intros i Hf; [discriminate|].
  cbn in Hf. destruct (decide (l_deviceId y = deviceId)) as [Hy|Hy].
  - inversion Hf; subst. change (delete 0 (x :: locs)) with locs.
    rewrite filter_cons_True by done. reflexivity.
  - destruct (list_find _ locs) as [[j z]|] eqn:Hfind; [|discriminate].
    cbn in Hf. inversion Hf; subst.
    change (delete (S j) (y :: locs)) with (y :: delete j locs).
    rewrite !filter_cons_False by done. eauto.
Qed.

Lemma find_delete_other (locs : list LocationData) i x d' :
  d' <> deviceId ->
  list_find (fun loc => l_deviceId loc = deviceId) locs = Some (i, x) ->
  device_locations d' (delete i locs) = device_locations d' locs.
Proof.
  intros Hne. unfold device_locations. revert i.
  induction locs as [|y locs IH]; intros i Hf; [discriminate|].
  cbn in Hf. destruct (decide (l_deviceId y = deviceId)) as [Hy|Hy].
  - inversion Hf; subst. change (delete 0 (x :: locs)) with locs.
    rewrite filter_cons_False by congruence. reflexivity.
  - destruct (list_find _ locs) as [[j z]|] eqn:Hfind; [|discriminate].
    cbn in Hf. inversion Hf; subst.
    change (delete (S j) (y :: locs)) with (y :: delete j locs).
    rewrite !filter_cons. rewrite (IH j) by reflexivity. reflexivity.
Qed.

Lemma find_none_empty (locs : list LocationData) :
  list_find (fun loc => l_deviceId loc = deviceId) locs = None ->
  device_locations deviceId locs = [].
Proof.
  unfold device_locations.
  induction locs as [|y locs IH]; intros Hf; [reflexivity|].
  cbn in Hf. destruct (decide (l_deviceId y = deviceId)) as [Hy|Hy];
    [discriminate|].
  rewrite filter_cons_False by done. apply IH.
  destruct (list_find _ locs); [discriminate|reflexivity].
Qed.

(** On the evicted device, [evict] drops the oldest entry exactly when
    there are more than 100. *)
Lemma evict_same (locs : list LocationData) :
  device_locations deviceId (evict deviceId locs)
  = if decide (100 < length (device_locations deviceId locs))
    then tail (device_locations deviceId locs)
    else device_locations deviceId locs.
Proof.
  unfold evict. fold (device_locations deviceId locs).
  destruct (decide (100 < length (device_locations deviceId locs))) as [Hlt|];
    [|reflexivity].
  destruct (list_find _ locs) as [[i x]|] eqn:Hf.
  - eapply find_delete_same; eauto.
  - apply find_none_empty in Hf. rewrite Hf in Hlt. simpl in Hlt. lia.
Qed.

(** [evict] leaves the entries of every other device alone. *)
Lemma evict_other (locs : list LocationData) d' :
  d' <> deviceId ->
  device_locations d' (evict deviceId locs) = device_locations d' locs.
Proof.
  intros Hne. unfold evict. fold (device_locations deviceId locs).
  destruct (decide (100 < length (device_locations deviceId locs))) as [Hlt|];
    [|reflexivity].
  destruct (list_find _ locs) as [[i x]|] eqn:Hf.
  - eapply find_delete_other; eauto.
  - apply find_none_empty in Hf. rewrite Hf in Hlt. simpl in Hlt. lia.
Qed.

End Evict.

(** ** What one handler invocation does to the in-memory state *)

Ltac unfold_handler :=
  unfold handle, register_driver, location_update, disconnect, try_catch,
    bind, when, await, throw, ret, gets, modify, lift, io_emit, console_error,
    Location_save, Driver_findOneAndUpdate, durable_ok, location_of, touch.

#[local] Arguments JsMap.has : simpl never.
#[local] Arguments JsMap.get : simpl never.
#[local] Arguments JsMap.set : simpl never.
#[local] Arguments JsMap.values : simpl never.
#[local] Arguments evict : simpl never.
#[local] Arguments findOneAndUpdate : simpl never.
#[local] Arguments Location_validate : simpl never.
#[local] Arguments faulty !fault k : simpl nomatch.

Section Steps.
Variable MONGODB_URI : bool.

(** The location-update handler: when the durable part completes, the
    sample is pushed, the device evicted, the driver touched and the
    sample broadcast; otherwise nothing in memory changes and the error is
    logged. *)
Lemma location_update_memory s ld now f w :
  let w' := handle MONGODB_URI (OnLocationUpdate s ld now f) w in
  if durable_ok MONGODB_URI ld now f then
    locations w' = evict (l_deviceId ld) (locations w ++ [location_of ld now])
    /\ drivers w' = touch (l_deviceId ld) now (drivers w)
    /\ sockets w' = sockets w
    /\ out w' = out w ++ [IoEmit (LocationUpdate (location_of ld now))]
  else
    locations w' = locations w
    /\ drivers w' = drivers w
    /\ sockets w' = sockets w
    /\ out w' = out w ++ [ConsoleError "Error saving location:"].
Proof.
  unfold_handler. destruct MONGODB_URI; cbn.
  - destruct (faulty f 0); cbn; [auto|].
    destruct (Location_validate _ _ _); cbn; [|auto].
    destruct (faulty f 1); cbn; [auto|].
    destruct (JsMap.has _ _); cbn; [|auto].
    destruct (JsMap.get _ _); cbn; auto.
  - destruct (JsMap.has _ _); cbn; [|auto].
    destruct (JsMap.get _ _); cbn; auto.
Qed.

(** Registration and disconnection leave the [locations] array alone and
    broadcast no location. *)
Lemma other_events_locations e w :
  (forall s ld now f, e <> OnLocationUpdate s ld now f) ->
  locations (handle MONGODB_URI e w) = locations w
  /\ broadcast_locations (out (handle MONGODB_URI e w))
     = broadcast_locations (out w).
Proof.
  intros Hne. destruct e as [s d n now f|s ld now f|s now f].
  - unfold_handler. destruct MONGODB_URI; cbn.
    + destruct (faulty f 0); cbn; unfold broadcast_locations;
        rewrite ?omap_app; cbn; rewrite ?app_nil_r; auto.
    + unfold broadcast_locations; rewrite ?omap_app; cbn;
        rewrite ?app_nil_r; auto.
  - exfalso. eapply Hne. reflexivity.
  - unfold_handler. cbn. destruct (sockets w !! s) as [d|]; cbn; [|auto].
    destruct (truthy d); cbn; [|auto].
    destruct MONGODB_URI; cbn.
    + destruct (faulty f 0); cbn.
      * unfold broadcast_locations; rewrite ?omap_app; cbn;
          rewrite ?app_nil_r; auto.
      * destruct (JsMap.has _ _); cbn; [|auto].
        destruct (JsMap.get _ _); cbn; [|auto].
        unfold broadcast_locations; rewrite ?omap_app; cbn;
          rewrite ?app_nil_r; auto.
    + destruct (JsMap.has _ _); cbn; [|auto].
      destruct (JsMap.get _ _); cbn; [|auto].
      unfold broadcast_locations; rewrite ?omap_app; cbn;
        rewrite ?app_nil_r; auto.
Qed.

End Steps.

(** ** The history buffer *)

Section Buffer.
Variable MONGODB_URI : bool.

Lemma buffer_inv_start db_drivers db_locations :
  buffer_inv (startServer MONGODB_URI db_drivers db_locations).
Proof. intros d. reflexivity. Qed.

Lemma device_locations_snoc d locs loc :
  device_locations d (locs ++ [loc])
  = device_locations d locs ++ (if decide (l_deviceId loc = d) then [loc] else []).
Proof.
  unfold device_locations. rewrite filter_app. reflexivity.
Qed.

Lemma broadcast_locations_snoc effs e :
  broadcast_locations (effs ++ [e])
  = broadcast_locations effs
    ++ match e with IoEmit (LocationUpdate l) => [l] | _ => [] end.
Proof.
  unfold broadcast_locations. rewrite omap_app. f_equal.
  destruct e as [[?|?]|?]; reflexivity.
Qed.

Lemma buffer_inv_step e w : buffer_inv w -> buffer_inv (handle MONGODB_URI e w).
Proof.
  intros Hinv d.
  destruct e as [s d0 n now f|s ld now f|s now f].
  2: {
    pose proof (location_update_memory MONGODB_URI s ld now f w) as Hstep.
    cbv zeta in Hstep.
    destruct (durable_ok MONGODB_URI ld now f).
    - destruct Hstep as (Hl & _ & _ & Ho). rewrite Hl, Ho.
      rewrite broadcast_locations_snoc, device_locations_snoc.
      change (l_deviceId (location_of ld now)) with (l_deviceId ld).
      destruct (decide (l_deviceId ld = d)) as [Heq|Hne].
      + subst d. rewrite evict_same, device_locations_snoc.
        change (l_deviceId (location_of ld now)) with (l_deviceId ld).
        destruct (decide (l_deviceId ld = l_deviceId ld)); [|congruence].
        rewrite Hinv.
        rewrite <- keep_last_snoc by lia.
        set (R := keep_last 100 _).
        assert (length R <= 100) by apply keep_last_length.
        destruct (decide (100 < length (R ++ [location_of ld now]))) as [Hlt|Hge].
        * symmetry. apply keep_last_tail. rewrite length_app in *. simpl in *. lia.
        * symmetry. apply keep_last_short. lia.
      + rewrite evict_other by congruence.
        rewrite device_locations_snoc, decide_False by done.
        rewrite !app_nil_r. apply Hinv.
    - destruct Hstep as (Hl & _ & _ & Ho). rewrite Hl, Ho.
      rewrite broadcast_locations_snoc, app_nil_r. apply Hinv.
  }
  all: match goal with
       | |- context [handle _ ?e ?w0] =>
           destruct (other_events_locations MONGODB_URI e w0) as [Hl Ho];
           [intros; discriminate|rewrite Hl, Ho; apply Hinv]
       end.
Qed.

Lemma buffer_inv_run es w : buffer_inv w -> buffer_inv (run MONGODB_URI es w).
Proof.
  revert w. induction es as [|e es IH]; intros w Hinv; [exact Hinv|].
  apply IH, buffer_inv_step, Hinv.
Qed.

Lemma buffer_inv_reachable w : reachable MONGODB_URI w -> buffer_inv w.
Proof.
  induction 1; [apply buffer_inv_start|apply buffer_inv_step; assumption].
Qed.

(** Whatever the buffer held, a location update for one device leaves
    the buffered samples of every other device as they were. *)
Lemma location_update_other_devices s ld now f w d' :
  d' <> l_deviceId ld ->
  device_locations d' (locations (handle MONGODB_URI (OnLocationUpdate s ld now f) w))
  = device_locations d' (locations w).
Proof.
  intros Hne.
  pose proof (location_update_memory MONGODB_URI s ld now f w) as Hstep.
  cbv zeta in Hstep.
  destruct (durable_ok MONGODB_URI ld now f).
  - destruct Hstep as (Hl & _). rewrite Hl, evict_other by done.
    rewrite device_locations_snoc, decide_False, app_nil_r; [done|].
    cbn. congruence.
  - destruct Hstep as (Hl & _). rewrite Hl. reflexivity.
Qed.

End Buffer.

(** C5. At every point of every run, the history buffer holds at most
    100 samples of each device, namely the last 100 recorded for it, oldest
    first; so once 101 samples of a device were recorded the first of them
    is gone and the 100 after it remain; and a location update of another
    device leaves the device's buffered samples as they were. *)
Theorem history_buffer_cap_fifo (MONGODB_URI : bool)
    (db_drivers : list DriverDoc) (db_locations : list LocationDoc)
    (es : list Event) (d : string) :
  let w := run MONGODB_URI es (startServer MONGODB_URI db_drivers db_locations) in
  let recorded := device_locations d (broadcast_locations (out w)) in
  length (device_locations d (locations w)) <= 100
  /\ device_locations d (locations w) = keep_last 100 recorded
  /\ (forall oldest rest,
        recorded = oldest :: rest -> length rest = 100 ->
        device_locations d (locations w) = rest)
  /\ (forall s ld now f,
        d <> l_deviceId ld ->
        device_locations d
          (locations (handle MONGODB_URI (OnLocationUpdate s ld now f) w))
        = device_locations d (locations w)).
Proof.
  intros w recorded.
  assert (Hinv : buffer_inv w)
    by apply buffer_inv_run, buffer_inv_start.
  assert (Heq : device_locations d (locations w) = keep_last 100 recorded)
    by apply Hinv.
  repeat split.
  - rewrite Heq. apply keep_last_length.
  - exact Heq.
  - intros oldest rest Hrec Hlen. rewrite Heq, Hrec.
    rewrite keep_last_tail by (simpl; lia). reflexivity.
  - intros s ld now f Hne. apply location_update_other_devices, Hne.
Qed.

Lemma history_buffer_cap_fifo_witness :
  let w := run false Scenario.hundred_and_one (startServer false [] []) in
  length (device_locations "D1" (locations w)) = 100
  /\ head (device_locations "D1" (locations w))
     = Some (location_of (Scenario.sample "D1" 10 20) 2)
  /\ device_locations "D1"
       (locations (handle false
          (OnLocationUpdate "s2" (Scenario.sample "D2" 1 2) 200 None) w))
     = device_locations "D1" (locations w).
Proof.
  intros w.
  destruct (history_buffer_cap_fifo false [] [] Scenario.hundred_and_one "D1")
    as (_ & _ & Hfifo & Hother).
  fold w in Hfifo, Hother.
  assert (Hrec : device_locations "D1" (broadcast_locations (out w))
                 = location_of (Scenario.sample "D1" 10 20) 1
                   :: map (fun i => location_of (Scenario.sample "D1" 10 20)
                                      (Z.of_nat i)) (seq 2 100))
    by (vm_compute; reflexivity).
  specialize (Hfifo _ _ Hrec eq_refl).
  split; [|split].
  - rewrite Hfifo. reflexivity.
  - rewrite Hfifo. reflexivity.
  - apply Hother. discriminate.
Defined.

(** ** The location-update handler and the durable store *)

Section Durable.

Lemma durable_ok_memory_only ld now f : durable_ok false ld now f = true.
Proof. reflexivity. Qed.


(** What validation lets through is within the bounds of the schema. *)
Lemma Location_validate_range l t o doc :
  Location_validate l t o = Ok doc ->
  (-90 <= ld_latitude doc)%Q /\ (ld_latitude doc <= 90)%Q
  /\ (-180 <= ld_longitude doc)%Q /\ (ld_longitude doc <= 180)%Q.
Proof.
  unfold Location_validate, required_number.
  destruct (required_string "deviceId" _); [|discriminate].
  destruct (required_string "driverName" _); [|discriminate].
  destruct (l_latitude l) as [lat|]; [|discriminate].
  destruct (Qle_bool (-90) lat) eqn:H1; [|discriminate].
  destruct (Qle_bool lat 90) eqn:H2; [|discriminate].
  destruct (l_longitude l) as [lon|]; [|discriminate].
  destruct (Qle_bool (-180) lon) eqn:H3; [|discriminate].
  destruct (Qle_bool lon 180) eqn:H4; [|discriminate].
  cbn. intros Hdoc. inversion Hdoc; subst; cbn.
  rewrite <- !Qle_bool_iff. auto.
Qed.

(** A sample out of range does not pass validation. *)
Lemma Location_validate_out_of_range l t o lat lon :
  l_latitude l = Some lat -> l_longitude l = Some lon ->
  (lat < -90 \/ 90 < lat \/ lon < -180 \/ 180 < lon)%Q ->
  exists e, Location_validate l t o = Throw e.
Proof.
  intros Hlat Hlon Hout.
  destruct (Location_validate l t o) as [doc|e] eqn:Hv; [|eauto].
  exfalso. pose proof (Location_validate_range _ _ _ _ Hv) as (H1 & H2 & H3 & H4).
  assert (ld_latitude doc = lat /\ ld_longitude doc = lon) as [E1 E2].
  { revert Hv. unfold Location_validate, required_number.
    rewrite Hlat, Hlon.
    destruct (required_string "deviceId" _); [|discriminate].
    destruct (required_string "driverName" _); [|discriminate].
    destruct (_ && _); [|discriminate].
    destruct (_ && _); [|discriminate].
    intros Hdoc. inversion Hdoc; subst; cbn. auto. }
  rewrite E1 in H1, H2. rewrite E2 in H3, H4.
  destruct Hout as [H|[H|[H|H]]];
    eapply Qlt_not_le; eauto.
Qed.

(** With a database, a sample out of range changes neither the buffer
    nor the Location collection: [save] refuses it and the handler stops. *)
Lemma out_of_range_refused_with_database s ld now f w lat lon :
  l_latitude ld = Some lat -> l_longitude ld = Some lon ->
  (lat < -90 \/ 90 < lat \/ lon < -180 \/ 180 < lon)%Q ->
  let w' := handle true (OnLocationUpdate s ld now f) w in
  locations w' = locations w /\ Locations w' = Locations w
  /\ out w' = out w ++ [ConsoleError "Error saving location:"].
Proof.
  intros Hlat Hlon Hout.
  destruct (Location_validate_out_of_range (location_of ld now) now (Some true)
              lat lon Hlat Hlon Hout) as [e He].
  unfold_handler. cbn. destruct (faulty f 0); cbn; [auto|].
  unfold location_of in He. rewrite He. cbn. auto.
Qed.

(** With a database, every document a handler adds to the Location
    collection is within the bounds of the schema. *)
Lemma Locations_in_range e w :
  Forall in_range (Locations w) ->
  Forall in_range (Locations (handle true e w)).
Proof.
  intros Hw. destruct e as [s d n now f|s ld now f|s now f].
  - unfold_handler. cbn. destruct (faulty f 0); exact Hw.
  - unfold_handler. cbn. destruct (faulty f 0); cbn; [exact Hw|].
    destruct (Location_validate _ _ _) as [doc|] eqn:Hv; cbn; [|exact Hw].
    assert (Hnew : Forall in_range (Locations w ++ [doc])).
    { apply Forall_app. split; [exact Hw|].
      apply Forall_cons. split; [|constructor].
      exact (Location_validate_range _ _ _ _ Hv). }
    destruct (faulty f 1); cbn; [exact Hnew|].
    destruct (JsMap.has _ _); cbn; [|exact Hnew].
    destruct (JsMap.get _ _); exact Hnew.
  - unfold_handler. cbn. destruct (sockets w !! s) as [d|]; cbn; [|exact Hw].
    destruct (truthy d); cbn; [|exact Hw].
    destruct (faulty f 0); cbn; [exact Hw|].
    destruct (JsMap.has _ _); cbn; [|exact Hw].
    destruct (JsMap.get _ _); exact Hw.
Qed.

End Durable.

(** ** Registration and disconnection *)

Section Presence.
Variable MONGODB_URI : bool.

(** A registration whose durable call succeeds. *)
Lemma register_driver_memory s d n now w :
  let w' := handle MONGODB_URI (OnRegisterDriver s d n now None) w in
  drivers w'
  = JsMap.set d {| d_deviceId := d; d_driverName := n; d_isOnline := true;
                   d_lastSeen := now; d_socketId := Some s |} (drivers w)
  /\ sockets w' = <[s := d]> (sockets w)
  /\ locations w' = locations w
  /\ Locations w' = Locations w
  /\ out w' = out w ++ [IoEmit (DriversUpdated (JsMap.values (drivers w')))].
Proof. unfold_handler. destruct MONGODB_URI; cbn; auto. Qed.

(** Registering a device twice in a row leaves the Map and the
    collections as the second registration alone does. *)
Lemma register_twice_once s1 s2 d n t1 t2 w :
  let once := handle MONGODB_URI (OnRegisterDriver s2 d n t2 None) w in
  let twice :=
    handle MONGODB_URI (OnRegisterDriver s2 d n t2 None)
      (handle MONGODB_URI (OnRegisterDriver s1 d n t1 None) w) in
  drivers twice = drivers once /\ Drivers twice = Drivers once
  /\ locations twice = locations once /\ Locations twice = Locations once.
Proof.
  unfold_handler. destruct MONGODB_URI; cbn;
    rewrite JsMapFacts.set_set; repeat split; try reflexivity.
  apply (CollectionFacts.findOneAndUpdate_twice dd_deviceId d); auto.
Qed.

(** After a registration the Map holds one entry of the device, online,
    and with a database the collection holds one document of it, online. *)
Lemma register_driver_one_record s d n now w :
  NoDup (JsMap.keys (drivers w)) ->
  NoDup (map dd_deviceId (Drivers w)) ->
  let w' := handle MONGODB_URI (OnRegisterDriver s d n now None) w in
  driver_entries d (drivers w')
  = [(d, {| d_deviceId := d; d_driverName := n; d_isOnline := true;
            d_lastSeen := now; d_socketId := Some s |})]
  /\ (MONGODB_URI = true ->
      driver_docs d (Drivers w')
      = [{| dd_deviceId := d; dd_driverName := trim n; dd_isOnline := true;
            dd_lastSeen := now |}]).
Proof.
  intros Hm Hc w'.
  destruct (register_driver_memory s d n now w) as (Hd & _). fold w' in Hd.
  split.
  - rewrite Hd. apply JsMapFacts.entries_after_set, Hm.
  - intros ->. subst w'. unfold_handler. cbn.
    set (doc := mkDriverDoc d (trim n) true now).
    set (upd := fun x : DriverDoc =>
                  mkDriverDoc (dd_deviceId x) (trim n) true now).
    destruct (CollectionFacts.findOneAndUpdate_upsert_one dd_deviceId d upd doc
                (Drivers w)) as (l1 & x & l2 & Heq & Hx & Hor & Hl1 & Hl2 & _);
      [reflexivity|reflexivity|exact Hc|].
    rewrite Heq. unfold driver_docs. rewrite filter_app.
    rewrite (filter_cons (fun y : DriverDoc => dd_deviceId y = d)).
    rewrite decide_True by exact Hx.
    rewrite !CollectionFacts.no_document by assumption. cbn. f_equal.
    destruct Hor as [->|[x0 ->]]; [reflexivity|].
    subst upd. cbn in *. rewrite Hx. reflexivity.
Qed.

(** The Map stays a valid Map along every run. *)
Lemma NoDup_keys_step e w :
  NoDup (JsMap.keys (drivers w)) ->
  NoDup (JsMap.keys (drivers (handle MONGODB_URI e w))).
Proof.
  intros Hnd. destruct e as [s d n now f|s ld now f|s now f].
  - unfold_handler. destruct MONGODB_URI; cbn.
    + destruct (faulty f 0); cbn; [exact Hnd|].
      apply JsMapFacts.NoDup_keys_set, Hnd.
    + apply JsMapFacts.NoDup_keys_set, Hnd.
  - pose proof (location_update_memory MONGODB_URI s ld now f w) as Hstep.
    cbv zeta in Hstep. destruct (durable_ok _ _ _ _).
    + destruct Hstep as (_ & -> & _). unfold touch.
      destruct (JsMap.has _ _); [|exact Hnd].
      destruct (JsMap.get _ _); [|exact Hnd].
      apply JsMapFacts.NoDup_keys_set, Hnd.
    + destruct Hstep as (_ & -> & _). exact Hnd.
  - unfold_handler. cbn. destruct (sockets w !! s) as [d|]; cbn; [|exact Hnd].
    destruct (truthy d); cbn; [|exact Hnd].
    destruct MONGODB_URI; cbn.
    + destruct (faulty f 0); cbn; [exact Hnd|].
      destruct (JsMap.has _ _); cbn; [|exact Hnd].
      destruct (JsMap.get _ _); cbn; [|exact Hnd].
      apply JsMapFacts.NoDup_keys_set, Hnd.
    + destruct (JsMap.has _ _); cbn; [|exact Hnd].
      destruct (JsMap.get _ _); cbn; [|exact Hnd].
      apply JsMapFacts.NoDup_keys_set, Hnd.
Qed.

Lemma NoDup_keys_start db_drivers db_locations :
  NoDup (JsMap.keys (drivers (startServer MONGODB_URI db_drivers db_locations))).
Proof.
  unfold startServer. cbn. destruct MONGODB_URI; [|apply NoDup_nil_2].
  generalize (filter (fun d => dd_isOnline d = true) db_drivers).
  intros l. assert (H : NoDup (JsMap.keys ([] : JsMap.t DriverData)))
    by apply NoDup_nil_2.
  revert H. generalize ([] : JsMap.t DriverData).
  induction l as [|x l IH]; intros m Hm; [exact Hm|].
  cbn. apply IH, JsMapFacts.NoDup_keys_set, Hm.
Qed.

Lemma NoDup_keys_reachable w :
  reachable MONGODB_URI w -> NoDup (JsMap.keys (drivers w)).
Proof.
  induction 1; [apply NoDup_keys_start|apply NoDup_keys_step; assumption].
Qed.

(** The disconnection of a socket that registered a device the Map
    holds: the entry goes offline, its [lastSeen] is refreshed and the
    driver list is broadcast; with a database the document goes offline
    too. *)
Lemma disconnect_memory s d driver now w :
  sockets w !! s = Some d -> truthy d = true ->
  JsMap.get d (drivers w) = Some driver ->
  let w' := handle MONGODB_URI (OnDisconnect s now None) w in
  drivers w'
  = JsMap.set d {| d_deviceId := d_deviceId driver;
                   d_driverName := d_driverName driver;
                   d_isOnline := false; d_lastSeen := now;
                   d_socketId := d_socketId driver |} (drivers w)
  /\ out w' = out w ++ [IoEmit (DriversUpdated (JsMap.values (drivers w')))]
  /\ Drivers w'
     = (if MONGODB_URI then
          findOneAndUpdate (fun x => String.eqb (dd_deviceId x) d)
            (fun x => {| dd_deviceId := dd_deviceId x;
                         dd_driverName := dd_driverName x;
                         dd_isOnline := false; dd_lastSeen := now |})
            None (Drivers w)
        else Drivers w).
Proof.
  intros Hs Ht Hg.
  assert (Hh : JsMap.has d (drivers w) = true)
    by (apply JsMapFacts.has_get; rewrite Hg; eauto).
  unfold_handler. cbn. rewrite Hs. cbn. rewrite Ht. cbn.
  destruct MONGODB_URI; cbn; rewrite Hh; cbn; rewrite Hg; cbn; auto.
Qed.

End Presence.

(** ** The history of one device *)

Section History.
Variable MONGODB_URI : bool.

Lemma run_app es1 es2 w :
  run MONGODB_URI (es1 ++ es2) w = run MONGODB_URI es2 (run MONGODB_URI es1 w).
Proof. unfold run. apply fold_left_app. Qed.

(** While the buffer of the device has room, accepted samples are
    appended to it in arrival order. *)
Lemma ingest_memory s d samples w :
  Forall (fun p => l_deviceId (fst p) = d
                   /\ durable_ok MONGODB_URI (fst p) (snd p) None = true) samples ->
  length (device_locations d (locations w)) + length samples <= 100 ->
  device_locations d (locations (run MONGODB_URI (ingest s samples) w))
  = device_locations d (locations w) ++ recorded samples.
Proof.
  intros Hall. revert w.
  induction Hall as [|[ld t] samples [Hd Hok] Hall IH]; intros w Hlen.
  - cbn. rewrite app_nil_r. reflexivity.
  - cbn [ingest map run fold_left fst snd] in *.
    pose proof (location_update_memory MONGODB_URI s ld t None w) as Hstep.
    cbv zeta in Hstep. rewrite Hok in Hstep. destruct Hstep as (Hl & _).
    assert (Hdev : device_locations d
                     (locations (handle MONGODB_URI (OnLocationUpdate s ld t None) w))
                   = device_locations d (locations w) ++ [location_of ld t]).
    { rewrite Hl, <- Hd, evict_same, device_locations_snoc.
      change (l_deviceId (location_of ld t)) with (l_deviceId ld).
      destruct (decide (l_deviceId ld = l_deviceId ld)); [|congruence].
      rewrite decide_False; [reflexivity|].
      rewrite length_app. cbn in *. rewrite Hd. lia. }
    change (fold_left _ (map _ samples) ?w0)
      with (run MONGODB_URI (ingest s samples) w0).
    rewrite IH.
    + rewrite Hdev, <- app_assoc. reflexivity.
    + rewrite Hdev, length_app. cbn in *. lia.
Qed.

End History.

(** With a database, accepted samples are appended to the Location
    collection in arrival order. *)
Lemma ingest_database s samples w :
  Forall (fun p => durable_ok true (fst p) (snd p) None = true) samples ->
  Locations (run true (ingest s samples) w) = Locations w ++ documents samples
  /\ length (documents samples) = length samples.
Proof.
  intros Hall. revert w.
  induction Hall as [|[ld t] samples Hok Hall IH]; intros w.
  - cbn. rewrite app_nil_r. auto.
  - cbn [ingest map run fold_left fst snd] in *.
    change (fold_left _ (map _ samples) ?w0)
      with (run true (ingest s samples) w0).
    destruct (IH (handle true (OnLocationUpdate s ld t None) w)) as [-> Hlen].
    unfold documents at 1 2. cbn [omap list_omap fst snd].
    fold (documents samples).
    revert Hok. unfold durable_ok. cbn.
    destruct (Location_validate (location_of ld t) t (Some true)) as [doc|] eqn:Hv;
      [intros _|discriminate].
    assert (HL : Locations (handle true (OnLocationUpdate s ld t None) w)
                 = Locations w ++ [doc]).
    { unfold_handler. cbn. unfold location_of in Hv. rewrite Hv. cbn.
      destruct (JsMap.has _ _); cbn; [|reflexivity].
      destruct (JsMap.get _ _); reflexivity. }
    change ((location_update true s ld t None w).2)
      with (handle true (OnLocationUpdate s ld t None) w).
    rewrite HL, <- app_assoc. cbn. fold (documents samples). auto.
Qed.

(** What validation lets through carries the fields of the sample. *)
Lemma Location_validate_fields l t o doc :
  Location_validate l t o = Ok doc ->
  ld_deviceId doc = l_deviceId l
  /\ l_driverName l = Some (ld_driverName doc)
  /\ l_latitude l = Some (ld_latitude doc)
  /\ l_longitude l = Some (ld_longitude doc)
  /\ ld_accuracy doc = with_default 0%Q (l_accuracy l)
  /\ ld_speed doc = with_default 0%Q (l_speed l)
  /\ ld_heading doc = with_default 0%Q (l_heading l)
  /\ ld_timestamp doc = t
  /\ ld_isOnline doc = with_default true o.
Proof.
  unfold Location_validate, required_string, required_number.
  destruct (truthy (l_deviceId l)); [|discriminate].
  destruct (l_driverName l) as [n|]; [|discriminate].
  destruct (truthy n); [|discriminate].
  destruct (l_latitude l); [|discriminate].
  destruct (_ && _); [|discriminate].
  destruct (l_longitude l); [|discriminate].
  destruct (_ && _); [|discriminate].
  intros H. inversion H; subst; cbn. repeat split; reflexivity.
Qed.

(** The documents of accepted samples, one per sample, carry the
    sample's fields, its arrival time and [isOnline = true]. *)
Lemma documents_fields samples :
  Forall (fun p => durable_ok true (fst p) (snd p) None = true) samples ->
  Forall2 (fun p doc =>
             Location_validate (location_of (fst p) (snd p)) (snd p) (Some true)
             = Ok doc) samples (documents samples).
Proof.
  induction 1 as [|[ld t] samples Hok Hall IH]; [constructor|].
  unfold documents. cbn [omap list_omap fst snd]. fold (documents samples).
  revert Hok. unfold durable_ok. cbn.
  destruct (Location_validate (location_of ld t) t (Some true)) as [doc|] eqn:Hv;
    [intros _|discriminate].
  cbn. constructor; [exact Hv|exact IH].
Qed.

(** The history route after a device registered and reported, on a
    buffer and a collection that held nothing of the device. *)
Lemma history_memory s d n t0 samples w :
  Forall (fun p => l_deviceId (fst p) = d) samples ->
  length samples <= 100 ->
  device_locations d (locations w) = [] ->
  get_device_locations false d
    (run false (OnRegisterDriver s d n t0 None :: ingest s samples) w)
  = inl (recorded samples).
Proof.
  intros Hall Hlen Hw. unfold get_device_locations.
  fold (device_locations d
          (locations (run false (OnRegisterDriver s d n t0 None :: ingest s samples) w))).
  change (run false (OnRegisterDriver s d n t0 None :: ingest s samples) w)
    with (run false (ingest s samples)
            (handle false (OnRegisterDriver s d n t0 None) w)).
  destruct (register_driver_memory false s d n t0 w) as (_ & _ & Hl & _).
  rewrite (ingest_memory false s d).
  - rewrite Hl, Hw. reflexivity.
  - eapply Forall_impl; [exact Hall|]. intros p Hp. split; [exact Hp|reflexivity].
  - rewrite Hl, Hw. cbn. lia.
Qed.

(** Whatever the arrival times, the database branch answers with the
    documents of the samples sorted by timestamp, newest first. *)
Lemma history_database_sorted s d n t0 samples w :
  Forall (fun p => l_deviceId (fst p) = d
                   /\ durable_ok true (fst p) (snd p) None = true) samples ->
  length samples <= 100 ->
  filter (fun x => ld_deviceId x = d) (Locations w) = [] ->
  get_device_locations true d
    (run true (OnRegisterDriver s d n t0 None :: ingest s samples) w)
  = inr (sort_desc ld_timestamp (documents samples)).
Proof.
  intros Hall Hlen Hw. unfold get_device_locations.
  change (run true (OnRegisterDriver s d n t0 None :: ingest s samples) w)
    with (run true (ingest s samples)
            (handle true (OnRegisterDriver s d n t0 None) w)).
  assert (Hok : Forall (fun p => durable_ok true (fst p) (snd p) None = true) samples)
    by (eapply Forall_impl; [exact Hall|]; intros p [_ Hp]; exact Hp).
  destruct (ingest_database s samples
              (handle true (OnRegisterDriver s d n t0 None) w) Hok) as [-> Hdl].
  destruct (register_driver_memory true s d n t0 w) as (_ & _ & _ & -> & _).
  rewrite filter_app, Hw. cbn [app].
  pose proof (documents_fields samples Hok) as Hf.
  assert (Hdev : filter (fun x => ld_deviceId x = d) (documents samples)
                 = documents samples).
  { clear Hdl Hlen Hok. revert Hall.
    induction Hf as [|p doc samples docs Hv Hf IH]; intros Hall; [reflexivity|].
    inversion Hall as [|? ? [Hd _] Hall']; subst.
    apply Location_validate_fields in Hv as (Hid & _).
    rewrite (filter_cons (fun x : LocationDoc => ld_deviceId x = l_deviceId p.1)).
    rewrite decide_True by exact Hid. f_equal. apply IH, Hall'. }
  rewrite Hdev. f_equal. apply take_ge.
  rewrite (Permutation_length (SortExtras.sort_desc_perm ld_timestamp _)). lia.
Qed.

(** ** The newest sample of a device *)

Lemma last_tail_snoc {A : Type} (l : list A) (x : A) :
  0 < length l -> last (tail (l ++ [x])) = Some x.
Proof.
  destruct l as [|y l]; cbn [length]; [lia|]. intros _.
  cbn [app tail]. apply last_snoc.
Qed.

(** An accepted sample is the newest entry of its device in the buffer
    and the answer of the history route ends with it. *)
Lemma location_update_newest (MONGODB_URI : bool) s ld now f w :
  durable_ok MONGODB_URI ld now f = true ->
  last (device_locations (l_deviceId ld)
          (locations (handle MONGODB_URI (OnLocationUpdate s ld now f) w)))
  = Some (location_of ld now).
Proof.
  intros Hok.
  pose proof (location_update_memory MONGODB_URI s ld now f w) as Hstep.
  cbv zeta in Hstep. rewrite Hok in Hstep. destruct Hstep as (-> & _).
  rewrite evict_same, device_locations_snoc.
  change (l_deviceId (location_of ld now)) with (l_deviceId ld).
  destruct (decide (l_deviceId ld = l_deviceId ld)); [|congruence].
  destruct (decide (100 < _)) as [Hlt|_]; [|apply last_snoc].
  apply last_tail_snoc. rewrite length_app in Hlt. cbn in Hlt. lia.
Qed.

(** The fleet route answers with entries of devices of the [drivers]
    Map only. *)
Lemma get_locations_memory_devices w :
  exists L,
    get_locations false w = inl L
    /\ Forall (fun l => l_deviceId l ∈ JsMap.keys (drivers w)) L.
Proof.
  unfold get_locations. eexists. split; [reflexivity|].
  induction (JsMap.keys (drivers w)) as [|k ks IH]; [constructor|].
  cbn [omap list_omap].
  destruct (last (filter _ (locations w))) as [l|] eqn:Hl.
  - constructor.
    + apply last_Some_elem_of, list_elem_of_filter in Hl as [-> _]. left.
    + eapply Forall_impl; [exact IH|]. intros; right; assumption.
  - eapply Forall_impl; [exact IH|]. intros; right; assumption.
Qed.

(** What the client put into [timestamp] and [isOnline] plays no part
    in a location update. *)
Lemma location_update_ignores_client_stamp (MONGODB_URI : bool) s ld now f w t' o' :
  handle MONGODB_URI (OnLocationUpdate s (with_timestamp_isOnline t' o' ld) now f) w
  = handle MONGODB_URI (OnLocationUpdate s ld now f) w.
Proof. reflexivity. Qed.

(** With a database, an accepted sample is saved with its arrival time
    and [isOnline = true]. *)
Lemma location_update_document s ld now w :
  durable_ok true ld now None = true ->
  exists doc,
    Locations (handle true (OnLocationUpdate s ld now None) w)
    = Locations w ++ [doc]
    /\ Location_validate (location_of ld now) now (Some true) = Ok doc
    /\ ld_timestamp doc = now /\ ld_isOnline doc = true.
Proof.
  unfold durable_ok. cbn.
  destruct (Location_validate (location_of ld now) now (Some true)) as [doc|] eqn:Hv;
    [intros _|discriminate].
  exists doc. split; [|split; [reflexivity|]].
  - unfold_handler. cbn. unfold location_of in Hv. rewrite Hv. cbn.
    destruct (JsMap.has _ _); cbn; [|reflexivity].
    destruct (JsMap.get _ _); reflexivity.
  - apply Location_validate_fields in Hv. tauto.
Qed.

(** ** The fleet route on registered devices *)

Section Fleet.

Lemma fleet_filter (d : string) (locs : list LocationData) (ks : list string) :
  NoDup ks ->
  filter (fun l => l_deviceId l = d)
    (omap (fun k => last (filter (fun loc => l_deviceId loc = k) locs)) ks)
  = if decide (d ∈ ks) then option_list (last (device_locations d locs)) else [].
Proof.
  induction 1 as [|k ks Hk Hnd IH].
  - rewrite decide_False by (intros H; inversion H). reflexivity.
  - cbn [omap list_omap].
    destruct (last (filter (fun loc => l_deviceId loc = k) locs)) as [x|] eqn:Hx.
    + assert (Hxk : l_deviceId x = k)
        by (apply last_Some_elem_of, list_elem_of_filter in Hx; tauto).
      rewrite (filter_cons (fun l : LocationData => l_deviceId l = d)).
      destruct (decide (k = d)) as [->|Hne].
      * rewrite decide_True by exact Hxk.
        rewrite (decide_True (P := d ∈ d :: ks)) by left.
        rewrite IH, decide_False by exact Hk.
        unfold device_locations. rewrite Hx. reflexivity.
      * rewrite decide_False by congruence. rewrite IH.
        destruct (decide (d ∈ ks)) as [Hin|Hnin].
        -- rewrite decide_True by (right; exact Hin). reflexivity.
        -- rewrite decide_False; [reflexivity|].
           intros H. apply elem_of_cons in H as [?|?]; [congruence|contradiction].
    + rewrite IH. destruct (decide (k = d)) as [->|Hne].
      * rewrite decide_False by exact Hk.
        rewrite (decide_True (P := d ∈ d :: ks)) by left.
        unfold device_locations. rewrite Hx. reflexivity.
      * destruct (decide (d ∈ ks)) as [Hin|Hnin].
        -- rewrite decide_True by (right; exact Hin). reflexivity.
        -- rewrite decide_False; [reflexivity|].
           intros H. apply elem_of_cons in H as [?|?]; [congruence|contradiction].
Qed.

(** Without a database the fleet route answers, for each device of the
    [drivers] Map, with the newest buffered sample of the device when
    there is one, and with nothing for any other device. *)
Lemma fleet_memory_one_per_driver w d :
  NoDup (JsMap.keys (drivers w)) ->
  exists L,
    get_locations false w = inl L
    /\ filter (fun l => l_deviceId l = d) L
       = if decide (d ∈ JsMap.keys (drivers w))
         then option_list (last (device_locations d (locations w)))
         else [].
Proof.
  intros Hnd. eexists. split; [reflexivity|]. apply fleet_filter, Hnd.
Qed.

Lemma last_drop_lt {A : Type} (n : nat) (l : list A) :
  n < length l -> last (drop n l) = last l.
Proof.
  revert n. induction l as [|a l IH]; intros n Hn; [cbn in Hn; lia|].
  destruct n as [|n]; [reflexivity|].
  cbn [drop]. cbn [length] in Hn. rewrite IH by lia.
  destruct l as [|b l]; [cbn in Hn; lia|]. reflexivity.
Qed.

Lemma last_keep_last {A : Type} (n : nat) (l : list A) :
  0 < n -> last (keep_last n l) = last l.
Proof.
  intros Hn. unfold keep_last.
  destruct l as [|a l]; [reflexivity|].
  apply last_drop_lt. cbn [length]. lia.
Qed.

(** When events arrive in time order, the samples broadcast so far are
    in time order. *)
Lemma trace_sorted_run (MONGODB_URI : bool) es w :
  StronglySorted Z.le (map event_time es) ->
  StronglySorted (fun a b => (capture_time a <= capture_time b)%Z)
    (broadcast_locations (out w)) ->
  Forall (fun e => Forall (fun l => (capture_time l <= event_time e)%Z)
                     (broadcast_locations (out w))) es ->
  StronglySorted (fun a b => (capture_time a <= capture_time b)%Z)
    (broadcast_locations (out (run MONGODB_URI es w))).
Proof.
  revert w. induction es as [|e es IH]; intros w Hes Hw Hb; [exact Hw|].
  cbn [map] in Hes. apply StronglySorted_cons in Hes as [Hle Hes].
  apply Forall_cons in Hb as [Hbe Hb].
  change (run MONGODB_URI (e :: es) w)
    with (run MONGODB_URI es (handle MONGODB_URI e w)).
  assert (Hcase :
    broadcast_locations (out (handle MONGODB_URI e w)) = broadcast_locations (out w)
    \/ exists x, broadcast_locations (out (handle MONGODB_URI e w))
                 = broadcast_locations (out w) ++ [x]
                 /\ capture_time x = event_time e).
  { destruct e as [s d n now f|s ld now f|s now f].
    - left. apply other_events_locations. intros; discriminate.
    - pose proof (location_update_memory MONGODB_URI s ld now f w) as Hstep.
      cbv zeta in Hstep. destruct (durable_ok _ _ _ _).
      + right. exists (location_of ld now). destruct Hstep as (_ & _ & _ & ->).
        rewrite broadcast_locations_snoc. split; reflexivity.
      + left. destruct Hstep as (_ & _ & _ & ->).
        rewrite broadcast_locations_snoc, app_nil_r. reflexivity.
    - left. apply other_events_locations. intros; discriminate. }
  apply IH; [exact Hes| |].
  - destruct Hcase as [->|(x & -> & Hx)]; [exact Hw|].
    apply StronglySorted_app_2; [|exact Hw|repeat constructor].
    intros x1 x2 H1 H2. apply list_elem_of_singleton in H2. subst x2.
    rewrite Hx. rewrite Forall_forall in Hbe. apply Hbe, H1.
  - destruct Hcase as [->|(x & -> & Hx)]; [exact Hb|].
    rewrite Forall_forall in Hb. rewrite Forall_forall in Hle.
    apply Forall_forall. intros e' He'.
    apply Forall_app. split; [apply Hb, He'|].
    repeat constructor. rewrite Hx. apply Hle.
    apply list_elem_of_In, in_map, list_elem_of_In, He'.
Qed.

(** Along a run in time order the newest buffered sample of a device
    carries the greatest timestamp of all samples recorded for it, the
    evicted ones included. *)
Lemma newest_has_greatest_timestamp (MONGODB_URI : bool)
    db_drivers db_locations es d x :
  StronglySorted Z.le (map event_time es) ->
  let w := run MONGODB_URI es (startServer MONGODB_URI db_drivers db_locations) in
  last (device_locations d (locations w)) = Some x ->
  x ∈ device_locations d (broadcast_locations (out w))
  /\ Forall (fun l => (capture_time l <= capture_time x)%Z)
       (device_locations d (broadcast_locations (out w))).
Proof.
  intros Hes w Hlast.
  assert (Hinv : buffer_inv w) by apply buffer_inv_run, buffer_inv_start.
  rewrite (Hinv d), last_keep_last in Hlast by lia.
  assert (Hsorted : StronglySorted (fun a b => (capture_time a <= capture_time b)%Z)
                      (broadcast_locations (out w))).
  { apply trace_sorted_run; [exact Hes|constructor|].
    apply Forall_forall. intros; constructor. }
  split; [apply last_Some_elem_of, Hlast|].
  apply last_Some in Hlast as [l' Hl'].
  set (tr := broadcast_locations (out w)) in *.
  assert (Hds : StronglySorted (fun a b => (capture_time a <= capture_time b)%Z)
                  (device_locations d tr)).
  { clear -Hsorted. unfold device_locations.
    induction Hsorted as [|y l Hl IH Hy]; [constructor|].
    rewrite filter_cons. destruct (decide (l_deviceId y = d)); [|exact IH].
    constructor; [exact IH|]. apply Forall_forall. intros z Hz.
    apply list_elem_of_filter in Hz as [_ Hz].
    rewrite Forall_forall in Hy. apply Hy, Hz. }
  rewrite Hl' in Hds |- *. apply Forall_app. split; [|repeat constructor; lia].
  apply Forall_forall. intros z Hz.
  apply (StronglySorted_app_1_elem_of
           (fun a b => (capture_time a <= capture_time b)%Z) l' [x] z x);
    [exact Hds|exact Hz|left].
Qed.

End Fleet.

(** ** The fleet route on the Location collection *)

Section Aggregate.

Lemma compare_refl (a : string) : String.compare a a = Eq.
Proof. apply OrderedTypeEx.String_as_OT.cmp_eq. reflexivity. Qed.

Lemma compare_Lt_trans (a b c : string) :
  String.compare a b = Lt -> String.compare b c = Lt -> String.compare a c = Lt.
Proof.
  intros H1 H2. apply OrderedTypeEx.String_as_OT.cmp_lt.
  apply OrderedTypeEx.String_as_OT.cmp_lt in H1, H2.
  eapply OrderedTypeEx.String_as_OT.lt_trans; eauto.
Qed.

Lemma by_device_then_newest_total (a b : LocationDoc) :
  by_device_then_newest a b = false -> by_device_then_newest b a = true.
Proof.
  unfold by_device_then_newest.
  rewrite (String.compare_antisym (ld_deviceId a) (ld_deviceId b)).
  destruct (String.compare (ld_deviceId b) (ld_deviceId a)); cbn;
    try discriminate; try reflexivity.
  intros H. apply Z.leb_gt in H. apply Z.leb_le. lia.
Qed.

Lemma by_device_then_newest_trans (a b c : LocationDoc) :
  by_device_then_newest a b = true -> by_device_then_newest b c = true ->
  by_device_then_newest a c = true.
Proof.
  unfold by_device_then_newest.
  destruct (String.compare (ld_deviceId a) (ld_deviceId b)) eqn:Hab;
    [| |discriminate].
  - apply String.compare_eq_iff in Hab. rewrite Hab.
    destruct (String.compare (ld_deviceId b) (ld_deviceId c));
      [|reflexivity|discriminate].
    intros H1 H2. apply Z.leb_le in H1, H2. apply Z.leb_le. lia.
  - intros _.
    destruct (String.compare (ld_deviceId b) (ld_deviceId c)) eqn:Hbc;
      [| |discriminate].
    + apply String.compare_eq_iff in Hbc. rewrite <- Hbc, Hab. reflexivity.
    + intros _. rewrite (compare_Lt_trans _ _ _ Hab Hbc). reflexivity.
Qed.

Lemma seen_spec (d : string) (seen : list string) :
  existsb (String.eqb d) seen = true <-> d ∈ seen.
Proof.
  induction seen as [|k seen IH]; cbn.
  - split; [discriminate|]. intros H. inversion H.
  - rewrite elem_of_cons, orb_true_iff, IH, String.eqb_eq. reflexivity.
Qed.

(** Grouping keeps, of each device not seen before, its first document. *)
Lemma group_first_filter (d : string) (seen : list string) (l : list LocationDoc) :
  filter (fun y => ld_deviceId y = d) (group_first seen l)
  = if decide (d ∈ seen) then []
    else option_list (head (filter (fun y => ld_deviceId y = d) l)).
Proof.
  revert seen. induction l as [|x l IH]; intros seen.
  - cbn. destruct (decide (d ∈ seen)); reflexivity.
  - cbn [group_first].
    rewrite (filter_cons (fun y : LocationDoc => ld_deviceId y = d) x l).
    destruct (existsb (String.eqb (ld_deviceId x)) seen) eqn:Hseen.
    + apply seen_spec in Hseen. rewrite IH.
      destruct (decide (d ∈ seen)) as [Hd|Hd]; [reflexivity|].
      rewrite decide_False by congruence. reflexivity.
    + assert (Hx : ld_deviceId x ∉ seen).
      { intros H. apply seen_spec in H. congruence. }
      rewrite (filter_cons (fun y : LocationDoc => ld_deviceId y = d)).
      rewrite IH. destruct (decide (ld_deviceId x = d)) as [Hxd|Hxd].
      * rewrite (decide_True (P := d ∈ ld_deviceId x :: seen))
          by (rewrite Hxd; left).
        rewrite decide_False by congruence. reflexivity.
      * destruct (decide (d ∈ seen)) as [Hd|Hd].
        -- rewrite decide_True by (right; exact Hd). reflexivity.
        -- rewrite decide_False; [reflexivity|].
           intros H. apply elem_of_cons in H as [?|?]; [congruence|contradiction].
Qed.

(** With a database the fleet route answers, for each device that has a
    document in the Location collection, with exactly one document of the
    device, one whose timestamp is the greatest. *)
Lemma aggregate_latest_one_per_device (coll : list LocationDoc) (doc0 : LocationDoc) :
  doc0 ∈ coll ->
  exists x,
    filter (fun y => ld_deviceId y = ld_deviceId doc0) (aggregate_latest coll) = [x]
    /\ x ∈ coll /\ ld_deviceId x = ld_deviceId doc0
    /\ forall y, y ∈ coll -> ld_deviceId y = ld_deviceId doc0 ->
                 (ld_timestamp y <= ld_timestamp x)%Z.
Proof.
  intros Hin. unfold aggregate_latest. rewrite group_first_filter.
  rewrite decide_False by (intros H; inversion H).
  set (d := ld_deviceId doc0).
  set (sorted := sort_by by_device_then_newest coll).
  assert (Hperm : sorted ≡ₚ coll) by apply SortFacts.sort_by_perm.
  assert (Hss : StronglySorted (fun a b => by_device_then_newest a b = true) sorted)
    by (apply SortFacts.sort_by_sorted;
        [apply by_device_then_newest_total|apply by_device_then_newest_trans]).
  assert (Hin' : doc0 ∈ filter (fun y => ld_deviceId y = d) sorted).
  { apply list_elem_of_filter. split; [reflexivity|]. rewrite Hperm. exact Hin. }
  destruct (filter (fun y => ld_deviceId y = d) sorted) as [|x rest] eqn:Hf;
    [inversion Hin'|].
  exists x. cbn. split; [reflexivity|].
  assert (Hx : x ∈ filter (fun y => ld_deviceId y = d) sorted)
    by (rewrite Hf; left).
  apply list_elem_of_filter in Hx as [Hxd Hx].
  split; [rewrite <- Hperm; exact Hx|]. split; [exact Hxd|].
  intros y Hy Hyd.
  assert (Hy' : y ∈ x :: rest).
  { rewrite <- Hf. apply list_elem_of_filter. split; [exact Hyd|].
    rewrite Hperm. exact Hy. }
  apply elem_of_cons in Hy' as [->|Hy']; [lia|].
  assert (Hfs : StronglySorted (fun a b => by_device_then_newest a b = true)
                  (x :: rest)).
  { rewrite <- Hf. clear -Hss.
    induction Hss as [|z l Hl IH Hz]; [constructor|].
    rewrite filter_cons. destruct (decide (ld_deviceId z = d)); [|exact IH].
    constructor; [exact IH|]. apply Forall_forall. intros u Hu.
    apply list_elem_of_filter in Hu as [_ Hu].
    rewrite Forall_forall in Hz. apply Hz, Hu. }
  apply StronglySorted_cons in Hfs as [Hall _].
  rewrite Forall_forall in Hall. specialize (Hall y Hy').
  unfold by_device_then_newest in Hall.
  fold d in Hyd. rewrite Hxd, Hyd, compare_refl in Hall.
  apply Z.leb_le in Hall. exact Hall.
Qed.

End Aggregate.

(** ** Location updates against the specification *)




(** C2 (the code at a failing input).  A location update on a socket
    that never registered is not rejected: the handler never consults the
    binding of the socket.  Whenever the durable part completes (always,
    without a database) the sample is buffered under the device id of its
    payload and broadcast, and no error is logged or sent. *)
Theorem unregistered_location_update_is_recorded (MONGODB_URI : bool)
    (s : string) (ld : LocationData) (now : Timestamp) (f : Fault) (w : World) :
  sockets w !! s = None ->
  durable_ok MONGODB_URI ld now f = true ->
  let w' := handle MONGODB_URI (OnLocationUpdate s ld now f) w in
  locations w' = evict (l_deviceId ld) (locations w ++ [location_of ld now])
  /\ last (device_locations (l_deviceId ld) (locations w'))
     = Some (location_of ld now)
  /\ out w' = out w ++ [IoEmit (LocationUpdate (location_of ld now))].
Proof.
  intros _ Hok w'.
  pose proof (location_update_memory MONGODB_URI s ld now f w) as Hstep.
  cbv zeta in Hstep. rewrite Hok in Hstep.
  destruct Hstep as (H1 & _ & _ & H4). repeat split; [exact H1| |exact H4].
  apply location_update_newest, Hok.
Qed.

Lemma unregistered_location_update_is_recorded_witness :
  let w0 := startServer false [] [] in
  let ld := Scenario.sample "D1" 10 20 in
  let w := handle false (OnLocationUpdate "s9" ld 1000 None) w0 in
  sockets w0 !! "s9" = None
  /\ locations w = [location_of ld 1000]
  /\ out w = [IoEmit (LocationUpdate (location_of ld 1000))].
Proof.
  intros w0 ld w.
  assert (Hs : sockets w0 !! "s9" = None) by reflexivity.
  destruct (unregistered_location_update_is_recorded false "s9" ld 1000 None w0
              Hs eq_refl) as (H1 & _ & H3).
  split; [exact Hs|]. split; [exact H1|exact H3].
Defined.

(** C3 (the code at a failing input).  Without a database nothing checks
    the coordinates: a sample with latitude 91 is buffered and the history
    route returns it. *)
Theorem out_of_range_sample_is_buffered
    (s : string) (ld : LocationData) (now : Timestamp) (f : Fault) (w : World)
    (lat lon : Q) :
  l_latitude ld = Some lat -> l_longitude ld = Some lon ->
  (lat < -90 \/ 90 < lat \/ lon < -180 \/ 180 < lon)%Q ->
  let w' := handle false (OnLocationUpdate s ld now f) w in
  exists L,
    get_device_locations false (l_deviceId ld) w' = inl L
    /\ last L = Some (location_of ld now)
    /\ l_latitude (location_of ld now) = Some lat
    /\ l_longitude (location_of ld now) = Some lon.
Proof.
  intros Hlat Hlon _ w'. eexists. split; [reflexivity|].
  split; [|split; assumption].
  apply (location_update_newest false). reflexivity.
Qed.

Lemma out_of_range_sample_is_buffered_witness :
  let ld := Scenario.sample "D1" 91 0 in
  let w := handle false (OnLocationUpdate "s1" ld 1000 None)
             (Scenario.registered false) in
  (90 < 91)%Q
  /\ exists L, get_device_locations false "D1" w = inl L
              /\ last L = Some (location_of ld 1000).
Proof.
  intros ld w.
  assert (Hout : (91 < -90 \/ 90 < 91 \/ 0 < -180 \/ 180 < 0)%Q)
    by (right; left; reflexivity).
  destruct (out_of_range_sample_is_buffered "s1" ld 1000 None
              (Scenario.registered false) 91 0 eq_refl eq_refl Hout)
    as (L & HL & Hlast & _).
  split; [reflexivity|]. exists L. split; [exact HL|exact Hlast].
Defined.

(** C6 (the code at a failing input).  Without a database the fleet
    route lists only devices of the [drivers] Map: a device that reported
    without ever registering has its sample in the buffer and in its own
    history, and no record in the fleet answer. *)
Theorem fleet_query_misses_unregistered_reporter
    (s : string) (ld : LocationData) (now : Timestamp) (f : Fault) (w : World) :
  l_deviceId ld ∉ JsMap.keys (drivers w) ->
  let w' := handle false (OnLocationUpdate s ld now f) w in
  last (device_locations (l_deviceId ld) (locations w'))
  = Some (location_of ld now)
  /\ exists L, get_locations false w' = inl L
               /\ Forall (fun l => l_deviceId l <> l_deviceId ld) L.
Proof.
  intros Hd w'. split.
  - apply location_update_newest. reflexivity.
  - destruct (get_locations_memory_devices w') as (L & HL & Hall).
    exists L. split; [exact HL|].
    eapply Forall_impl; [exact Hall|]. intros l Hl Heq. apply Hd.
    rewrite <- Heq.
    pose proof (location_update_memory false s ld now f w) as Hstep.
    cbv zeta in Hstep. rewrite durable_ok_memory_only in Hstep.
    destruct Hstep as (_ & Hdr & _). fold w' in Hdr. rewrite Hdr in Hl.
    unfold touch in Hl.
    destruct (JsMap.has (l_deviceId ld) (drivers w)) eqn:Hhas; [|exact Hl].
    apply JsMapFacts.has_keys in Hhas. contradiction.
Qed.

Lemma fleet_query_misses_unregistered_reporter_witness :
  let ld := Scenario.sample "D1" 10 20 in
  let w := handle false (OnLocationUpdate "s9" ld 1000 None)
             (startServer false [] []) in
  get_device_locations false "D1" w = inl [location_of ld 1000]
  /\ get_locations false w = inl [].
Proof.
  intros ld w.
  assert (Hd : l_deviceId ld ∉ JsMap.keys (drivers (startServer false [] [])))
    by (intros H; inversion H).
  destruct (fleet_query_misses_unregistered_reporter "s9" ld 1000 None
              (startServer false [] []) Hd) as (_ & L & HL & _).
  split; reflexivity.
Defined.

(** With a database the fleet route does list a device that reported
    without registering. *)
Lemma fleet_database_lists_unregistered_reporter :
  let ld := Scenario.sample "D1" 10 20 in
  let w := handle true (OnLocationUpdate "s9" ld 1000 None)
             (startServer true [] []) in
  exists doc,
    get_locations true w = inr [doc]
    /\ ld_deviceId doc = "D1" /\ ld_timestamp doc = 1000%Z.
Proof. eexists. vm_compute. repeat split; reflexivity. Qed.

End ServerFacts.

(** * Properties of [src/unnamed/part_001] *)
Module MongoServerFacts.
Import MongoServer.

Ltac unfold_handler :=
  unfold handle, registerDriver, sendLocation, syncLocations, disconnect,
    cleanup, try_catch, bind, when, await, throw, ret, gets, modify, lift,
    io_emit, socket_emit, console_error, Location_save, Location_insertMany,
    Driver_findOneAndUpdate.

#[local] Arguments findOneAndUpdate : simpl never.
#[local] Arguments updateMany : simpl never.
#[local] Arguments Location_validate : simpl never.
#[local] Arguments validate_all : simpl never.
#[local] Arguments faulty !fault k : simpl nomatch.

(** ** Location samples *)

(** A sample on a socket that never registered is answered with
    ['Driver not registered'] and changes nothing else. *)
Lemma sendLocation_unregistered s ld now f w :
  activeConnections w !! s = None ->
  handle (OnSendLocation s ld now f) w
  = add_out (SocketEmit s (ErrorReply "Driver not registered")) w.
Proof. intros Hs. unfold_handler. cbn. rewrite Hs. reflexivity. Qed.

Lemma syncLocations_unregistered s ls now f w :
  activeConnections w !! s = None ->
  handle (OnSyncLocations s ls now f) w
  = add_out (SocketEmit s (ErrorReply "Driver not registered")) w.
Proof. intros Hs. unfold_handler. cbn. rewrite Hs. reflexivity. Qed.

(** What validation lets through carries the fields of the sample. *)
Lemma saved_document_fields l o doc :
  Location_validate l o = Ok doc ->
  ld_deviceId doc = l_deviceId l
  /\ l_latitude l = Some (ld_latitude doc)
  /\ l_longitude l = Some (ld_longitude doc)
  /\ l_timestamp l = Some (ld_timestamp doc)
  /\ ld_driverName doc = with_default "Unknown Driver" (l_driverName l)
  /\ ld_accuracy doc = with_default 0%Q (l_accuracy l)
  /\ ld_speed doc = with_default 0%Q (l_speed l)
  /\ ld_heading doc = with_default 0%Q (l_heading l)
  /\ ld_isOnline doc = o.
Proof.
  unfold Location_validate, required_string, required_number.
  destruct (truthy (l_deviceId l)); [|discriminate].
  destruct (l_latitude l); [|discriminate].
  destruct (l_longitude l); [|discriminate].
  destruct (l_timestamp l); [|discriminate].
  cbn. intros H. inversion H; subst; cbn. repeat split; reflexivity.
Qed.

(** A sample of a registered socket that passes validation, with both
    durable calls succeeding, is appended to the Location collection. *)
Lemma sendLocation_saved s ld now w info doc :
  activeConnections w !! s = Some info ->
  Location_validate (with_deviceId (c_deviceId info) ld) true = Ok doc ->
  Locations (handle (OnSendLocation s ld now None) w) = Locations w ++ [doc].
Proof.
  intros Hs Hv. unfold_handler. cbn. rewrite Hs. cbn. rewrite Hv. reflexivity.
Qed.

(** A batch of a registered socket that passes validation is appended
    to the Location collection. *)
Lemma syncLocations_saved s ls now w info docs :
  activeConnections w !! s = Some info ->
  validate_all (map (with_deviceId (c_deviceId info)) ls) false = Ok docs ->
  Locations (handle (OnSyncLocations s ls now None) w) = Locations w ++ docs.
Proof.
  intros Hs Hv. unfold_handler. cbn. rewrite Hs. cbn. rewrite Hv. cbn.
  destruct (last ls); reflexivity.
Qed.

Lemma validate_all_fields ls o docs :
  validate_all ls o = Ok docs ->
  Forall2 (fun l doc => Location_validate l o = Ok doc) ls docs.
Proof.
  revert docs. induction ls as [|l ls IH]; intros docs; cbn.
  - intros H. inversion H. constructor.
  - unfold validate_all. fold validate_all.
    destruct (Location_validate l o) eqn:Hv; [|discriminate].
    destruct (validate_all ls o); [|discriminate].
    intros H. inversion H; subst. constructor; auto.
Qed.

(** ** Presence *)

(** A registration whose durable calls succeed. *)
Lemma registerDriver_ok s d n now w :
  let w' := handle (OnRegisterDriver s d n now None) w in
  Drivers w'
  = findOneAndUpdate (fun x => String.eqb (dd_deviceId x) d)
      (fun x => {| dd_deviceId := dd_deviceId x; dd_driverName := n;
                   dd_isActive := true; dd_lastSeen := now;
                   dd_currentLocation := dd_currentLocation x |})
      (Some {| dd_deviceId := d; dd_driverName := n; dd_isActive := true;
               dd_lastSeen := now; dd_currentLocation := None |})
      (Drivers w)
  /\ activeConnections w'
     = <[s := {| c_deviceId := d; c_driverName := n |}]> (activeConnections w)
  /\ Locations w' = Locations w
  /\ out w' = out w ++ [IoEmit (DriversUpdate (find_active (Drivers w')))].
Proof. unfold_handler. cbn. auto. Qed.

(** Registering a device twice in a row leaves the collections as the
    second registration alone does. *)
Lemma registerDriver_twice_once s1 s2 d n t1 t2 w :
  let once := handle (OnRegisterDriver s2 d n t2 None) w in
  let twice :=
    handle (OnRegisterDriver s2 d n t2 None)
      (handle (OnRegisterDriver s1 d n t1 None) w) in
  Drivers twice = Drivers once /\ Locations twice = Locations once.
Proof.
  unfold_handler. cbn. split; [|reflexivity].
  apply (CollectionFacts.findOneAndUpdate_twice dd_deviceId d); auto.
Qed.

(** After a registration the collection holds one document of the
    device, and it is active. *)
Lemma registerDriver_one_record s d n now w :
  NoDup (map dd_deviceId (Drivers w)) ->
  exists doc,
    driver_docs d (Drivers (handle (OnRegisterDriver s d n now None) w)) = [doc]
    /\ dd_deviceId doc = d /\ dd_driverName doc = n
    /\ dd_isActive doc = true /\ dd_lastSeen doc = now.
Proof.
  intros Hc.
  destruct (registerDriver_ok s d n now w) as (-> & _).
  set (upd := fun x : DriverDoc =>
                mkDriverDoc (dd_deviceId x) n true now (dd_currentLocation x)).
  set (doc := mkDriverDoc d n true now None).
  destruct (CollectionFacts.findOneAndUpdate_upsert_one dd_deviceId d upd doc
              (Drivers w)) as (l1 & x & l2 & Heq & Hx & Hor & Hl1 & Hl2 & _);
    [reflexivity|reflexivity|exact Hc|].
  exists x. rewrite Heq. unfold driver_docs. rewrite filter_app.
  rewrite (filter_cons (fun y : DriverDoc => dd_deviceId y = d)).
  rewrite decide_True by exact Hx.
  rewrite !CollectionFacts.no_document by assumption.
  split; [reflexivity|]. destruct Hor as [->|[x0 ->]]; cbn; auto.
Qed.

(** A disconnection changes no active flag and emits nothing; it
    removes the binding of the socket. *)
Lemma disconnect_frame s now f w :
  let w' := handle (OnDisconnect s now f) w in
  map dd_isActive (Drivers w') = map dd_isActive (Drivers w)
  /\ map dd_deviceId (Drivers w') = map dd_deviceId (Drivers w)
  /\ activeConnections w' = delete s (activeConnections w)
  /\ filter (fun e => is_broadcast e = true) (out w')
     = filter (fun e => is_broadcast e = true) (out w)
  /\ Locations w' = Locations w.
Proof.
  unfold_handler. cbn. destruct (activeConnections w !! s) as [info|] eqn:Hs; cbn.
  - destruct (faulty f 0); cbn.
    + rewrite filter_app. cbn. rewrite app_nil_r. auto.
    + rewrite !CollectionFacts.findOneAndUpdate_keeps by reflexivity. auto.
  - repeat split; try reflexivity. symmetry. apply delete_id. exact Hs.
Qed.

(** The disconnection of a registered socket refreshes [lastSeen] of the
    device's document. *)
Lemma disconnect_lastSeen s now w info :
  activeConnections w !! s = Some info ->
  Drivers (handle (OnDisconnect s now None) w)
  = findOneAndUpdate (fun x => String.eqb (dd_deviceId x) (c_deviceId info))
      (fun x => {| dd_deviceId := dd_deviceId x;
                   dd_driverName := dd_driverName x;
                   dd_isActive := dd_isActive x; dd_lastSeen := now;
                   dd_currentLocation := dd_currentLocation x |})
      None (Drivers w).
Proof. intros Hs. unfold_handler. cbn. rewrite Hs. reflexivity. Qed.

(** ** The cleanup task *)

(** A tick whose durable call succeeds clears the active flag of exactly
    the documents last seen strictly before [now - STALE_MS], and emits
    nothing. *)
Lemma cleanup_ok now w :
  let w' := handle (OnCleanupTick now None) w in
  Drivers w'
  = map (fun d => if (dd_lastSeen d <? now - STALE_MS)%Z then deactivated d else d)
      (Drivers w)
  /\ out w' = out w
  /\ activeConnections w' = activeConnections w
  /\ Locations w' = Locations w.
Proof. unfold_handler. cbn. auto. Qed.

(** Only a registration sets an active flag: every other event keeps the
    documents in place and leaves an inactive document inactive. *)
Lemma inactive_until_registration e w :
  is_registration e = false ->
  Forall2 (fun d d' => dd_deviceId d' = dd_deviceId d
                       /\ (dd_isActive d = false -> dd_isActive d' = false))
    (Drivers w) (Drivers (handle e w)).
Proof.
  assert (Hrefl : forall l : list DriverDoc,
    Forall2 (fun d d' => dd_deviceId d' = dd_deviceId d
               /\ (dd_isActive d = false -> dd_isActive d' = false)) l l).
  { induction l; constructor; auto. }
  assert (Hkeep : forall l l' : list DriverDoc,
    map (fun d => (dd_deviceId d, dd_isActive d)) l'
    = map (fun d => (dd_deviceId d, dd_isActive d)) l ->
    Forall2 (fun d d' => dd_deviceId d' = dd_deviceId d
               /\ (dd_isActive d = false -> dd_isActive d' = false)) l l').
  { induction l as [|x l IH]; intros [|x' l'] H; cbn in H;
      try discriminate; constructor.
    - inversion H. split; congruence.
    - apply IH. inversion H. reflexivity. }
  intros He. destruct e as [s d n now f|s ld now f|s ls now f|s now f|now f];
    [discriminate| | | |].
  - unfold_handler. cbn. destruct (activeConnections w !! s); cbn; [|apply Hrefl].
    destruct (faulty f 0); cbn; [apply Hrefl|].
    destruct (Location_validate _ _); cbn; [|apply Hrefl].
    destruct (faulty f 1); cbn; [apply Hrefl|].
    apply Hkeep. apply CollectionFacts.findOneAndUpdate_keeps. reflexivity.
  - unfold_handler. cbn. destruct (activeConnections w !! s); cbn; [|apply Hrefl].
    destruct (faulty f 0); cbn; [apply Hrefl|].
    destruct (validate_all _ _); cbn; [|apply Hrefl].
    destruct (last ls); cbn; apply Hrefl.
  - unfold_handler. cbn. destruct (activeConnections w !! s); cbn; [|apply Hrefl].
    destruct (faulty f 0); cbn; [apply Hrefl|].
    apply Hkeep. apply CollectionFacts.findOneAndUpdate_keeps. reflexivity.
  - unfold_handler. cbn. destruct (faulty f 0); cbn; [apply Hrefl|].
    unfold updateMany. induction (Drivers w) as [|x l IH]; constructor; auto.
    destruct (dd_lastSeen x <? now - STALE_MS)%Z; cbn; auto.
Qed.

(** The Driver collection after a registration, whatever fails: the
    upsert is the first durable call, so a failure of the second finds it
    done. *)
Lemma registerDriver_Drivers s d n now f w :
  Drivers (handle (OnRegisterDriver s d n now f) w)
  = if faulty f 0 then Drivers w
    else findOneAndUpdate (fun x => String.eqb (dd_deviceId x) d)
           (fun x => mkDriverDoc (dd_deviceId x) n true now (dd_currentLocation x))
           (Some (mkDriverDoc d n true now None)) (Drivers w).
Proof.
  unfold_handler. cbn. destruct (faulty f 0); cbn; [reflexivity|].
  destruct (faulty f 1); reflexivity.
Qed.

(** A registration of another device leaves the documents of a device
    as they were; so does every event for the device ids and for a cleared
    active flag. *)
Lemma inactive_step d e w :
  registers d e = false ->
  Forall2 (fun x x' => dd_deviceId x' = dd_deviceId x
                       /\ (dd_isActive x = false -> dd_isActive x' = false))
    (driver_docs d (Drivers w)) (driver_docs d (Drivers (handle e w))).
Proof.
  intros He. destruct (is_registration e) eqn:Hr.
  - destruct e as [s d' n now f| | | |]; try discriminate.
    cbn in He. apply String.eqb_neq in He.
    assert (Heq : driver_docs d (Drivers (handle (OnRegisterDriver s d' n now f) w))
                  = driver_docs d (Drivers w)).
    { rewrite registerDriver_Drivers. destruct (faulty f 0); [reflexivity|].
      apply (CollectionExtras.upsert_other_key dd_deviceId d' d); auto. }
    rewrite Heq. clear. induction (driver_docs d (Drivers w)); constructor; auto.
  - apply (CollectionExtras.Forall2_filter_key dd_deviceId d
             (fun x x' => dd_isActive x = false -> dd_isActive x' = false)).
    apply inactive_until_registration, Hr.
Qed.

Lemma inactive_run d es w :
  Forall (fun e => registers d e = false) es ->
  Forall2 (fun x x' => dd_deviceId x' = dd_deviceId x
                       /\ (dd_isActive x = false -> dd_isActive x' = false))
    (driver_docs d (Drivers w)) (driver_docs d (Drivers (run es w))).
Proof.
  intros Hes. revert w. induction Hes as [|e es He Hes IH]; intros w.
  - cbn. induction (driver_docs d (Drivers w)); constructor; auto.
  - cbn [run fold_left]. fold (run es (handle e w)).
    eapply CollectionExtras.Forall2_compose;
      [|apply (inactive_step d e w He)|apply IH].
    cbn. intros x y z [H1 H2] [H3 H4]. split; [congruence|auto].
Qed.

(** The device ids of the Driver collection stay distinct along a run. *)
Lemma unique_ids_step e w :
  NoDup (map dd_deviceId (Drivers w)) ->
  NoDup (map dd_deviceId (Drivers (handle e w))).
Proof.
  intros Hnd. destruct (is_registration e) eqn:Hr.
  - destruct e as [s d n now f| | | |]; try discriminate.
    rewrite registerDriver_Drivers. destruct (faulty f 0); [exact Hnd|].
    apply (CollectionExtras.upsert_keeps_unique dd_deviceId d); auto.
  - pose proof (inactive_until_registration e w Hr) as Hf.
    assert (Hmap : forall l l' : list DriverDoc,
              Forall2 (fun x x' => dd_deviceId x' = dd_deviceId x
                         /\ (dd_isActive x = false -> dd_isActive x' = false)) l l' ->
              map dd_deviceId l' = map dd_deviceId l).
    { induction 1 as [|x y l l' [Hxy _] _ IH]; [reflexivity|].
      cbn [map]. rewrite Hxy, IH. reflexivity. }
    rewrite (Hmap _ _ Hf). exact Hnd.
Qed.

Lemma unique_ids_run es w :
  NoDup (map dd_deviceId (Drivers w)) ->
  NoDup (map dd_deviceId (Drivers (run es w))).
Proof.
  revert w. induction es as [|e es IH]; intros w Hnd; [exact Hnd|].
  cbn [run fold_left]. apply IH, unique_ids_step, Hnd.
Qed.

(** Only the cleanup task clears an active flag: every other event
    keeps the documents in place, possibly adding one at the end, and
    leaves an active document active. *)
Lemma active_step e w :
  is_cleanup e = false ->
  exists l1 l2,
    Drivers (handle e w) = l1 ++ l2
    /\ Forall2 (fun x x' => dd_deviceId x' = dd_deviceId x
                            /\ (dd_isActive x = true -> dd_isActive x' = true))
         (Drivers w) l1.
Proof.
  assert (Hrefl : forall l : list DriverDoc,
    Forall2 (fun x x' => dd_deviceId x' = dd_deviceId x
               /\ (dd_isActive x = true -> dd_isActive x' = true)) l l)
    by (induction l; constructor; auto).
  assert (Hsame : exists l1 l2 : list DriverDoc,
    Drivers w = l1 ++ l2
    /\ Forall2 (fun x x' => dd_deviceId x' = dd_deviceId x
                  /\ (dd_isActive x = true -> dd_isActive x' = true)) (Drivers w) l1)
    by (exists (Drivers w), []; rewrite app_nil_r; auto).
  assert (Hupd : forall k (upd : DriverDoc -> DriverDoc) upsert,
    (forall x, dd_deviceId (upd x) = dd_deviceId x) ->
    (forall x, dd_isActive x = true -> dd_isActive (upd x) = true) ->
    exists l1 l2 : list DriverDoc,
      findOneAndUpdate (fun x => String.eqb (dd_deviceId x) k) upd upsert (Drivers w)
      = l1 ++ l2
      /\ Forall2 (fun x x' => dd_deviceId x' = dd_deviceId x
                    /\ (dd_isActive x = true -> dd_isActive x' = true)) (Drivers w) l1).
  { intros k upd upsert Hid Hact.
    destruct (CollectionExtras.findOneAndUpdate_shape dd_deviceId k upd upsert
                (Drivers w)) as (l1 & l2 & Heq & Hf & _).
    exists l1, l2. split; [exact Heq|].
    eapply Forall2_impl; [exact Hf|]. cbn.
    intros x x' [->|[_ ->]]; [auto|]. split; [apply Hid|apply Hact]. }
  intros He. destruct e as [s d n now f|s ld now f|s ls now f|s now f|now f];
    [| | | |discriminate].
  - rewrite registerDriver_Drivers. destruct (faulty f 0); [exact Hsame|].
    apply Hupd; auto.
  - unfold_handler. cbn. destruct (activeConnections w !! s); cbn; [|exact Hsame].
    destruct (faulty f 0); cbn; [exact Hsame|].
    destruct (Location_validate _ _); cbn; [|exact Hsame].
    destruct (faulty f 1); cbn; [exact Hsame|]. apply Hupd; auto.
  - unfold_handler. cbn. destruct (activeConnections w !! s); cbn; [|exact Hsame].
    destruct (faulty f 0); cbn; [exact Hsame|].
    destruct (validate_all _ _); cbn; [|exact Hsame].
    destruct (last ls); cbn; exact Hsame.
  - unfold_handler. cbn. destruct (activeConnections w !! s); cbn; [|exact Hsame].
    destruct (faulty f 0); cbn; [exact Hsame|]. apply Hupd; auto.
Qed.

Lemma active_run es w :
  Forall (fun e => is_cleanup e = false) es ->
  exists l1 l2,
    Drivers (run es w) = l1 ++ l2
    /\ Forall2 (fun x x' => dd_deviceId x' = dd_deviceId x
                            /\ (dd_isActive x = true -> dd_isActive x' = true))
         (Drivers w) l1.
Proof.
  intros Hes. revert w. induction Hes as [|e es He Hes IH]; intros w.
  - exists (Drivers w), []. rewrite app_nil_r. split; [reflexivity|].
    induction (Drivers w); constructor; auto.
  - cbn [run fold_left]. fold (run es (handle e w)).
    destruct (active_step e w He) as (l1 & l2 & Heq & Hf).
    destruct (IH (handle e w)) as (m1 & m2 & Hrun & Hg).
    rewrite Heq in Hg. apply Forall2_app_inv_l in Hg as (m1a & m1b & Ha & _ & ->).
    exists m1a, (m1b ++ m2). split; [rewrite Hrun, app_assoc; reflexivity|].
    eapply CollectionExtras.Forall2_compose; [|exact Hf|exact Ha].
    cbn. intros x y z [H1 H2] [H3 H4]. split; [congruence|auto].
Qed.

(** The disconnection of a registered socket, whatever fails. *)
Lemma disconnect_registered s now f w info :
  activeConnections w !! s = Some info ->
  let w' := handle (OnDisconnect s now f) w in
  Drivers w'
  = (if faulty f 0 then Drivers w
     else findOneAndUpdate (fun x => String.eqb (dd_deviceId x) (c_deviceId info))
            (fun x => mkDriverDoc (dd_deviceId x) (dd_driverName x) (dd_isActive x)
                        now (dd_currentLocation x))
            None (Drivers w))
  /\ out w'
     = (if faulty f 0
        then out w ++ [ConsoleError "Error updating driver on disconnect:"]
        else out w)
  /\ Forall2 (fun x x' =>
                x' = x
                \/ (dd_deviceId x = c_deviceId info
                    /\ x' = mkDriverDoc (dd_deviceId x) (dd_driverName x)
                              (dd_isActive x) now (dd_currentLocation x)))
       (Drivers w) (Drivers w').
Proof.
  intros Hs. unfold_handler. cbn. rewrite Hs. cbn.
  destruct (faulty f 0); cbn.
  - repeat split. induction (Drivers w); constructor; auto.
  - repeat split.
    destruct (CollectionExtras.findOneAndUpdate_shape dd_deviceId (c_deviceId info)
                (fun x => mkDriverDoc (dd_deviceId x) (dd_driverName x)
                            (dd_isActive x) now (dd_currentLocation x))
                None (Drivers w)) as (l1 & l2 & Heq & Hf & Hl2).
    destruct Hl2 as [->|(d0 & Hd0 & _)]; [|discriminate].
    rewrite app_nil_r in Heq. rewrite Heq. exact Hf.
Qed.

(** ** The history of one device *)

(** The live samples of a registered socket, all valid, are appended
    to the Location collection in arrival order; the binding stays. *)
Lemma ingest_saved s info samples w :
  activeConnections w !! s = Some info ->
  Forall (fun p => valid (c_deviceId info) (fst p) = true) samples ->
  Locations (run (ingest s samples) w)
  = Locations w ++ documents (c_deviceId info) samples
  /\ activeConnections (run (ingest s samples) w) = activeConnections w.
Proof.
  intros Hs Hall. revert w Hs.
  induction Hall as [|[ld t] samples Hok Hall IH]; intros w Hs.
  - cbn. rewrite app_nil_r. auto.
  - cbn [ingest map run fold_left fst snd] in *.
    change (fold_left _ (map _ samples) ?w0) with (run (ingest s samples) w0).
    revert Hok. unfold valid.
    destruct (Location_validate (with_deviceId (c_deviceId info) ld) true)
      as [doc|] eqn:Hv; [intros _|discriminate].
    assert (Hstep : Locations (handle (OnSendLocation s ld t None) w)
                    = Locations w ++ [doc]
                    /\ activeConnections (handle (OnSendLocation s ld t None) w)
                       = activeConnections w).
    { unfold_handler. cbn. rewrite Hs. cbn. rewrite Hv. cbn. auto. }
    destruct Hstep as [HL HA].
    destruct (IH (handle (OnSendLocation s ld t None) w)) as [-> ->];
      [rewrite HA; exact Hs|].
    rewrite HL, HA, <- app_assoc.
    unfold documents at 2. cbn [omap list_omap fst snd]. rewrite Hv.
    fold (documents (c_deviceId info) samples). auto.
Qed.

Lemma live_documents_fields d samples :
  Forall (fun p => valid d (fst p) = true) samples ->
  Forall2 (fun p doc => Location_validate (with_deviceId d (fst p)) true = Ok doc)
    samples (documents d samples).
Proof.
  induction 1 as [|[ld t] samples Hok Hall IH]; [constructor|].
  unfold documents. cbn [omap list_omap fst snd]. fold (documents d samples).
  cbn [fst] in Hok. revert Hok. unfold valid.
  destruct (Location_validate (with_deviceId d ld) true) as [doc|] eqn:Hv;
    [intros _|discriminate].
  constructor; [exact Hv|exact IH].
Qed.

(** Whatever the capture times, the route answers with the documents of
    the samples sorted by timestamp, newest first. *)
Lemma live_history_sorted s d n t0 samples hours qnow w :
  Forall (fun p => valid d (fst p) = true) samples ->
  Forall (fun p => (qnow - with_default 24 hours * 60 * 60 * 1000
                    <= capture_time (fst p))%Z) samples ->
  filter (fun x => ld_deviceId x = d) (Locations w) = [] ->
  get_device_locations d hours qnow
    (run (OnRegisterDriver s d n t0 None :: ingest s samples) w)
  = sort_desc ld_timestamp (documents d samples).
Proof.
  intros Hall Hwin Hw. unfold get_device_locations.
  change (run (OnRegisterDriver s d n t0 None :: ingest s samples) w)
    with (run (ingest s samples) (handle (OnRegisterDriver s d n t0 None) w)).
  destruct (registerDriver_ok s d n t0 w) as (_ & Hac & HL & _).
  destruct (ingest_saved s (mkConnectionInfo d n) samples
              (handle (OnRegisterDriver s d n t0 None) w)) as [-> _].
  { rewrite Hac. apply lookup_insert_eq. }
  { exact Hall. }
  cbn [c_deviceId]. rewrite HL.
  pose proof (live_documents_fields d samples Hall) as Hf.
  assert (Hkey : Forall2 (fun p doc => ld_timestamp doc = capture_time (fst p)
                                       /\ ld_deviceId doc = d)
                   samples (documents d samples)).
  { eapply Forall2_impl; [exact Hf|]. intros p doc Hv.
    apply saved_document_fields in Hv as (Hid & _ & _ & Hts & _).
    unfold capture_time. cbn in Hts, Hid. rewrite Hts. auto. }
  f_equal. rewrite filter_app.
  assert (filter (fun x => ld_deviceId x = d
                   /\ (qnow - with_default 24 hours * 60 * 60 * 1000
                       <= ld_timestamp x)%Z) (Locations w) = []) as ->.
  { clear -Hw. induction (Locations w) as [|x l IH]; [reflexivity|].
    rewrite (filter_cons (fun x : LocationDoc => ld_deviceId x = d)) in Hw.
    rewrite filter_cons.
    destruct (decide (ld_deviceId x = d)) as [Hx|Hx]; [discriminate|].
    rewrite decide_False by tauto. apply IH, Hw. }
  cbn [app]. clear Hf Hall. revert Hwin.
  induction Hkey as [|p doc samples docs [Hts Hid] Hkey IH]; intros Hwin;
    [reflexivity|].
  apply Forall_cons in Hwin as [H1 H2]. rewrite filter_cons.
  rewrite decide_True by (split; [exact Hid|rewrite Hts; exact H1]).
  f_equal. apply IH, H2.
Qed.

(** ** The cleanup task against the specification *)

(** C8 (against the claim).  D1 registered at time 0 and was silent
    since.  A tick at exactly the threshold (300000 ms) leaves it active;
    a tick one millisecond later clears the flag, and emits nothing: the
    output of the server is what it was before the tick. *)
Lemma cleanup_threshold_and_silence :
  let w := Scenario.mongo_registered in
  let at_threshold := handle (OnCleanupTick 300000 None) w in
  let past_threshold := handle (OnCleanupTick 300001 None) w in
  map dd_lastSeen (Drivers w) = [0%Z]
  /\ map dd_isActive (Drivers w) = [true]
  /\ map dd_isActive (Drivers at_threshold) = [true]
  /\ map dd_isActive (Drivers past_threshold) = [false]
  /\ Drivers past_threshold <> Drivers w
  /\ out past_threshold = out w.
Proof. vm_compute. repeat split; try reflexivity. discriminate. Qed.

(** C8 (as amended).  A cleanup tick whose update succeeds clears the
    active flag of every driver last seen strictly more than 5 minutes
    before the tick and leaves every other driver as it was; it emits
    nothing.  A driver set inactive remains inactive until its next
    registration or touch: no disconnection, batch, later tick or event of
    another device sets its flag (the statement asks of the events only
    that none is a registration of the device), its document stays in place
    with the flag cleared, and the next registration of the device sets the
    flag again. *)
Theorem cleanup_demotes_stale_drivers (now : Timestamp) (w : World)
    (es : list Event) (s d n : string) (t : Timestamp) :
  NoDup (map dd_deviceId (Drivers w)) ->
  Forall (fun e => registers d e = false) es ->
  let w' := handle (OnCleanupTick now None) w in
  Forall2 (fun x x' =>
             ((STALE_MS < now - dd_lastSeen x)%Z -> x' = deactivated x)
             /\ ((now - dd_lastSeen x <= STALE_MS)%Z -> x' = x))
    (Drivers w) (Drivers w')
  /\ out w' = out w
  /\ Forall2 (fun x x' => dd_deviceId x' = dd_deviceId x
                          /\ (dd_isActive x = false -> dd_isActive x' = false))
       (driver_docs d (Drivers w')) (driver_docs d (Drivers (run es w')))
  /\ (forall x, x ∈ Drivers w -> dd_deviceId x = d ->
                 (STALE_MS < now - dd_lastSeen x)%Z ->
                 exists x', driver_docs d (Drivers (run es w')) = [x']
                            /\ dd_isActive x' = false)
  /\ exists doc,
       driver_docs d
         (Drivers (handle (OnRegisterDriver s d n t None) (run es w'))) = [doc]
       /\ dd_isActive doc = true.
Proof.
  intros Hnd Hes w'.
  destruct (cleanup_ok now w) as (HD & Ho & _). fold w' in HD, Ho.
  assert (Hnd' : NoDup (map dd_deviceId (Drivers w'))).
  { rewrite HD, map_map. erewrite map_ext; [exact Hnd|].
    intros x. destruct (dd_lastSeen x <? now - STALE_MS)%Z; reflexivity. }
  split; [|split; [exact Ho|split; [|split]]].
  - rewrite HD. clear. induction (Drivers w) as [|x l IH]; constructor; [|exact IH].
    destruct (Z.ltb_spec (dd_lastSeen x) (now - STALE_MS)); split; intros; try lia;
      reflexivity.
  - apply inactive_run, Hes.
  - intros x Hx Hd Hstale.
    pose proof (inactive_run d es w' Hes) as Hrun.
    assert (Hin : deactivated x ∈ Drivers w').
    { rewrite HD. apply list_elem_of_fmap. exists x. split; [|exact Hx].
      rewrite (proj2 (Z.ltb_lt _ _)) by lia. reflexivity. }
    assert (Hdocs : driver_docs d (Drivers w') = [deactivated x]).
    { rewrite <- Hd.
      apply (CollectionExtras.unique_document dd_deviceId (deactivated x)
               (Drivers w') Hnd' Hin). }
    rewrite Hdocs in Hrun.
    inversion Hrun as [|? x' ? l' [_ Hx'] Hnil Heq1 Heq2]; subst.
    inversion Hnil; subst.
    exists x'. split; [reflexivity|apply Hx'; reflexivity].
  - destruct (registerDriver_one_record s d n t (run es w'))
      as (doc & Hdoc & _ & _ & Ha & _).
    + apply unique_ids_run, Hnd'.
    + exists doc. auto.
Qed.

Lemma cleanup_demotes_stale_drivers_witness :
  let w := Scenario.mongo_registered in
  let w' := handle (OnCleanupTick 300001 None) w in
  map dd_isActive (Drivers w') = [false]
  /\ out w' = out w
  /\ map dd_isActive
       (driver_docs "D1" (Drivers (run Scenario.other_activity w'))) = [false]
  /\ map dd_isActive
       (driver_docs "D1"
          (Drivers (handle (OnRegisterDriver "s2" "D1" "Alice" 700001 None)
                      (run Scenario.other_activity w')))) = [true].
Proof.
  cbv zeta.
  assert (Hnd : NoDup (map dd_deviceId (Drivers Scenario.mongo_registered)))
    by (apply NoDup_singleton).
  assert (Hes : Forall (fun e => registers "D1" e = false) Scenario.other_activity)
    by (repeat constructor).
  destruct (cleanup_demotes_stale_drivers 300001 Scenario.mongo_registered
              Scenario.other_activity "s2" "D1" "Alice" 700001 Hnd Hes)
    as (_ & Ho & _ & Hin & Hreg).
  split; [reflexivity|]. split; [exact Ho|]. split.
  - destruct (Hin (mkDriverDoc "D1" "Alice" true 0 None)) as (x' & -> & Hx');
      [left|reflexivity|reflexivity|].
    cbn [map]. rewrite Hx'. reflexivity.
  - destruct Hreg as (doc & -> & Hdoc). cbn [map]. rewrite Hdoc. reflexivity.
Defined.

End MongoServerFacts.

(** * Properties that span both servers *)
Module Presence.

(** C4 (against the claim).  On the server of [server.js], D1 registers
    on socket s1 and the socket disconnects: the entry of D1 in the
    [drivers] Map was online and is offline afterwards. *)
Lemma disconnect_sets_offline :
  let w := Scenario.registered false in
  let w' := Server.handle false (Server.OnDisconnect "s1" 500 None) w in
  Server.d_isOnline <$> JsMap.get "D1" (Server.drivers w) = Some true
  /\ Server.d_isOnline <$> JsMap.get "D1" (Server.drivers w') = Some false.
Proof. vm_compute. split; reflexivity. Qed.

(** C4 (as amended).  On the server of part_001 the disconnection of a
    registered socket removes the binding of the socket and refreshes
    [lastSeen] of the device, and nothing else: every other field of every
    driver document, the active flags among them, and the Location
    collection are as before, and nothing is broadcast; when the update of
    the document fails only the binding is removed and the error is logged.
    On that server only the cleanup task clears an active flag: through any
    events that hold no tick every active driver stays active, and a tick
    clears the flag of the drivers last seen more than 5 minutes before it.
    On the server of [server.js] the disconnection of a socket that
    registered a device of the [drivers] Map sets the entry offline,
    refreshes its [lastSeen] and broadcasts the driver list, and with a
    database sets the document offline as well. *)
Theorem disconnect_presence (MONGODB_URI : bool) (s d : string)
    (now tick : Timestamp) (f : Fault)
    (wm : MongoServer.World) (info : MongoServer.ConnectionInfo)
    (es : list MongoServer.Event)
    (w : Server.World) (driver : Server.DriverData) :
  MongoServer.activeConnections wm !! s = Some info ->
  Server.sockets w !! s = Some d ->
  truthy d = true ->
  JsMap.get d (Server.drivers w) = Some driver ->
  (let wm' := MongoServer.handle (MongoServer.OnDisconnect s now f) wm in
   MongoServer.activeConnections wm' = delete s (MongoServer.activeConnections wm)
   /\ MongoServer.activeConnections wm' !! s = None
   /\ MongoServer.Locations wm' = MongoServer.Locations wm
   /\ Forall2 (fun x x' =>
                 x' = x
                 \/ (MongoServer.dd_deviceId x = MongoServer.c_deviceId info
                     /\ x' = MongoServer.mkDriverDoc (MongoServer.dd_deviceId x)
                               (MongoServer.dd_driverName x)
                               (MongoServer.dd_isActive x) now
                               (MongoServer.dd_currentLocation x)))
        (MongoServer.Drivers wm) (MongoServer.Drivers wm')
   /\ map MongoServer.dd_isActive (MongoServer.Drivers wm')
      = map MongoServer.dd_isActive (MongoServer.Drivers wm)
   /\ MongoServer.Drivers wm'
      = (if faulty f 0 then MongoServer.Drivers wm
         else findOneAndUpdate
                (fun x => String.eqb (MongoServer.dd_deviceId x)
                            (MongoServer.c_deviceId info))
                (fun x => MongoServer.mkDriverDoc (MongoServer.dd_deviceId x)
                            (MongoServer.dd_driverName x)
                            (MongoServer.dd_isActive x)
                            now (MongoServer.dd_currentLocation x))
                None (MongoServer.Drivers wm))
   /\ MongoServer.out wm'
      = (if faulty f 0
         then MongoServer.out wm
              ++ [MongoServer.ConsoleError "Error updating driver on disconnect:"]
         else MongoServer.out wm)
   /\ filter (fun e => MongoServer.is_broadcast e = true) (MongoServer.out wm')
      = filter (fun e => MongoServer.is_broadcast e = true) (MongoServer.out wm))
  /\ (Forall (fun e => MongoServer.is_cleanup e = false) es ->
      exists l1 l2,
        MongoServer.Drivers (MongoServer.run es wm) = l1 ++ l2
        /\ Forall2 (fun x x' =>
                      MongoServer.dd_deviceId x' = MongoServer.dd_deviceId x
                      /\ (MongoServer.dd_isActive x = true ->
                          MongoServer.dd_isActive x' = true))
             (MongoServer.Drivers wm) l1)
  /\ Forall2 (fun x x' =>
                ((MongoServer.STALE_MS < tick - MongoServer.dd_lastSeen x)%Z ->
                 x' = MongoServer.deactivated x)
                /\ ((tick - MongoServer.dd_lastSeen x <= MongoServer.STALE_MS)%Z ->
                    x' = x))
       (MongoServer.Drivers wm)
       (MongoServer.Drivers
          (MongoServer.handle (MongoServer.OnCleanupTick tick None) wm))
  /\ (let w' := Server.handle MONGODB_URI (Server.OnDisconnect s now None) w in
      JsMap.get d (Server.drivers w')
      = Some (Server.mkDriverData (Server.d_deviceId driver)
                (Server.d_driverName driver) false now
                (Server.d_socketId driver))
      /\ Server.out w'
         = Server.out w
           ++ [Server.IoEmit
                 (Server.DriversUpdated (JsMap.values (Server.drivers w')))]
      /\ (MONGODB_URI = true ->
          Server.Drivers w'
          = findOneAndUpdate (fun x => String.eqb (Server.dd_deviceId x) d)
              (fun x => Server.mkDriverDoc (Server.dd_deviceId x)
                          (Server.dd_driverName x) false now)
              None (Server.Drivers w))).
Proof.
  intros Hm Hs Ht Hg. split; [|split; [|split]].
  - destruct (MongoServerFacts.disconnect_frame s now f wm)
      as (H1 & _ & H3 & H4 & H5).
    destruct (MongoServerFacts.disconnect_registered s now f wm info Hm)
      as (H6 & H7 & H8).
    cbv zeta. split; [exact H3|]. split; [rewrite H3; apply lookup_delete_eq|].
    split; [exact H5|]. split; [exact H8|]. split; [exact H1|].
    split; [exact H6|]. split; [exact H7|exact H4].
  - apply MongoServerFacts.active_run.
  - destruct (MongoServerFacts.cleanup_ok tick wm) as (-> & _).
    induction (MongoServer.Drivers wm) as [|x l IH]; constructor; [|exact IH].
    destruct (Z.ltb_spec (MongoServer.dd_lastSeen x) (tick - MongoServer.STALE_MS));
      split; intros; try lia; reflexivity.
  - destruct (ServerFacts.disconnect_memory MONGODB_URI s d driver now w Hs Ht Hg)
      as (H1 & H2 & H3).
    cbv zeta. rewrite H1, JsMapFacts.get_set_eq. repeat split.
    + rewrite <- H1. exact H2.
    + intros ->. exact H3.
Qed.

Lemma disconnect_presence_witness :
  map MongoServer.dd_isActive
    (MongoServer.Drivers
       (MongoServer.handle (MongoServer.OnDisconnect "s1" 500 None)
          Scenario.mongo_registered))
  = [true]
  /\ MongoServer.activeConnections
       (MongoServer.handle (MongoServer.OnDisconnect "s1" 500 None)
          Scenario.mongo_registered) !! "s1"
     = None
  /\ Server.d_isOnline
     <$> JsMap.get "D1"
           (Server.drivers
              (Server.handle false (Server.OnDisconnect "s1" 500 None)
                 (Scenario.registered false)))
     = Some false.
Proof.
  destruct (disconnect_presence false "s1" "D1" 500 300001 None
              Scenario.mongo_registered
              (MongoServer.mkConnectionInfo "D1" "Alice")
              [MongoServer.OnDisconnect "s1" 500 None]
              (Scenario.registered false)
              (Server.mkDriverData "D1" "Alice" true 0 (Some "s1"))
              eq_refl eq_refl eq_refl eq_refl)
    as [(_ & H2 & _ & _ & H5 & _) (_ & _ & H9 & _)].
  split; [rewrite H5; reflexivity|]. split; [exact H2|].
  rewrite H9. reflexivity.
Defined.

(** C9.  Registering a device twice in a row with the same name, on the
    same or on another socket, leaves the registry as the second
    registration alone would: on both servers the driver records are the
    same, there is exactly one record of the device and it is online.  The
    only trace of the first registration is the binding of its socket. *)
Theorem registration_idempotent (MONGODB_URI : bool)
    (s1 s2 d n : string) (t1 t2 : Timestamp)
    (w : Server.World) (wm : MongoServer.World) :
  NoDup (JsMap.keys (Server.drivers w)) ->
  NoDup (map Server.dd_deviceId (Server.Drivers w)) ->
  NoDup (map MongoServer.dd_deviceId (MongoServer.Drivers wm)) ->
  (let once :=
     Server.handle MONGODB_URI (Server.OnRegisterDriver s2 d n t2 None) w in
   let twice :=
     Server.handle MONGODB_URI (Server.OnRegisterDriver s2 d n t2 None)
       (Server.handle MONGODB_URI (Server.OnRegisterDriver s1 d n t1 None) w) in
   Server.drivers twice = Server.drivers once
   /\ Server.Drivers twice = Server.Drivers once
   /\ Server.driver_entries d (Server.drivers twice)
      = [(d, Server.mkDriverData d n true t2 (Some s2))]
   /\ (MONGODB_URI = true ->
       Server.driver_docs d (Server.Drivers twice)
       = [Server.mkDriverDoc d (trim n) true t2]))
  /\ (let once :=
        MongoServer.handle (MongoServer.OnRegisterDriver s2 d n t2 None) wm in
      let twice :=
        MongoServer.handle (MongoServer.OnRegisterDriver s2 d n t2 None)
          (MongoServer.handle (MongoServer.OnRegisterDriver s1 d n t1 None) wm) in
      MongoServer.Drivers twice = MongoServer.Drivers once
      /\ exists doc,
           MongoServer.driver_docs d (MongoServer.Drivers twice) = [doc]
           /\ MongoServer.dd_driverName doc = n
           /\ MongoServer.dd_isActive doc = true
           /\ MongoServer.dd_lastSeen doc = t2).
Proof.
  intros Hm Hc Hcm. split.
  - destruct (ServerFacts.register_twice_once MONGODB_URI s1 s2 d n t1 t2 w)
      as (H1 & H2 & _).
    destruct (ServerFacts.register_driver_one_record MONGODB_URI s2 d n t2 w Hm Hc)
      as (H3 & H4).
    cbv zeta. rewrite H1, H2. auto.
  - destruct (MongoServerFacts.registerDriver_twice_once s1 s2 d n t1 t2 wm)
      as (H1 & _).
    destruct (MongoServerFacts.registerDriver_one_record s2 d n t2 wm Hcm)
      as (doc & H3 & _ & H4 & H5 & H6).
    cbv zeta. rewrite H1. split; [reflexivity|]. exists doc. auto.
Qed.

Lemma registration_idempotent_witness :
  Server.driver_entries "D1"
    (Server.drivers
       (Server.handle true (Server.OnRegisterDriver "s2" "D1" "Alice" 7 None)
          (Scenario.registered true)))
  = [("D1", Server.mkDriverData "D1" "Alice" true 7 (Some "s2"))]
  /\ Server.driver_docs "D1"
       (Server.Drivers
          (Server.handle true (Server.OnRegisterDriver "s2" "D1" "Alice" 7 None)
             (Scenario.registered true)))
     = [Server.mkDriverDoc "D1" "Alice" true 7].
Proof.
  destruct (registration_idempotent true "s1" "s2" "D1" "Alice" 0 7
              (Server.startServer true [] []) (MongoServer.start [] [])
              NoDup_nil_2 NoDup_nil_2 NoDup_nil_2)
    as [(_ & _ & H3 & H4) _].
  split; [exact H3|exact (H4 eq_refl)].
Defined.

End Presence.

Module History.

(** C7 (against the claim).  On the server of [server.js], D1 registers
    and sends one sample that carries capture time 5 and
    [isOnline = false]; it arrives at time 1000.  The history route answers
    with one entry, and the entry is not the sample: its timestamp is 1000
    and its online flag is true. *)
Lemma history_entry_is_restamped :
  let ld := Scenario.stamped_sample in
  let w := Server.handle false (Server.OnLocationUpdate "s1" ld 1000 None)
             (Scenario.registered false) in
  Server.get_device_locations false "D1" w = inl [Server.location_of ld 1000]
  /\ Server.location_of ld 1000 <> ld
  /\ l_timestamp ld = Some 5%Z
  /\ l_timestamp (Server.location_of ld 1000) = Some 1000%Z
  /\ l_isOnline ld = Some false
  /\ l_isOnline (Server.location_of ld 1000) = Some true.
Proof. vm_compute. repeat split; try reflexivity. discriminate. Qed.

(** C7 (as amended).  A device registers and sends fewer than 100
    samples on a server that held nothing of the device; the history route
    then answers with one entry per sample.  On the server of [server.js]
    without a database every sample is accepted, and the entries are the
    samples with [timestamp] set to the arrival time and [isOnline] to
    true.  With a database, when every sample passes the Location schema,
    the entries are the documents of the samples: the fields of the sample
    (0 for an absent accuracy, speed or heading), the arrival time as
    [timestamp] and [isOnline = true]; they come newest first by arrival
    time, which is the reverse of the order of arrival when the arrival
    times strictly increase.  On the server of part_001, when the device id
    is not empty and every sample carries latitude, longitude and a capture
    time inside the window of the query, the entries carry the device of
    the socket, the fields of the sample, its capture time and
    [isOnline = true]; they come newest first by capture time, the reverse
    of the order of arrival when the capture times strictly increase. *)
Theorem device_history_after_ingest (s d n : string) (t0 : Timestamp)
    (samples : list (LocationData * Timestamp))
    (hours : option Z) (qnow : Timestamp)
    (w : Server.World) (wm : MongoServer.World) :
  length samples < 100 ->
  let events :=
    Server.OnRegisterDriver s d n t0 None :: Server.ingest s samples in
  let events_m :=
    MongoServer.OnRegisterDriver s d n t0 None :: MongoServer.ingest s samples in
  (Forall (fun p => l_deviceId (fst p) = d) samples ->
   Server.device_locations d (Server.locations w) = [] ->
   exists L,
     Server.get_device_locations false d (Server.run false events w) = inl L
     /\ length L = length samples
     /\ L ≡ₚ map (fun p => with_timestamp_isOnline (Some (snd p)) (Some true) (fst p))
              samples)
  /\ (Forall (fun p => l_deviceId (fst p) = d
                       /\ Server.durable_ok true (fst p) (snd p) None = true)
        samples ->
      filter (fun x => Server.ld_deviceId x = d) (Server.Locations w) = [] ->
      exists L,
        Server.get_device_locations true d (Server.run true events w) = inr L
        /\ length L = length samples
        /\ L ≡ₚ Server.documents samples
        /\ Forall2 (fun p doc =>
                      Server.ld_deviceId doc = l_deviceId (fst p)
                      /\ l_driverName (fst p) = Some (Server.ld_driverName doc)
                      /\ l_latitude (fst p) = Some (Server.ld_latitude doc)
                      /\ l_longitude (fst p) = Some (Server.ld_longitude doc)
                      /\ Server.ld_accuracy doc
                         = with_default 0%Q (l_accuracy (fst p))
                      /\ Server.ld_speed doc = with_default 0%Q (l_speed (fst p))
                      /\ Server.ld_heading doc
                         = with_default 0%Q (l_heading (fst p))
                      /\ Server.ld_timestamp doc = snd p
                      /\ Server.ld_isOnline doc = true)
             samples (Server.documents samples)
        /\ StronglySorted
             (fun a b => (Server.ld_timestamp b <= Server.ld_timestamp a)%Z) L
        /\ (StronglySorted (fun a b => (snd a < snd b)%Z) samples ->
            L = reverse (Server.documents samples)))
  /\ (Forall (fun p => MongoServer.valid d (fst p) = true) samples ->
      Forall (fun p => (qnow - with_default 24 hours * 60 * 60 * 1000
                        <= capture_time (fst p))%Z) samples ->
      filter (fun x => MongoServer.ld_deviceId x = d) (MongoServer.Locations wm)
      = [] ->
      let L := MongoServer.get_device_locations d hours qnow
                 (MongoServer.run events_m wm) in
      length L = length samples
      /\ L ≡ₚ MongoServer.documents d samples
      /\ Forall2 (fun p doc =>
                    MongoServer.ld_deviceId doc = d
                    /\ l_latitude (fst p) = Some (MongoServer.ld_latitude doc)
                    /\ l_longitude (fst p) = Some (MongoServer.ld_longitude doc)
                    /\ l_timestamp (fst p) = Some (MongoServer.ld_timestamp doc)
                    /\ MongoServer.ld_driverName doc
                       = with_default "Unknown Driver" (l_driverName (fst p))
                    /\ MongoServer.ld_accuracy doc
                       = with_default 0%Q (l_accuracy (fst p))
                    /\ MongoServer.ld_speed doc
                       = with_default 0%Q (l_speed (fst p))
                    /\ MongoServer.ld_heading doc
                       = with_default 0%Q (l_heading (fst p))
                    /\ MongoServer.ld_isOnline doc = true)
           samples (MongoServer.documents d samples)
      /\ StronglySorted
           (fun a b => (MongoServer.ld_timestamp b <= MongoServer.ld_timestamp a)%Z)
           L
      /\ (StronglySorted
            (fun a b => (capture_time (fst a) < capture_time (fst b))%Z) samples ->
          L = reverse (MongoServer.documents d samples))).
Proof.
  intros Hlen events events_m. split; [|split].
  - intros Hdev Hw. exists (Server.recorded samples).
    split; [apply ServerFacts.history_memory; [exact Hdev|lia|exact Hw]|].
    split; [apply length_map|reflexivity].
  - intros Hall HW.
    assert (Hok : Forall (fun p => Server.durable_ok true (fst p) (snd p) None = true)
                    samples)
      by (eapply Forall_impl; [exact Hall|]; intros p [_ Hp]; exact Hp).
    assert (Hf : Forall2 (fun p doc =>
                   Server.Location_validate (Server.location_of (fst p) (snd p))
                     (snd p) (Some true) = Ok doc)
                   samples (Server.documents samples))
      by (apply ServerFacts.documents_fields, Hok).
    exists (sort_desc Server.ld_timestamp (Server.documents samples)).
    split; [apply ServerFacts.history_database_sorted; [exact Hall|lia|exact HW]|].
    split.
    { rewrite (Permutation_length (SortExtras.sort_desc_perm _ _)).
      symmetry. eapply Forall2_length, Hf. }
    split; [apply SortExtras.sort_desc_perm|].
    split.
    { eapply Forall2_impl; [exact Hf|].
      intros p doc Hv. apply ServerFacts.Location_validate_fields in Hv. exact Hv. }
    split; [apply SortExtras.sort_desc_sorted|].
    intros Hsorted. apply SortFacts.sort_desc_increasing.
    eapply (SortFacts.StronglySorted_transfer snd); [|exact Hsorted].
    eapply Forall2_impl; [exact Hf|]. intros p doc Hv.
    apply ServerFacts.Location_validate_fields in Hv. tauto.
  - intros Hvalid Hwin HWm L.
    pose proof (MongoServerFacts.live_documents_fields d samples Hvalid) as Hf.
    assert (HL : L = sort_desc MongoServer.ld_timestamp
                       (MongoServer.documents d samples))
      by (apply MongoServerFacts.live_history_sorted; assumption).
    rewrite HL. split.
    { rewrite (Permutation_length (SortExtras.sort_desc_perm _ _)).
      symmetry. eapply Forall2_length, Hf. }
    split; [apply SortExtras.sort_desc_perm|].
    split.
    { eapply Forall2_impl; [exact Hf|].
      intros p doc Hv. apply MongoServerFacts.saved_document_fields in Hv.
      cbn in Hv. exact Hv. }
    split; [apply SortExtras.sort_desc_sorted|].
    intros Hcap. apply SortFacts.sort_desc_increasing.
    eapply (SortFacts.StronglySorted_transfer (fun p => capture_time (fst p)));
      [|exact Hcap].
    eapply Forall2_impl; [exact Hf|]. intros p doc Hv.
    apply MongoServerFacts.saved_document_fields in Hv as (_ & _ & _ & Hts & _).
    unfold capture_time. cbn in Hts. rewrite Hts. reflexivity.
Qed.

Lemma device_history_after_ingest_witness :
  let samples := Scenario.three_samples in
  (exists L,
     Server.get_device_locations false "D1"
       (Server.run false
          (Server.OnRegisterDriver "s1" "D1" "Alice" 0 None
           :: Server.ingest "s1" samples) (Server.startServer false [] []))
     = inl L
     /\ length L = 3)
  /\ Server.get_device_locations true "D1"
       (Server.run true
          (Server.OnRegisterDriver "s1" "D1" "Alice" 0 None
           :: Server.ingest "s1" samples) (Server.startServer true [] []))
     = inr (reverse (Server.documents samples))
  /\ map Server.ld_timestamp (reverse (Server.documents samples))
     = [1003; 1002; 1001]%Z
  /\ map MongoServer.ld_timestamp
       (MongoServer.get_device_locations "D1" (Some 1%Z) 2000
          (MongoServer.run
             (MongoServer.OnRegisterDriver "s1" "D1" "Alice" 0 None
              :: MongoServer.ingest "s1" samples) (MongoServer.start [] [])))
     = [3; 2; 1]%Z.
Proof.
  intros samples.
  assert (H1 : length samples < 100) by (cbn; lia).
  assert (H0 : Forall (fun p => l_deviceId (fst p) = "D1") samples)
    by (repeat constructor).
  assert (H2 : Forall (fun p => l_deviceId (fst p) = "D1"
                        /\ Server.durable_ok true (fst p) (snd p) None = true)
                 samples)
    by (repeat constructor).
  assert (H3 : StronglySorted (fun a b => (snd a < snd b)%Z) samples)
    by (repeat constructor).
  assert (H4 : Forall (fun p => MongoServer.valid "D1" (fst p) = true) samples)
    by (repeat constructor).
  assert (H5 : StronglySorted
                 (fun a b => (capture_time (fst a) < capture_time (fst b))%Z)
                 samples)
    by (repeat constructor).
  assert (H6 : Forall (fun p => (2000 - with_default 24 (Some 1) * 60 * 60 * 1000
                                 <= capture_time (fst p))%Z) samples)
    by (repeat constructor; discriminate).
  destruct (device_history_after_ingest "s1" "D1" "Alice" 0 samples (Some 1%Z) 2000
              (Server.startServer false [] []) (MongoServer.start [] []) H1)
    as (Hmem & _ & Hm).
  destruct (device_history_after_ingest "s1" "D1" "Alice" 0 samples (Some 1%Z) 2000
              (Server.startServer true [] []) (MongoServer.start [] []) H1)
    as (_ & Hdb & _).
  destruct (Hmem H0 eq_refl) as (L & HL & Hlen & _).
  destruct (Hdb H2 eq_refl) as (Ld & HLd & _ & _ & _ & _ & Hrev).
  destruct (Hm H4 H6 eq_refl) as (_ & _ & _ & _ & Hrevm).
  split; [exists L; split; [exact HL|exact Hlen]|].
  split; [rewrite HLd, (Hrev H3); reflexivity|].
  split; [reflexivity|].
  rewrite (Hrevm H5). reflexivity.
Defined.

(** C10 (against the claim).  On the server of part_001, D1 registers
    and sends a live sample that carries capture time 5; it arrives at time
    1000.  The saved document has timestamp 5, the client's, not 1000. *)
Lemma live_sample_keeps_capture_time :
  let w := MongoServer.handle
             (MongoServer.OnSendLocation "s1" Scenario.stamped_sample 1000 None)
             Scenario.mongo_registered in
  map MongoServer.ld_timestamp (MongoServer.Locations w) = [5%Z]
  /\ map MongoServer.ld_isOnline (MongoServer.Locations w) = [true].
Proof. vm_compute. split; reflexivity. Qed.

(** C10 (as amended).  On the server of [server.js] an accepted live
    sample is recorded with the arrival time of the server as timestamp and
    with [isOnline = true], in the buffer and in the collection, whatever
    the client put into these two fields.  On the server of part_001 the
    live path saves the sample with the capture time of the client and with
    [isOnline = true], and the bulk path saves each sample with its capture
    time and [isOnline = false]. *)
Theorem recorded_timestamp_and_online (MONGODB_URI : bool) (s : string)
    (ld : LocationData) (now : Timestamp)
    (t' : option Timestamp) (o' : option bool) (w : Server.World)
    (wm : MongoServer.World) (info : MongoServer.ConnectionInfo)
    (doc : MongoServer.LocationDoc)
    (batch : list LocationData) (docs : list MongoServer.LocationDoc) :
  Server.durable_ok MONGODB_URI ld now None = true ->
  MongoServer.activeConnections wm !! s = Some info ->
  MongoServer.Location_validate
    (with_deviceId (MongoServer.c_deviceId info) ld) true = Ok doc ->
  MongoServer.validate_all
    (map (with_deviceId (MongoServer.c_deviceId info)) batch) false = Ok docs ->
  (let w' := Server.handle MONGODB_URI (Server.OnLocationUpdate s ld now None) w in
   last (Server.device_locations (l_deviceId ld) (Server.locations w'))
   = Some (Server.location_of ld now)
   /\ l_timestamp (Server.location_of ld now) = Some now
   /\ l_isOnline (Server.location_of ld now) = Some true
   /\ Server.handle MONGODB_URI
        (Server.OnLocationUpdate s (with_timestamp_isOnline t' o' ld) now None) w
      = w'
   /\ (MONGODB_URI = true ->
       exists sdoc,
         Server.Locations w' = Server.Locations w ++ [sdoc]
         /\ Server.ld_timestamp sdoc = now
         /\ Server.ld_isOnline sdoc = true))
  /\ (MongoServer.Locations
        (MongoServer.handle (MongoServer.OnSendLocation s ld now None) wm)
      = MongoServer.Locations wm ++ [doc]
      /\ l_timestamp ld = Some (MongoServer.ld_timestamp doc)
      /\ MongoServer.ld_isOnline doc = true)
  /\ (MongoServer.Locations
        (MongoServer.handle (MongoServer.OnSyncLocations s batch now None) wm)
      = MongoServer.Locations wm ++ docs
      /\ Forall2 (fun l bdoc =>
                    l_timestamp l = Some (MongoServer.ld_timestamp bdoc)
                    /\ MongoServer.ld_isOnline bdoc = false)
           batch docs).
Proof.
  intros Hok Hs Hv Hvs. split; [|split].
  - cbv zeta. split; [apply ServerFacts.location_update_newest, Hok|].
    split; [reflexivity|]. split; [reflexivity|].
    split; [apply ServerFacts.location_update_ignores_client_stamp|].
    intros ->.
    destruct (ServerFacts.location_update_document s ld now w Hok)
      as (sdoc & H1 & _ & H2 & H3).
    exists sdoc. auto.
  - split; [eapply MongoServerFacts.sendLocation_saved; eauto|].
    apply MongoServerFacts.saved_document_fields in Hv. cbn in Hv. tauto.
  - split; [eapply MongoServerFacts.syncLocations_saved; eauto|].
    apply MongoServerFacts.validate_all_fields in Hvs.
    clear -Hvs. remember (map _ batch) as lb eqn:Hlb. revert batch Hlb.
    induction Hvs as [|l bdoc lb docs Hv Hvs IH]; intros batch Hlb.
    + destruct batch; [constructor|discriminate].
    + destruct batch as [|l0 batch]; [discriminate|].
      cbn in Hlb. inversion Hlb; subst. constructor; [|apply IH; reflexivity].
      apply MongoServerFacts.saved_document_fields in Hv. cbn in Hv. tauto.
Qed.

Lemma recorded_timestamp_and_online_witness :
  let ld := Scenario.stamped_sample in
  l_timestamp ld = Some 5%Z
  /\ last (Server.device_locations "D1"
             (Server.locations
                (Server.handle true (Server.OnLocationUpdate "s1" ld 1000 None)
                   (Scenario.registered true))))
     = Some (Server.location_of ld 1000)
  /\ l_timestamp (Server.location_of ld 1000) = Some 1000%Z
  /\ map MongoServer.ld_timestamp
       (MongoServer.Locations
          (MongoServer.handle (MongoServer.OnSendLocation "s1" ld 1000 None)
             Scenario.mongo_registered))
     = [5%Z].
Proof.
  intros ld.
  destruct (recorded_timestamp_and_online true "s1" ld 1000 None None
              (Scenario.registered true) Scenario.mongo_registered
              (MongoServer.mkConnectionInfo "D1" "Alice")
              (MongoServer.mkLocationDoc "D1" "Alice" 10 20 0 5 0 0 true)
              [ld]
              [MongoServer.mkLocationDoc "D1" "Alice" 10 20 0 5 0 0 false]
              eq_refl eq_refl eq_refl eq_refl)
    as ((H1 & H2 & _) & (H3 & _) & _).
  split; [reflexivity|]. split; [exact H1|]. split; [exact H2|].
  rewrite H3. reflexivity.
Defined.

End History.

(** * Further properties of [src/src/server.js] *)
Module ServerExtras.
Import Server.

#[local] Arguments JsMap.has : simpl never.
#[local] Arguments JsMap.get : simpl never.
#[local] Arguments JsMap.set : simpl never.
#[local] Arguments JsMap.values : simpl never.
#[local] Arguments evict : simpl never.
#[local] Arguments findOneAndUpdate : simpl never.
#[local] Arguments Location_validate : simpl never.
#[local] Arguments faulty !fault k : simpl nomatch.

Import JsMapExtras.

Ltac unfold_all := ServerFacts.unfold_handler.

(** ** The admin login route *)

(** X1.  The login succeeds exactly when both credentials are configured
    and not empty and the request sends exactly them; it then answers 200
    with the configured user name.  With a credential unset or empty the
    answer is 500 whatever the request sends, missing fields included; every
    other request is answered 401. *)
Theorem admin_login_outcomes (U P : option string)
    (username password : option string) :
  let r := admin_login U P (Some (username, password)) in
  (r_success r = true
   <-> exists u p, U = Some u /\ P = Some p /\ truthy u = true /\ truthy p = true
                   /\ username = Some u /\ password = Some p)
  /\ (r_success r = true -> r_status r = 200 /\ r_admin r = U)
  /\ (truthy (with_default "" U) = false \/ truthy (with_default "" P) = false
      -> r_status r = 500 /\ r_success r = false)
  /\ (r_success r = false -> r_status r = 401 \/ r_status r = 500)
  /\ r_status (admin_login U P None) = 500.
Proof.
  unfold admin_login. cbv zeta.
  assert (Hex : forall u p : string,
            U = Some u -> P = Some p -> truthy u = true -> truthy p = true ->
            truthy (with_default "" U) = true /\ truthy (with_default "" P) = true)
    by (intros u p -> -> ? ?; cbn; auto).
  destruct (truthy (with_default "" U)) eqn:Hu,
           (truthy (with_default "" P)) eqn:Hp; cbn [negb orb];
    try (cbn; repeat split; try discriminate; auto;
         intros (u & p & H1 & H2 & H3 & H4 & _);
         destruct (Hex u p H1 H2 H3 H4); congruence).
  destruct U as [u|]; [|discriminate]. destruct P as [p|]; [|discriminate].
  cbn in Hu, Hp.
  destruct (bool_decide (username = Some u)) eqn:E1,
           (bool_decide (password = Some p)) eqn:E2; cbn [andb];
    try apply bool_decide_eq_false in E1; try apply bool_decide_eq_false in E2;
    try apply bool_decide_eq_true in E1; try apply bool_decide_eq_true in E2;
    cbn; repeat split; try discriminate; auto;
    try (intros [?|?]; discriminate);
    try (intros (u0 & p0 & H1 & H2 & H3 & H4 & H5 & H6); congruence);
    try (match goal with H : _ \/ _ |- _ => cbn in H; destruct H; congruence end).
  all: try (intros _; exists u, p); repeat split; assumption || reflexivity.
Qed.

(** ** The [drivers] Map along a run *)

Section Registry.
Variable MONGODB_URI : bool.

(** Every entry of the Map carries the device id it is stored under. *)
Lemma keyed_step e w :
  Forall (fun kv => d_deviceId (snd kv) = fst kv) (drivers w) ->
  Forall (fun kv => d_deviceId (snd kv) = fst kv)
    (drivers (handle MONGODB_URI e w)).
Proof.
  intros Hk.
  assert (Hget : forall d driver, JsMap.get d (drivers w) = Some driver ->
                                  d_deviceId driver = d).
  { intros d driver Hg. apply get_Some_elem in Hg.
    rewrite Forall_forall in Hk. apply (Hk _ Hg). }
  destruct e as [s d n now f|s ld now f|s now f].
  - unfold_all. destruct MONGODB_URI; cbn.
    + destruct (faulty f 0); cbn; [exact Hk|]. apply Forall_set; [reflexivity|exact Hk].
    + apply Forall_set; [reflexivity|exact Hk].
  - pose proof (ServerFacts.location_update_memory MONGODB_URI s ld now f w) as Hstep.
    cbv zeta in Hstep. destruct (durable_ok _ _ _ _).
    + destruct Hstep as (_ & -> & _). unfold touch.
      destruct (JsMap.has _ _); [|exact Hk].
      destruct (JsMap.get _ _) as [driver|] eqn:Hg; [|exact Hk].
      apply Forall_set; [cbn; apply Hget, Hg|exact Hk].
    + destruct Hstep as (_ & -> & _). exact Hk.
  - unfold_all. cbn. destruct (sockets w !! s) as [d|]; cbn; [|exact Hk].
    destruct (truthy d); cbn; [|exact Hk].
    destruct MONGODB_URI; cbn.
    + destruct (faulty f 0); cbn; [exact Hk|].
      destruct (JsMap.has _ _); cbn; [|exact Hk].
      destruct (JsMap.get _ _) as [driver|] eqn:Hg; cbn; [|exact Hk].
      apply Forall_set; [cbn; apply Hget, Hg|exact Hk].
    + destruct (JsMap.has _ _); cbn; [|exact Hk].
      destruct (JsMap.get _ _) as [driver|] eqn:Hg; cbn; [|exact Hk].
      apply Forall_set; [cbn; apply Hget, Hg|exact Hk].
Qed.

Lemma startServer_entries db_drivers db_locations :
  Forall (fun kv => d_isOnline (snd kv) = true /\ d_socketId (snd kv) = None
                    /\ d_deviceId (snd kv) = fst kv)
    (drivers (startServer true db_drivers db_locations))
  /\ forall d,
       d ∈ JsMap.keys (drivers (startServer true db_drivers db_locations))
       <-> exists doc, doc ∈ db_drivers /\ dd_deviceId doc = d
                       /\ dd_isOnline doc = true.
Proof.
  unfold startServer. cbn [drivers].
  set (step := fun (m : JsMap.t DriverData) (driver : DriverDoc) => JsMap.set _ _ m).
  set (online := filter (fun d => dd_isOnline d = true) db_drivers).
  assert (Hgen : forall l m,
    Forall (fun d => dd_isOnline d = true) l ->
    Forall (fun kv => d_isOnline (snd kv) = true /\ d_socketId (snd kv) = None
                      /\ d_deviceId (snd kv) = fst kv) m ->
    Forall (fun kv => d_isOnline (snd kv) = true /\ d_socketId (snd kv) = None
                      /\ d_deviceId (snd kv) = fst kv) (fold_left step l m)
    /\ forall d, d ∈ JsMap.keys (fold_left step l m)
                 <-> d ∈ JsMap.keys m \/ exists doc, doc ∈ l /\ dd_deviceId doc = d).
  { induction l as [|x l IH]; intros m Hl Hm; cbn [fold_left].
    - split; [exact Hm|]. intros d. split; [auto|].
      intros [?|(doc & H & _)]; [assumption|inversion H].
    - apply Forall_cons in Hl as [Hx Hl].
      destruct (IH (step m x) Hl) as [H1 H2].
      { subst step. cbn beta. apply Forall_set; [cbn; auto|exact Hm]. }
      split; [exact H1|]. intros d. rewrite H2. subst step. cbn beta.
      rewrite JsMapFacts.keys_set. split.
      + intros [Hin|(doc & Hdoc & Hd)].
        * destruct (JsMap.has (dd_deviceId x) m); [auto|].
          apply elem_of_app in Hin as [?|Hin]; [auto|].
          apply list_elem_of_singleton in Hin. right. exists x. split; [left|auto].
        * right. exists doc. split; [right; exact Hdoc|exact Hd].
      + intros [Hin|(doc & Hdoc & Hd)].
        * left. destruct (JsMap.has (dd_deviceId x) m); [exact Hin|].
          apply elem_of_app. auto.
        * apply elem_of_cons in Hdoc as [->|Hdoc]; [|right; eauto].
          left. destruct (JsMap.has (dd_deviceId x) m) eqn:Hhas.
          -- apply JsMapFacts.has_keys in Hhas. rewrite <- Hd. exact Hhas.
          -- apply elem_of_app. right. rewrite Hd. left. }
  destruct (Hgen online []) as [H1 H2].
  { subst online. apply Forall_forall. intros x Hx.
    apply list_elem_of_filter in Hx. tauto. }
  { constructor. }
  split; [exact H1|]. intros d. rewrite H2. subst online. split.
  - intros [H|(doc & Hdoc & Hd)]; [inversion H|].
    apply list_elem_of_filter in Hdoc as [Hon Hdoc]. eauto.
  - intros (doc & Hdoc & Hd & Hon). right. exists doc. split; [|exact Hd].
    apply list_elem_of_filter. auto.
Qed.

Lemma keyed_run db_drivers db_locations es :
  Forall (fun kv => d_deviceId (snd kv) = fst kv)
    (drivers (run MONGODB_URI es (startServer MONGODB_URI db_drivers db_locations))).
Proof.
  assert (Hstart : Forall (fun kv : string * DriverData => d_deviceId (snd kv) = fst kv)
                     (drivers (startServer MONGODB_URI db_drivers db_locations))).
  { destruct MONGODB_URI; [|constructor].
    eapply Forall_impl; [apply (startServer_entries db_drivers db_locations)|].
    cbn. tauto. }
  revert Hstart. generalize (startServer MONGODB_URI db_drivers db_locations).
  induction es as [|e es IH]; intros w Hw; [exact Hw|].
  apply IH, keyed_step, Hw.
Qed.

Lemma NoDup_keys_run db_drivers db_locations es :
  NoDup (JsMap.keys
           (drivers (run MONGODB_URI es (startServer MONGODB_URI db_drivers db_locations)))).
Proof.
  pose proof (ServerFacts.NoDup_keys_start MONGODB_URI db_drivers db_locations) as Hs.
  revert Hs. generalize (startServer MONGODB_URI db_drivers db_locations).
  induction es as [|e es IH]; intros w Hw; [exact Hw|].
  apply IH, ServerFacts.NoDup_keys_step, Hw.
Qed.

Lemma keys_step e w :
  exists l, JsMap.keys (drivers (handle MONGODB_URI e w)) = JsMap.keys (drivers w) ++ l.
Proof.
  assert (Hset : forall k (v : DriverData) m,
            exists l, JsMap.keys (JsMap.set k v m) = JsMap.keys m ++ l).
  { intros k v m. rewrite JsMapFacts.keys_set.
    destruct (JsMap.has k m); [exists []; rewrite app_nil_r|exists [k]]; reflexivity. }
  assert (Hsame : exists l : list string,
            JsMap.keys (drivers w) = JsMap.keys (drivers w) ++ l)
    by (exists []; rewrite app_nil_r; reflexivity).
  destruct e as [s d n now f|s ld now f|s now f].
  - unfold_all. destruct MONGODB_URI; cbn.
    + destruct (faulty f 0); cbn; [exact Hsame|apply Hset].
    + apply Hset.
  - pose proof (ServerFacts.location_update_memory MONGODB_URI s ld now f w) as Hstep.
    cbv zeta in Hstep. destruct (durable_ok _ _ _ _).
    + destruct Hstep as (_ & -> & _). unfold touch.
      destruct (JsMap.has _ _); [|exact Hsame].
      destruct (JsMap.get _ _); [apply Hset|exact Hsame].
    + destruct Hstep as (_ & -> & _). exact Hsame.
  - unfold_all. cbn. destruct (sockets w !! s) as [d|]; cbn; [|exact Hsame].
    destruct (truthy d); cbn; [|exact Hsame].
    destruct MONGODB_URI; cbn.
    + destruct (faulty f 0); cbn; [exact Hsame|].
      destruct (JsMap.has _ _); cbn; [|exact Hsame].
      destruct (JsMap.get _ _); cbn; [apply Hset|exact Hsame].
    + destruct (JsMap.has _ _); cbn; [|exact Hsame].
      destruct (JsMap.get _ _); cbn; [apply Hset|exact Hsame].
Qed.

End Registry.

(** X2.  Along every run, in either mode, the [drivers] Map holds each
    device once, under its own device id; so the driver list that the
    memory branch of [GET /api/drivers] answers with names no device
    twice. *)
Theorem drivers_route_lists_each_device_once (MONGODB_URI : bool)
    (db_drivers : list DriverDoc) (db_locations : list LocationDoc)
    (es : list Event) :
  let w := run MONGODB_URI es (startServer MONGODB_URI db_drivers db_locations) in
  map d_deviceId (JsMap.values (drivers w)) = JsMap.keys (drivers w)
  /\ NoDup (map d_deviceId (JsMap.values (drivers w)))
  /\ (MONGODB_URI = false ->
      get_drivers MONGODB_URI w = inl (JsMap.values (drivers w))).
Proof.
  intros w.
  assert (Hmap : map d_deviceId (JsMap.values (drivers w)) = JsMap.keys (drivers w)).
  { pose proof (keyed_run MONGODB_URI db_drivers db_locations es) as Hk.
    fold w in Hk. unfold JsMap.values, JsMap.keys.
    induction Hk as [|[k v] m Hkv Hk IH]; [reflexivity|].
    cbn in *. rewrite Hkv, IH. reflexivity. }
  split; [exact Hmap|]. split; [|intros ->; reflexivity].
  rewrite Hmap. apply NoDup_keys_run.
Qed.

(** X3.  No event removes a device from the [drivers] Map or moves it:
    after any further events the devices listed before are still listed,
    in the same order, ahead of the devices registered since. *)
Theorem drivers_are_never_removed (MONGODB_URI : bool) (es : list Event) (w : World) :
  exists l,
    JsMap.keys (drivers (run MONGODB_URI es w)) = JsMap.keys (drivers w) ++ l.
Proof.
  revert w. induction es as [|e es IH]; intros w.
  - exists []. rewrite app_nil_r. reflexivity.
  - destruct (keys_step MONGODB_URI e w) as [l1 H1].
    destruct (IH (handle MONGODB_URI e w)) as [l2 H2].
    exists (l1 ++ l2). cbn [run fold_left] in *. unfold run in H2.
    rewrite H2, H1, app_assoc. reflexivity.
Qed.

(** X4.  With a database, [startServer] loads into the [drivers] Map
    exactly the devices that have an online document in the Driver
    collection, each online and bound to no socket; the buffer starts
    empty, and without a database the Map starts empty too. *)
Theorem startServer_loads_online_drivers
    (db_drivers : list DriverDoc) (db_locations : list LocationDoc) :
  let w := startServer true db_drivers db_locations in
  (forall d,
     d ∈ JsMap.keys (drivers w)
     <-> exists doc, doc ∈ db_drivers /\ dd_deviceId doc = d
                     /\ dd_isOnline doc = true)
  /\ Forall (fun kv => d_isOnline (snd kv) = true /\ d_socketId (snd kv) = None
                       /\ d_deviceId (snd kv) = fst kv) (drivers w)
  /\ NoDup (JsMap.keys (drivers w))
  /\ locations w = []
  /\ drivers (startServer false db_drivers db_locations) = [].
Proof.
  intros w. destruct (startServer_entries db_drivers db_locations) as [H1 H2].
  split; [exact H2|]. split; [exact H1|]. split; [|split; reflexivity].
  apply ServerFacts.NoDup_keys_start.
Qed.

(** ** The routes *)

(** X5.  Along every run without a database the fleet route
    [GET /api/locations] answers with at most one record per device and
    with no more records than there are drivers; each record is the newest
    buffered sample of a device of the [drivers] Map. *)
Theorem fleet_route_one_record_per_device
    (db_drivers : list DriverDoc) (db_locations : list LocationDoc)
    (es : list Event) :
  let w := run false es (startServer false db_drivers db_locations) in
  exists L,
    get_locations false w = inl L
    /\ NoDup (map l_deviceId L)
    /\ length L <= length (JsMap.keys (drivers w))
    /\ Forall (fun l => l_deviceId l ∈ JsMap.keys (drivers w)
                        /\ last (device_locations (l_deviceId l) (locations w))
                           = Some l) L.
Proof.
  intros w. unfold get_locations. eexists. split; [reflexivity|].
  pose proof (NoDup_keys_run false db_drivers db_locations es) as Hnd.
  fold w in Hnd. revert Hnd. generalize (JsMap.keys (drivers w)) as ks.
  intros ks Hnd.
  set (g := fun k => last (filter (fun loc => l_deviceId loc = k) (locations w))).
  assert (Hg : forall k l, g k = Some l -> l_deviceId l = k).
  { intros k l Hl. apply last_Some_elem_of, list_elem_of_filter in Hl. tauto. }
  assert (Hmap : map l_deviceId (omap g ks) = filter (fun k => is_Some (g k)) ks).
  { clear Hnd. induction ks as [|k ks IH]; [reflexivity|].
    cbn [omap list_omap]. rewrite filter_cons.
    destruct (g k) as [l|] eqn:Hk.
    - rewrite decide_True by eauto. cbn [map]. rewrite (Hg k l Hk), IH. reflexivity.
    - rewrite decide_False by (intros [? ?]; discriminate). exact IH. }
  split; [rewrite Hmap; apply NoDup_filter, Hnd|].
  split.
  - rewrite <- (length_map l_deviceId), Hmap. apply length_filter.
  - apply Forall_forall. intros l Hl.
    apply list_elem_of_omap in Hl as (k & Hk & Hgk).
    rewrite (Hg k l Hgk). split; [exact Hk|exact Hgk].
Qed.

(** X6.  With a database the history route [GET /api/locations/:deviceId]
    answers with at most 100 documents, all of the requested device and
    all taken from the Location collection, newest first. *)
Theorem history_route_database (deviceId : string) (w : World) :
  exists L,
    get_device_locations true deviceId w = inr L
    /\ length L <= 100
    /\ Forall (fun doc => ld_deviceId doc = deviceId /\ doc ∈ Locations w) L
    /\ StronglySorted (fun a b => (ld_timestamp b <= ld_timestamp a)%Z) L.
Proof.
  unfold get_device_locations. eexists. split; [reflexivity|].
  split; [rewrite length_take; lia|]. split.
  - apply Forall_forall. intros doc Hdoc.
    apply elem_of_take in Hdoc as (i & Hdoc & _).
    apply list_elem_of_lookup_2 in Hdoc.
    rewrite SortExtras.sort_desc_perm in Hdoc.
    apply list_elem_of_filter in Hdoc. exact Hdoc.
  - apply SortExtras.take_sorted, SortExtras.sort_desc_sorted.
Qed.

(** ** Failures and edge cases of the socket handlers *)

(** X7.  With a database, a registration whose upsert fails leaves no
    trace but a log line: the Map, the buffer, the collections and the
    socket bindings are what they were and nothing is broadcast.  Without
    a database a registration cannot fail. *)
Theorem register_driver_failure (s d n : string) (now : Timestamp)
    (f : Fault) (w : World) :
  handle true (OnRegisterDriver s d n now (Some 0)) w
  = add_out (ConsoleError "Error registering driver:") w
  /\ sockets (handle true (OnRegisterDriver s d n now (Some 0)) w) = sockets w
  /\ JsMap.get d (drivers (handle true (OnRegisterDriver s d n now (Some 0)) w))
     = JsMap.get d (drivers w)
  /\ handle false (OnRegisterDriver s d n now f) w
     = handle false (OnRegisterDriver s d n now None) w.
Proof. repeat split; reflexivity. Qed.

(** X8.  The disconnection of a socket that never registered, or that
    registered the empty device id, changes nothing and emits nothing, in
    either mode and whatever the database does. *)
Theorem disconnect_unbound_is_noop (MONGODB_URI : bool) (s : string)
    (now : Timestamp) (f : Fault) (w : World) :
  sockets w !! s = None \/ sockets w !! s = Some "" ->
  handle MONGODB_URI (OnDisconnect s now f) w = w.
Proof.
  intros [Hs|Hs]; unfold_all; cbn; rewrite Hs; cbn; destruct w; reflexivity.
Qed.

Lemma disconnect_unbound_is_noop_witness :
  handle true (OnDisconnect "s7" 900 None) (Scenario.registered true)
  = Scenario.registered true.
Proof.
  apply (disconnect_unbound_is_noop true "s7" 900 None (Scenario.registered true)).
  left. reflexivity.
Defined.

Lemma disconnect_keeps_sockets (MONGODB_URI : bool) s now f w :
  sockets (handle MONGODB_URI (OnDisconnect s now f) w) = sockets w.
Proof.
  unfold_all. cbn. destruct (sockets w !! s) as [d|]; cbn; [|reflexivity].
  destruct (truthy d); cbn; [|reflexivity].
  destruct MONGODB_URI; cbn.
  - destruct (faulty f 0); cbn; [reflexivity|].
    destruct (JsMap.has _ _); cbn; [|reflexivity].
    destruct (JsMap.get _ _); reflexivity.
  - destruct (JsMap.has _ _); cbn; [|reflexivity].
    destruct (JsMap.get _ _); reflexivity.
Qed.

(** X9.  A device that registered on one socket and then again on
    another is set offline by the disconnection of the first socket,
    although the second is still connected: the entry keeps the second
    socket and goes offline, and the offline driver list is broadcast. *)
Theorem stale_socket_disconnect_sets_offline (MONGODB_URI : bool)
    (s1 s2 d n : string) (t1 t2 t3 : Timestamp) (w : World) :
  s1 <> s2 ->
  truthy d = true ->
  let w2 :=
    handle MONGODB_URI (OnRegisterDriver s2 d n t2 None)
      (handle MONGODB_URI (OnRegisterDriver s1 d n t1 None) w) in
  let w3 := handle MONGODB_URI (OnDisconnect s1 t3 None) w2 in
  sockets w2 !! s2 = Some d
  /\ JsMap.get d (drivers w2)
     = Some {| d_deviceId := d; d_driverName := n; d_isOnline := true;
               d_lastSeen := t2; d_socketId := Some s2 |}
  /\ JsMap.get d (drivers w3)
     = Some {| d_deviceId := d; d_driverName := n; d_isOnline := false;
               d_lastSeen := t3; d_socketId := Some s2 |}
  /\ sockets w3 !! s2 = Some d
  /\ out w3 = out w2 ++ [IoEmit (DriversUpdated (JsMap.values (drivers w3)))].
Proof.
  intros Hne Ht w2 w3.
  set (w1 := handle MONGODB_URI (OnRegisterDriver s1 d n t1 None) w) in *.
  destruct (ServerFacts.register_driver_memory MONGODB_URI s1 d n t1 w)
    as (_ & Hs1 & _). fold w1 in Hs1.
  destruct (ServerFacts.register_driver_memory MONGODB_URI s2 d n t2 w1)
    as (Hd2 & Hs2 & _). fold w2 in Hd2, Hs2.
  assert (Hb1 : sockets w2 !! s1 = Some d).
  { rewrite Hs2, lookup_insert_ne by congruence. rewrite Hs1. apply lookup_insert_eq. }
  assert (Hb2 : sockets w2 !! s2 = Some d) by (rewrite Hs2; apply lookup_insert_eq).
  assert (Hg2 : JsMap.get d (drivers w2)
                = Some (mkDriverData d n true t2 (Some s2)))
    by (rewrite Hd2; apply JsMapFacts.get_set_eq).
  destruct (ServerFacts.disconnect_memory MONGODB_URI s1 d _ t3 w2 Hb1 Ht Hg2)
    as (Hd3 & Ho3 & _). fold w3 in Hd3, Ho3.
  split; [exact Hb2|]. split; [exact Hg2|].
  split; [rewrite Hd3; apply JsMapFacts.get_set_eq|].
  split; [|exact Ho3].
  subst w3. rewrite disconnect_keeps_sockets. exact Hb2.
Qed.

Lemma stale_socket_disconnect_sets_offline_witness :
  d_isOnline
  <$> JsMap.get "D1"
        (drivers
           (handle false (OnDisconnect "s1" 30 None)
              (handle false (OnRegisterDriver "s2" "D1" "Alice" 20 None)
                 (Scenario.registered false))))
  = Some false.
Proof.
  assert (Hne : "s1" <> "s2") by discriminate.
  destruct (stale_socket_disconnect_sets_offline false "s1" "s2" "D1" "Alice"
              0 20 30 (startServer false [] []) Hne eq_refl)
    as (_ & _ & H3 & _).
  change (Scenario.registered false)
    with (handle false (OnRegisterDriver "s1" "D1" "Alice" 0 None)
            (startServer false [] [])).
  rewrite H3. reflexivity.
Defined.

(** X10.  An accepted location update of a device of the [drivers] Map
    sets its entry online and refreshes [lastSeen], keeping name and
    socket, so it brings back a driver that a disconnection set offline;
    for a device that is not in the Map it creates no entry, and the
    entries of all other devices are never touched. *)
Theorem location_update_touches_only_known_driver (MONGODB_URI : bool)
    (s : string) (ld : LocationData) (now : Timestamp) (f : Fault) (w : World) :
  let w' := handle MONGODB_URI (OnLocationUpdate s ld now f) w in
  (forall driver,
     JsMap.get (l_deviceId ld) (drivers w) = Some driver ->
     durable_ok MONGODB_URI ld now f = true ->
     JsMap.get (l_deviceId ld) (drivers w')
     = Some {| d_deviceId := d_deviceId driver;
               d_driverName := d_driverName driver;
               d_isOnline := true; d_lastSeen := now;
               d_socketId := d_socketId driver |})
  /\ (JsMap.get (l_deviceId ld) (drivers w) = None -> drivers w' = drivers w)
  /\ (forall d', d' <> l_deviceId ld ->
                 JsMap.get d' (drivers w') = JsMap.get d' (drivers w))
  /\ JsMap.keys (drivers w') = JsMap.keys (drivers w).
Proof.
  intros w'.
  pose proof (ServerFacts.location_update_memory MONGODB_URI s ld now f w) as Hstep.
  cbv zeta in Hstep. fold w' in Hstep.
  assert (Hd : drivers w' = drivers w
               \/ (durable_ok MONGODB_URI ld now f = true
                   /\ drivers w' = touch (l_deviceId ld) now (drivers w))).
  { destruct (durable_ok MONGODB_URI ld now f); [right|left]; tauto. }
  split; [|split; [|split]].
  - intros driver Hg Hok. rewrite Hok in Hstep. destruct Hstep as (_ & -> & _).
    unfold touch.
    assert (Hh : JsMap.has (l_deviceId ld) (drivers w) = true)
      by (apply JsMapFacts.has_get; rewrite Hg; eauto).
    rewrite Hh, Hg. apply JsMapFacts.get_set_eq.
  - intros Hg. destruct Hd as [->|[_ ->]]; [reflexivity|]. unfold touch.
    rewrite Hg. destruct (JsMap.has _ _); reflexivity.
  - intros d' Hne. destruct Hd as [->|[_ ->]]; [reflexivity|]. unfold touch.
    destruct (JsMap.has _ _); [|reflexivity].
    destruct (JsMap.get (l_deviceId ld) (drivers w)); [|reflexivity].
    apply JsMapFacts.get_set_ne. congruence.
  - destruct Hd as [->|[_ ->]]; [reflexivity|]. unfold touch.
    destruct (JsMap.has _ _) eqn:Hh; [|reflexivity].
    destruct (JsMap.get (l_deviceId ld) (drivers w)); [|reflexivity].
    rewrite JsMapFacts.keys_set, Hh. reflexivity.
Qed.

(** X11.  With a database, when the sample is saved but the update of
    the driver document then fails, the sample is in the Location
    collection and nowhere else: the buffer and the Map are unchanged and
    nothing is broadcast, so the history route with a database returns a
    sample that no client was told about. *)
Theorem saved_but_not_broadcast (s : string) (ld : LocationData)
    (now : Timestamp) (w : World) (doc : LocationDoc) :
  Location_validate (location_of ld now) now (Some true) = Ok doc ->
  let w' := handle true (OnLocationUpdate s ld now (Some 1)) w in
  Locations w' = Locations w ++ [doc]
  /\ Drivers w' = Drivers w
  /\ locations w' = locations w
  /\ drivers w' = drivers w
  /\ out w' = out w ++ [ConsoleError "Error saving location:"].
Proof.
  intros Hv. unfold_all. cbn. unfold location_of in Hv. rewrite Hv. cbn. auto.
Qed.

Lemma saved_but_not_broadcast_witness :
  let w := handle true
             (OnLocationUpdate "s1" (Scenario.sample "D1" 10 20) 1000 (Some 1))
             (Scenario.registered true) in
  map ld_timestamp (Locations w) = [1000%Z] /\ locations w = [].
Proof.
  destruct (saved_but_not_broadcast "s1" (Scenario.sample "D1" 10 20) 1000
              (Scenario.registered true)
              (mkLocationDoc "D1" "Alice" 10 20 0 0 0 1000 true) eq_refl)
    as (H1 & _ & H3 & _).
  cbv zeta. rewrite H1, H3. split; reflexivity.
Defined.

(** ** The Location schema *)

(** X12.  The Location schema accepts a sample exactly when its device
    id is not empty, it names a driver, and its latitude and longitude are
    present and inside [-90, 90] and [-180, 180]; the saved document then
    carries accuracy, speed and heading 0 where the sample has none. *)
Theorem Location_schema_accepts (l : LocationData) (t : Timestamp)
    (o : option bool) :
  (exists doc, Location_validate l t o = Ok doc)
  <-> (truthy (l_deviceId l) = true
       /\ (exists n, l_driverName l = Some n /\ truthy n = true)
       /\ (exists lat, l_latitude l = Some lat /\ (-90 <= lat)%Q /\ (lat <= 90)%Q)
       /\ (exists lon, l_longitude l = Some lon
                       /\ (-180 <= lon)%Q /\ (lon <= 180)%Q)).
Proof.
  unfold Location_validate, required_string, required_number. split.
  - intros [doc Hdoc]. revert Hdoc.
    destruct (truthy (l_deviceId l)); [|discriminate].
    destruct (l_driverName l) as [n|]; [|discriminate].
    destruct (truthy n) eqn:Hn; [|discriminate].
    destruct (l_latitude l) as [lat|]; [|discriminate].
    destruct (Qle_bool (-90) lat) eqn:H1; [|discriminate].
    destruct (Qle_bool lat 90) eqn:H2; [|discriminate].
    destruct (l_longitude l) as [lon|]; [|discriminate].
    destruct (Qle_bool (-180) lon) eqn:H3; [|discriminate].
    destruct (Qle_bool lon 180) eqn:H4; [|discriminate].
    intros _.
    apply Qle_bool_iff in H1. apply Qle_bool_iff in H2.
    apply Qle_bool_iff in H3. apply Qle_bool_iff in H4.
    split; [reflexivity|]. split; [exists n; split; [reflexivity|exact Hn]|].
    split; [exists lat|exists lon]; (split; [reflexivity|split; assumption]).
  - intros (Hd & (n & Hn & Hnt) & (lat & Hlat & H1 & H2) & (lon & Hlon & H3 & H4)).
    rewrite Hd, Hn, Hnt, Hlat, Hlon.
    apply Qle_bool_iff in H1. apply Qle_bool_iff in H2.
    apply Qle_bool_iff in H3. apply Qle_bool_iff in H4.
    rewrite H1, H2, H3, H4. eexists. reflexivity.
Qed.

(** ** The unique index of the Driver collection *)

(** X23.  No handler ever writes a second document under a device id:
    when the Driver collection holds each device id once, it still does
    after any event, in either mode and whatever fails. *)
Theorem Driver_collection_stays_unique (MONGODB_URI : bool) (e : Event) (w : World) :
  NoDup (map dd_deviceId (Drivers w)) ->
  NoDup (map dd_deviceId (Drivers (handle MONGODB_URI e w))).
Proof.
  intros Hnd. destruct e as [s d n now f|s ld now f|s now f].
  - unfold_all. destruct MONGODB_URI; cbn; [|exact Hnd].
    destruct (faulty f 0); cbn; [exact Hnd|].
    apply (CollectionExtras.upsert_keeps_unique dd_deviceId d); auto.
  - unfold_all. destruct MONGODB_URI; cbn.
    + destruct (faulty f 0); cbn; [exact Hnd|].
      destruct (Location_validate _ _ _); cbn; [|exact Hnd].
      destruct (faulty f 1); cbn; [exact Hnd|].
      assert (Hu : NoDup (map dd_deviceId
                 (findOneAndUpdate (fun x => String.eqb (dd_deviceId x) (l_deviceId ld))
                    (fun x => mkDriverDoc (dd_deviceId x) (dd_driverName x) true now)
                    None (Drivers w))))
        by (apply (CollectionExtras.update_keeps_unique dd_deviceId); auto).
      destruct (JsMap.has _ _); cbn; [|exact Hu].
      destruct (JsMap.get _ _); exact Hu.
    + destruct (JsMap.has _ _); cbn; [|exact Hnd].
      destruct (JsMap.get _ _); exact Hnd.
  - unfold_all. cbn. destruct (sockets w !! s) as [d|]; cbn; [|exact Hnd].
    destruct (truthy d); cbn; [|exact Hnd].
    destruct MONGODB_URI; cbn.
    + destruct (faulty f 0); cbn; [exact Hnd|].
      assert (Hu : NoDup (map dd_deviceId
                 (findOneAndUpdate (fun x => String.eqb (dd_deviceId x) d)
                    (fun x => mkDriverDoc (dd_deviceId x) (dd_driverName x) false now)
                    None (Drivers w))))
        by (apply (CollectionExtras.update_keeps_unique dd_deviceId); auto).
      destruct (JsMap.has _ _); cbn; [|exact Hu].
      destruct (JsMap.get _ _); exact Hu.
    + destruct (JsMap.has _ _); cbn; [|exact Hnd].
      destruct (JsMap.get _ _); exact Hnd.
Qed.

Lemma Driver_collection_stays_unique_witness :
  NoDup (map dd_deviceId
           (Drivers (handle true (OnRegisterDriver "s2" "D1" "Bob" 9 None)
                       (Scenario.registered true)))).
Proof.
  apply (Driver_collection_stays_unique true
           (OnRegisterDriver "s2" "D1" "Bob" 9 None) (Scenario.registered true)).
  apply NoDup_singleton.
Defined.

End ServerExtras.

(** * Further properties of [src/unnamed/part_001] *)
Module MongoServerExtras.
Import MongoServer.

#[local] Arguments findOneAndUpdate : simpl never.
#[local] Arguments updateMany : simpl never.
#[local] Arguments Location_validate : simpl never.
#[local] Arguments validate_all : simpl never.
#[local] Arguments faulty !fault k : simpl nomatch.

Ltac unfold_all := MongoServerFacts.unfold_handler.

(** ** The Location schema *)

(** X13.  The Location schema of this server accepts a sample exactly
    when the device id is not empty and latitude, longitude and capture
    time are present: it puts no bounds on the coordinates and asks for no
    driver name. *)
Theorem live_schema_accepts (l : LocationData) (o : bool) :
  (exists doc, Location_validate l o = Ok doc)
  <-> (truthy (l_deviceId l) = true /\ is_Some (l_latitude l)
       /\ is_Some (l_longitude l) /\ is_Some (l_timestamp l)).
Proof.
  unfold Location_validate, required_string, required_number. split.
  - intros [doc Hdoc]. revert Hdoc.
    destruct (truthy (l_deviceId l)); [|discriminate].
    destruct (l_latitude l); [|discriminate].
    destruct (l_longitude l); [|discriminate].
    destruct (l_timestamp l); [|discriminate].
    intros _. repeat split; eexists; reflexivity.
  - intros (Hd & [lat Hlat] & [lon Hlon] & [t Ht]).
    rewrite Hd, Hlat, Hlon, Ht. eexists. reflexivity.
Qed.

(** ** Registration *)

(** X14.  A registration whose upsert fails changes nothing and
    answers the socket with an error.  A registration whose upsert
    succeeds but whose read of the active drivers fails has taken effect
    all the same: the document is written and the socket is bound as after
    a successful registration, yet the socket is told that the registration
    failed and no driver list is broadcast. *)
Theorem registerDriver_failures (s d n : string) (now : Timestamp) (w : World) :
  let ok := handle (OnRegisterDriver s d n now None) w in
  let early := handle (OnRegisterDriver s d n now (Some 0)) w in
  let late := handle (OnRegisterDriver s d n now (Some 1)) w in
  early
  = add_out (SocketEmit s (ErrorReply "Failed to register driver"))
      (add_out (ConsoleError "Driver registration error:") w)
  /\ Drivers late = Drivers ok
  /\ activeConnections late = activeConnections ok
  /\ activeConnections late !! s
     = Some {| c_deviceId := d; c_driverName := n |}
  /\ out late
     = out w ++ [ConsoleError "Driver registration error:";
                 SocketEmit s (ErrorReply "Failed to register driver")]
  /\ out ok = out w ++ [IoEmit (DriversUpdate (find_active (Drivers ok)))].
Proof.
  cbv zeta. unfold_all. cbn. repeat split.
  - apply lookup_insert_eq.
  - rewrite <- app_assoc. reflexivity.
Qed.

(** ** Live samples *)

(** X15.  A live sample of a registered socket that the schema refuses
    is not saved: the collections and the bindings stay as they were,
    nothing is broadcast, and the socket is answered
    ['Failed to save location']. *)
Theorem sendLocation_refused (s : string) (ld : LocationData)
    (now : Timestamp) (f : Fault) (w : World) (info : ConnectionInfo) :
  activeConnections w !! s = Some info ->
  valid (c_deviceId info) ld = false ->
  handle (OnSendLocation s ld now f) w
  = add_out (SocketEmit s (ErrorReply "Failed to save location"))
      (add_out (ConsoleError "Location save error:") w).
Proof.
  intros Hs Hv. unfold valid in Hv. unfold_all. cbn. rewrite Hs. cbn.
  destruct (faulty f 0); cbn; [reflexivity|].
  destruct (Location_validate _ _); [discriminate|reflexivity].
Qed.

Lemma sendLocation_refused_witness :
  Locations
    (handle (OnSendLocation "s1" (Scenario.sample "D1" 10 20) 1000 None)
       Scenario.mongo_registered)
  = [].
Proof.
  rewrite (sendLocation_refused "s1" (Scenario.sample "D1" 10 20) 1000 None
             Scenario.mongo_registered (mkConnectionInfo "D1" "Alice")
             eq_refl eq_refl).
  reflexivity.
Defined.

(** X16.  The identity of a live sample comes from the binding of its
    socket, not from its payload: the saved document carries the device id
    the socket registered, the broadcast carries that device id, the
    registered driver name and the socket id, and a device id put into the
    payload changes nothing.  The saved document, however, carries the
    driver name of the payload (['Unknown Driver'] without one). *)
Theorem sendLocation_identity (s : string) (ld : LocationData)
    (now : Timestamp) (w : World) (info : ConnectionInfo) (doc : LocationDoc) :
  activeConnections w !! s = Some info ->
  Location_validate (with_deviceId (c_deviceId info) ld) true = Ok doc ->
  let w' := handle (OnSendLocation s ld now None) w in
  Locations w' = Locations w ++ [doc]
  /\ ld_deviceId doc = c_deviceId info
  /\ ld_driverName doc = with_default "Unknown Driver" (l_driverName ld)
  /\ out w'
     = out w
       ++ [IoEmit (LocationUpdate
             {| l_deviceId := c_deviceId info;
                l_driverName := Some (c_driverName info);
                l_latitude := l_latitude ld; l_longitude := l_longitude ld;
                l_accuracy := l_accuracy ld; l_speed := l_speed ld;
                l_heading := l_heading ld; l_timestamp := l_timestamp ld;
                l_isOnline := l_isOnline ld |} s)]
  /\ activeConnections w' = activeConnections w
  /\ forall d', handle (OnSendLocation s (with_deviceId d' ld) now None) w = w'.
Proof.
  intros Hs Hv w'.
  pose proof (MongoServerFacts.saved_document_fields _ _ _ Hv) as Hf.
  cbn in Hf. destruct Hf as (Hid & _ & _ & _ & Hname & _).
  subst w'. unfold_all. cbn. rewrite Hs. cbn. rewrite Hv. cbn.
  repeat split; try assumption.
  intros d'. change (with_deviceId (c_deviceId info) (with_deviceId d' ld))
    with (with_deviceId (c_deviceId info) ld).
  rewrite Hv. reflexivity.
Qed.

Lemma sendLocation_identity_witness :
  map ld_deviceId
    (Locations
       (handle (OnSendLocation "s1" (Scenario.captured "D9" 10 20 5) 1000 None)
          Scenario.mongo_registered))
  = ["D1"].
Proof.
  destruct (sendLocation_identity "s1" (Scenario.captured "D9" 10 20 5) 1000
              Scenario.mongo_registered (mkConnectionInfo "D1" "Alice")
              (mkLocationDoc "D1" "Alice" 10 20 0 5 0 0 true) eq_refl eq_refl)
    as (H1 & _).
  rewrite H1. reflexivity.
Defined.

(** ** Batches *)

Lemma validate_all_Exists ls o :
  Exists (fun l => forall doc, Location_validate l o <> Ok doc) ls ->
  exists e, validate_all ls o = Throw e.
Proof.
  induction 1 as [l ls Hl|l ls Hex IH]; unfold validate_all; fold validate_all.
  - destruct (Location_validate l o) as [doc|e] eqn:Hv; [|eauto].
    exfalso. apply (Hl doc). reflexivity.
  - destruct (Location_validate l o); [|eauto].
    destruct IH as [e ->]. eauto.
Qed.

Lemma validate_all_length ls o docs :
  validate_all ls o = Ok docs -> length docs = length ls.
Proof.
  intros H. apply MongoServerFacts.validate_all_fields in H.
  symmetry. eapply Forall2_length, H.
Qed.

(** X17.  A batch is saved whole or not at all.  When the schema refuses
    one sample of the batch no document is written, nothing is broadcast
    and the socket is answered with a sync error.  When it accepts them
    all, one document per sample is appended, each with
    [isOnline = false], the socket is told the length of the batch, and the
    last sample alone is broadcast; the Driver collection is not touched,
    so a batch refreshes neither [lastSeen] nor the active flag. *)
Theorem syncLocations_all_or_nothing (s : string) (batch : list LocationData)
    (now : Timestamp) (w : World) (info : ConnectionInfo) :
  activeConnections w !! s = Some info ->
  let w' := handle (OnSyncLocations s batch now None) w in
  (Exists (fun l => valid (c_deviceId info) l = false) batch ->
   w' = add_out (SocketEmit s (SyncError "Failed to sync offline locations"))
          (add_out (ConsoleError "Bulk location sync error:") w))
  /\ (forall docs,
        validate_all (map (with_deviceId (c_deviceId info)) batch) false = Ok docs ->
        Locations w' = Locations w ++ docs
        /\ length docs = length batch
        /\ Forall (fun doc => ld_isOnline doc = false
                               /\ ld_deviceId doc = c_deviceId info) docs
        /\ Drivers w' = Drivers w
        /\ activeConnections w' = activeConnections w
        /\ out w'
           = out w ++ SocketEmit s (SyncComplete (length batch))
                      :: match last batch with
                         | Some l =>
                             [IoEmit (LocationUpdate
                                {| l_deviceId := c_deviceId info;
                                   l_driverName := Some (c_driverName info);
                                   l_latitude := l_latitude l;
                                   l_longitude := l_longitude l;
                                   l_accuracy := l_accuracy l;
                                   l_speed := l_speed l;
                                   l_heading := l_heading l;
                                   l_timestamp := l_timestamp l;
                                   l_isOnline := l_isOnline l |} s)]
                         | None => []
                         end).
Proof.
  intros Hs w'. split.
  - intros Hex.
    destruct (validate_all_Exists (map (with_deviceId (c_deviceId info)) batch) false)
      as [e He].
    { clear -Hex. induction Hex as [l ls Hl|l ls Hex IH]; cbn [map].
      - left. intros doc Hdoc. unfold valid in Hl.
        assert (Hacc : exists doc', Location_validate
                         (with_deviceId (c_deviceId info) l) true = Ok doc')
          by (apply live_schema_accepts; apply (live_schema_accepts _ false); eauto).
        destruct Hacc as [doc' Hdoc']. rewrite Hdoc' in Hl. discriminate.
      - right. exact IH. }
    subst w'. unfold_all. cbn. rewrite Hs. cbn. rewrite He. reflexivity.
  - intros docs Hv.
    assert (Hlen : length docs = length batch)
      by (rewrite (validate_all_length _ _ _ Hv), length_map; reflexivity).
    assert (Hall : Forall (fun doc => ld_isOnline doc = false
                                      /\ ld_deviceId doc = c_deviceId info) docs).
    { pose proof (MongoServerFacts.validate_all_fields _ _ _ Hv) as Hf.
      clear -Hf. remember (map _ batch) as lb eqn:Hlb. revert batch Hlb.
      induction Hf as [|l doc lb docs H1 Hf IH]; intros batch Hlb; [constructor|].
      destruct batch as [|l0 batch]; [discriminate|].
      cbn [map] in Hlb. inversion Hlb; subst.
      constructor; [|apply (IH batch); reflexivity].
      apply MongoServerFacts.saved_document_fields in H1. cbn in H1. tauto. }
    subst w'. unfold_all. cbn. rewrite Hs. cbn. rewrite Hv. cbn.
    destruct (last batch); cbn; repeat split; try assumption;
      rewrite <- app_assoc; reflexivity.
Qed.

Lemma syncLocations_all_or_nothing_witness :
  let batch := [Scenario.captured "D1" 10 20 1; Scenario.sample "D1" 11 21] in
  Locations (handle (OnSyncLocations "s1" batch 1000 None) Scenario.mongo_registered)
  = [].
Proof.
  intros batch.
  destruct (syncLocations_all_or_nothing "s1" batch 1000 Scenario.mongo_registered
              (mkConnectionInfo "D1" "Alice") eq_refl) as [H _].
  cbv zeta in H. rewrite H; [reflexivity|].
  right. left. reflexivity.
Defined.

(** ** Disconnection *)

(** X18.  A disconnection removes the binding of the socket whatever the
    database does, so a sample or a batch sent on the socket afterwards is
    answered ['Driver not registered'] and changes nothing; on a socket
    that holds no binding the disconnection itself changes nothing. *)
Theorem disconnect_unbinds (s : string) (now now' : Timestamp) (f f' : Fault)
    (ld : LocationData) (batch : list LocationData) (w : World) :
  let w1 := handle (OnDisconnect s now f) w in
  activeConnections w1 !! s = None
  /\ handle (OnSendLocation s ld now' f') w1
     = add_out (SocketEmit s (ErrorReply "Driver not registered")) w1
  /\ handle (OnSyncLocations s batch now' f') w1
     = add_out (SocketEmit s (ErrorReply "Driver not registered")) w1
  /\ (activeConnections w !! s = None -> w1 = w).
Proof.
  intros w1.
  assert (Hn : activeConnections w1 !! s = None).
  { destruct (MongoServerFacts.disconnect_frame s now f w) as (_ & _ & H & _).
    fold w1 in H. rewrite H. apply lookup_delete_eq. }
  split; [exact Hn|].
  split; [apply MongoServerFacts.sendLocation_unregistered, Hn|].
  split; [apply MongoServerFacts.syncLocations_unregistered, Hn|].
  intros Hs. subst w1. unfold_all. cbn. rewrite Hs. destruct w; reflexivity.
Qed.

(** ** The cleanup task *)

Lemma deactivated_twice (d : DriverDoc) : deactivated (deactivated d) = deactivated d.
Proof. reflexivity. Qed.

(** X19.  Cleanup ticks compose: a tick followed by a later tick leaves
    the server as the later tick alone does, and a tick repeated at the
    same time changes nothing more; a tick whose update fails changes
    nothing and logs the error. *)
Theorem cleanup_ticks_compose (now1 now2 : Timestamp) (w : World) :
  (now1 <= now2)%Z ->
  handle (OnCleanupTick now2 None) (handle (OnCleanupTick now1 None) w)
  = handle (OnCleanupTick now2 None) w
  /\ handle (OnCleanupTick now1 None) (handle (OnCleanupTick now1 None) w)
     = handle (OnCleanupTick now1 None) w
  /\ handle (OnCleanupTick now1 (Some 0)) w
     = add_out (ConsoleError "Error cleaning up inactive drivers:") w.
Proof.
  intros Hle.
  assert (Hcomp : forall a b (l : list DriverDoc), (a <= b)%Z ->
    updateMany (fun d => (dd_lastSeen d <? b - STALE_MS)%Z) deactivated
      (updateMany (fun d => (dd_lastSeen d <? a - STALE_MS)%Z) deactivated l)
    = updateMany (fun d => (dd_lastSeen d <? b - STALE_MS)%Z) deactivated l).
  { intros a b l Hab. unfold updateMany. rewrite map_map. apply map_ext.
    intros d. destruct (Z.ltb_spec (dd_lastSeen d) (a - STALE_MS)) as [Ha|Ha];
      [|reflexivity].
    cbn [deactivated dd_lastSeen].
    destruct (Z.ltb_spec (dd_lastSeen d) (b - STALE_MS)) as [Hb|Hb]; [reflexivity|lia]. }
  split; [|split; [|reflexivity]].
  - unfold_all. cbn. unfold set_Drivers. cbn. f_equal.
    apply (Hcomp now1 now2 (Drivers w) Hle).
  - unfold_all. cbn. unfold set_Drivers. cbn. f_equal.
    apply (Hcomp now1 now1 (Drivers w)). lia.
Qed.

Lemma cleanup_ticks_compose_witness :
  map dd_isActive
    (Drivers (handle (OnCleanupTick 400000 None)
                (handle (OnCleanupTick 300001 None) Scenario.mongo_registered)))
  = [false].
Proof.
  destruct (cleanup_ticks_compose 300001 400000 Scenario.mongo_registered)
    as [H _]; [lia|].
  rewrite H. reflexivity.
Defined.

(** ** The routes *)

(** X20.  [GET /api/drivers] answers with the active documents of the
    Driver collection and no others, most recently seen first; right after
    a cleanup tick it therefore lists exactly the drivers that were active
    and were last seen no more than 5 minutes before the tick. *)
Theorem drivers_route_after_cleanup (now : Timestamp) (w : World) :
  get_drivers w ≡ₚ filter (fun d => dd_isActive d = true) (Drivers w)
  /\ StronglySorted (fun a b => (dd_lastSeen b <= dd_lastSeen a)%Z) (get_drivers w)
  /\ get_drivers (handle (OnCleanupTick now None) w)
     = sort_desc dd_lastSeen
         (filter (fun d => dd_isActive d = true
                           /\ (now - STALE_MS <= dd_lastSeen d)%Z) (Drivers w)).
Proof.
  unfold get_drivers, find_active.
  split; [apply SortExtras.sort_desc_perm|].
  split; [apply SortExtras.sort_desc_sorted|].
  destruct (MongoServerFacts.cleanup_ok now w) as (-> & _). f_equal.
  induction (Drivers w) as [|d l IH]; [reflexivity|].
  cbn [map]. rewrite !filter_cons, IH.
  destruct (Z.ltb_spec (dd_lastSeen d) (now - STALE_MS)) as [Hlt|Hge].
  - cbn [deactivated dd_isActive].
    rewrite decide_False by discriminate.
    rewrite decide_False by (intros [_ H]; lia). reflexivity.
  - destruct (decide (dd_isActive d = true)) as [Ha|Ha].
    + rewrite decide_True by (split; [exact Ha|lia]). reflexivity.
    + rewrite decide_False by tauto. reflexivity.
Qed.

(** X21.  [GET /api/locations/:deviceId] answers with exactly the
    documents of the device whose timestamp lies in the last [hours]
    hours (24 without the parameter), newest first and without a limit on
    their number; a document older than the window is never returned. *)
Theorem history_route_window (deviceId : string) (hours : option Z)
    (now : Timestamp) (w : World) :
  let start := (now - with_default 24 hours * 60 * 60 * 1000)%Z in
  let L := get_device_locations deviceId hours now w in
  L ≡ₚ filter (fun d => ld_deviceId d = deviceId /\ (start <= ld_timestamp d)%Z)
         (Locations w)
  /\ StronglySorted (fun a b => (ld_timestamp b <= ld_timestamp a)%Z) L
  /\ (forall doc, doc ∈ L <-> doc ∈ Locations w /\ ld_deviceId doc = deviceId
                               /\ (start <= ld_timestamp doc)%Z).
Proof.
  intros start L. subst L. unfold get_device_locations. fold start.
  split; [apply SortExtras.sort_desc_perm|].
  split; [apply SortExtras.sort_desc_sorted|].
  intros doc. rewrite SortExtras.sort_desc_perm, list_elem_of_filter. tauto.
Qed.

(** X22.  The [activeDrivers] figure of [GET /] counts bound sockets,
    not devices: a successful registration on a socket that holds no
    binding raises it by one, also when the device is already bound to
    another socket; a registration on a socket that is bound leaves it
    as it is; the disconnection of a bound socket lowers it by one. *)
Theorem root_route_counts_sockets (s d n : string) (now : Timestamp)
    (f : Fault) (w : World) :
  (activeConnections w !! s = None ->
   get_root (handle (OnRegisterDriver s d n now None) w) = S (get_root w))
  /\ (is_Some (activeConnections w !! s) ->
      get_root (handle (OnRegisterDriver s d n now None) w) = get_root w
      /\ S (get_root (handle (OnDisconnect s now f) w)) = get_root w)
  /\ (activeConnections w !! s = None ->
      get_root (handle (OnDisconnect s now f) w) = get_root w).
Proof.
  unfold get_root.
  destruct (MongoServerFacts.registerDriver_ok s d n now w) as (_ & Hreg & _).
  destruct (MongoServerFacts.disconnect_frame s now f w) as (_ & _ & Hdis & _).
  rewrite Hreg, Hdis. split; [|split].
  - intros Hs. apply map_size_insert_None, Hs.
  - intros Hs. split; [apply map_size_insert_Some, Hs|].
    rewrite map_size_delete_Some by exact Hs.
    destruct Hs as [x Hx].
    assert (Hpos : size (activeConnections w) <> 0).
    { intros H0. apply map_size_empty_iff in H0. rewrite H0 in Hx.
      rewrite lookup_empty in Hx. discriminate. }
    lia.
  - intros Hs. apply map_size_delete_None, Hs.
Qed.

(** ** The unique index of the Driver collection *)

Lemma Forall2_same_ids (l l' : list DriverDoc) :
  Forall2 (fun d d' => dd_deviceId d' = dd_deviceId d
                       /\ (dd_isActive d = false -> dd_isActive d' = false))
    l l' ->
  map dd_deviceId l' = map dd_deviceId l.
Proof.
  induction 1 as [|x y l l' [Hxy _] _ IH]; [reflexivity|].
  cbn [map]. rewrite Hxy, IH. reflexivity.
Qed.

(** X24.  No handler and no cleanup tick ever writes a second document
    under a device id: when the Driver collection holds each device id
    once, it still does after any event, whatever fails. *)
Theorem active_Driver_collection_stays_unique (e : Event) (w : World) :
  NoDup (map dd_deviceId (Drivers w)) ->
  NoDup (map dd_deviceId (Drivers (handle e w))).
Proof.
  intros Hnd.
  destruct (is_registration e) eqn:He.
  - destruct e as [s d n now f| | | |]; try discriminate.
    unfold_all. cbn. destruct (faulty f 0); cbn; [exact Hnd|].
    assert (Hu : NoDup (map dd_deviceId
               (findOneAndUpdate (fun x => String.eqb (dd_deviceId x) d)
                  (fun x => mkDriverDoc (dd_deviceId x) n true now
                              (dd_currentLocation x))
                  (Some (mkDriverDoc d n true now None)) (Drivers w))))
      by (apply (CollectionExtras.upsert_keeps_unique dd_deviceId d); auto).
    destruct (faulty f 1); cbn; exact Hu.
  - pose proof (MongoServerFacts.inactive_until_registration e w He) as Hf.
    rewrite (Forall2_same_ids _ _ Hf). exact Hnd.
Qed.

Lemma active_Driver_collection_stays_unique_witness :
  NoDup (map dd_deviceId
           (Drivers (handle (OnRegisterDriver "s2" "D1" "Bob" 9 None)
                       Scenario.mongo_registered))).
Proof.
  apply (active_Driver_collection_stays_unique
           (OnRegisterDriver "s2" "D1" "Bob" 9 None) Scenario.mongo_registered).
  apply NoDup_singleton.
Defined.

End MongoServerExtras.
